(** * Queen Koba backend: cart, checkout and pricing

    A shallow embedding of the two editions of the storefront backend,
    [queenkoba_mongodb.py] (document store) and [queenkoba_postgresql.py]
    (relational store), and the properties of their pricing, cart,
    checkout and registration handlers.

    Conventions of the embedding.
    - Python [float] arithmetic is not re-implemented: the operations the
      handlers use ([*], [+], [round(_, 2)], the [int] to [float] coercion
      and decimal literals) are the members of the class [PyFloat].  The
      theorems assume no law about them, so they hold for IEEE doubles.
    - Library services (ObjectId parsing, bcrypt, JWT) are the members of
      the class [Services].
    - A handler is a function from the request and the store to the new
      store and the HTTP response.  What a request reads from the outside
      world (clock, random identifiers) is passed in a record [env].
    - Integers are unbounded ([Z]), as Python's are.  The cart and
      checkout handlers check what they write against the width the
      store gives it, as the driver or the engine does: eight bytes for
      an integer in BSON, the [INTEGER] column of a cart row's quantity,
      the [String(50)] column of an order's payment method.
    - The relational store is a value of [Postgres.db] that meets the
      declared foreign keys, [Postgres.foreign_keys]; the handlers keep
      them, as the engine makes them. *)

From Stdlib Require Import ZArith QArith String Ascii List.
From stdpp Require Import gmap strings list fin_maps pretty sorting.

Local Open Scope string_scope.
Local Open Scope Z_scope.
Local Open Scope list_scope.

(** ** Python floats, as an interface *)

Class PyFloat (F : Type) := {
  (** [x + y] *)
  fadd : F → F → F;
  (** [x * y] *)
  fmul : F → F → F;
  (** the coercion of an [int] operand in mixed arithmetic, [float(n)] *)
  of_int : Z → F;
  (** the literal with digits [m] and [d] decimal places: [flit 1285 1]
      is [128.5] *)
  flit : Z → nat → F;
  (** [round(x, 2)] *)
  round2 : F → F;
  (** the built-in [sum(xs)] over floats.  It is a member of its own:
      from CPython 3.12 on [sum] compensates for rounding errors, so it
      need not return the float that adding the items one by one
      gives. *)
  py_sum : list F → F
}.

(** [total = 0], then [total += x] for each [x] in turn. *)
Definition running_total `{PyFloat F} (xs : list F) : F :=
  foldl fadd (of_int 0) xs.

(** An exact instance on the rationals, used to run the handlers on
    concrete data.  [round2] rounds half to even. *)
Module Exact.

Definition round_half_even (q : Q) : Z :=
  let n := Qnum q in
  let d := Z.pos (Qden q) in
  let fl := n / d in
  let r := 2 * (n mod d) in
  if (r <? d)%Z then fl
  else if (d <? r)%Z then fl + 1
  else if Z.even fl then fl else fl + 1.

Definition pow10 (d : nat) : positive := Pos.pow 10 (Pos.of_nat d).

Definition lit (m : Z) (d : nat) : Q :=
  match d with
  | O => m # 1
  | S _ => Qred (m # pow10 d)
  end.

#[export] Instance Q_float : PyFloat Q := {
  fadd x y := Qred (x + y);
  fmul x y := Qred (x * y);
  of_int n := n # 1;
  flit := lit;
  round2 x := Qred (round_half_even (x * (100 # 1)) # 100);
  py_sum xs := foldl (λ a x, Qred (a + x)) (0 # 1) xs
}.

End Exact.

(** ** Pricing engine: [calculate_prices] *)

Section Pricing.
Context {F : Type} `{!PyFloat F}.

Record price := Price {
  amount : F;
  symbol : string;
  country : string
}.

(** The dict literals of [calculate_prices].  [exchange_rates] keeps the
    insertion order, which is the order [.items()] iterates in. *)
Definition exchange_rates : list (string * F) :=
  [ ("KES", flit 1285 1);
    ("UGX", flit 358234 2);
    ("BIF", flit 28500 1);
    ("CDF", flit 27000 1) ].

Definition currency_symbols : gmap string string :=
  list_to_map [ ("KES", "KSh"); ("UGX", "USh"); ("BIF", "FBu"); ("CDF", "FC") ].

Definition currency_countries : gmap string string :=
  list_to_map [ ("KES", "Kenya"); ("UGX", "Uganda"); ("BIF", "Burundi");
                ("CDF", "DRC Congo") ].

(** One iteration of the loop body: [prices[currency] = {...}].  The
    subscripts [currency_symbols[currency]] and [{...}[currency]] are
    total lookups: the keys come from [exchange_rates], and the three
    literals have the same keys. *)
Definition set_price (base_price_usd : F)
    (prices : gmap string price) (item : string * F) : gmap string price :=
  let '(currency, rate) := item in
  <[ currency := {| amount := round2 (fmul base_price_usd rate);
                    symbol := currency_symbols !!! currency;
                    country := currency_countries !!! currency |} ]> prices.

Definition calculate_prices (base_price_usd : F) : gmap string price :=
  foldl (set_price base_price_usd) ∅ exchange_rates.

(** The rate the table gives for a currency, [exchange_rates.get(c, 1)]
    as [get_cart] and [get_order] read it. *)
Definition rate_or_one (currency : string) : F :=
  default (of_int 1) ((list_to_map exchange_rates : gmap string F) !! currency).

Definition symbol_or_dollar (currency : string) : string :=
  default "$" (currency_symbols !! currency).

End Pricing.

Arguments price : clear implicits.

(** ** Services the handlers call *)

Class Services := {
  (** [bson.ObjectId(s)]: [None] when it raises [InvalidId].  An ObjectId
      value is represented by its rendering [str(oid)]. *)
  ObjectId : string → option string;
  (** [bcrypt.hashpw(password, salt)], decoded *)
  hashpw : string → string → string;
  (** [create_access_token(identity=...)].  A token carries the
      identity, the time it was issued at and a fresh [jti]: what the
      call reads from the clock and from [uuid4] are its second and
      third argument. *)
  create_access_token : string → Z → string → string
}.

(** Exceptions the modelled handlers can raise. *)
Inductive exn :=
| InvalidId          (* bson: malformed ObjectId *)
| DuplicateKeyError  (* pymongo: [_id] already present *)
| KeyError           (* subscript of a missing dict key *)
| AttributeError     (* attribute of [None] *)
| IntegrityError     (* SQL constraint violated at flush *)
| OverflowError      (* bson: an [int] that does not fit eight bytes *)
| DataError.         (* SQL: a value out of the range of its column *)

(** ** Early returns

    A handler body either goes on with a value or has already produced
    its response. *)
Inductive flow (R A : Type) :=
| Next (a : A)
| Reply (r : R).
Arguments Next {R A} a.
Arguments Reply {R A} r.

#[global] Instance flow_ret {R} : MRet (flow R) := λ A a, Next a.
#[global] Instance flow_bind {R} : MBind (flow R) := λ A B f m,
  match m with
  | Next a => f a
  | Reply r => Reply r
  end.

(** [if not b: return r] *)
Definition require {R} (b : bool) (r : R) : flow R unit :=
  if b then Next () else Reply r.

(** [x = o], returning [r] when there is no value *)
Definition expect {R A} (o : option A) (r : R) : flow R A :=
  match o with
  | Some a => Next a
  | None => Reply r
  end.

(** A response produced before any write leaves the store as it was. *)
Definition finish {S R} (s : S) (body : flow R (S * R)) : S * R :=
  match body with
  | Next out => out
  | Reply r => (s, r)
  end.

(** Truthiness of [data.get(key)] for a string and for an integer field. *)
Definition truthy_str (o : option string) : bool :=
  match o with
  | Some s => negb (String.eqb s "")
  | None => false
  end.

Definition truthy_int (o : option Z) : bool :=
  match o with
  | Some n => negb (n =? 0)%Z
  | None => false
  end.

(** [s.upper()] on ASCII and [s[:8]] *)
Definition upper_ascii (c : ascii) : ascii :=
  let n := nat_of_ascii c in
  if (97 <=? n)%nat && (n <=? 122)%nat then ascii_of_nat (n - 32) else c.

Fixpoint upper (s : string) : string :=
  match s with
  | EmptyString => EmptyString
  | String c rest => String (upper_ascii c) (upper rest)
  end.

Definition order_code (uuid : string) : string := upper (substring 0 8 uuid).

(** The integers a store holds: BSON encodes an [int] in at most eight
    bytes, an [INTEGER] column holds four. *)
Definition int64 (n : Z) : bool := (- 2 ^ 63 <=? n) && (n <? 2 ^ 63).

Definition int32 (n : Z) : bool := (- 2 ^ 31 <=? n) && (n <? 2 ^ 31).

(** The strings a [String(n)] column holds: at most [n] characters. *)
Definition varchar (n : nat) (s : string) : bool := (String.length s <=? n)%nat.

(** * Document-store edition ([queenkoba_mongodb.py]) *)

Module Mongo.
Section Edition.
Context {F : Type} `{!PyFloat F} `{!Services}.

(** *** Documents *)

Record product := Product {
  name : string;
  category : string;
  base_price_usd : F;
  prices : gmap string (price F);
  in_stock : bool
}.

Record cart_item := CartItem {
  product_id : string;
  quantity : Z;
  added_at : Z
}.

(** Every writer of the users collection ([register], the seed) stores
    both [cart] and [orders], so the reads [user.get('cart', [])] and
    [user.get('orders', [])] are reads of the field.  A cart line is
    identified by the product id the request carried, as a string. *)
Record user := User {
  username : string;
  email : string;
  password_hash : string;
  user_country : string;
  preferred_currency : string;
  created_at : Z;
  updated_at : Z;
  role : string;
  cart : list cart_item;
  orders : list string
}.

Record order_item := OrderItem {
  oi_product_id : string;
  oi_product_name : string;
  oi_quantity : Z;
  oi_price_per_item : F;
  oi_item_total : F
}.

Record order := Order {
  order_id : string;
  o_user_id : string;
  items : list order_item;
  total_usd : F;
  shipping_address : string;
  payment_method : string;
  payment_status : string;
  order_status : string;
  o_created_at : Z;
  o_updated_at : Z
}.

(** The three collections, keyed by [_id]. *)
Record db := Db {
  db_users : gmap string user;
  db_products : gmap string product;
  db_orders : gmap string order
}.

(** *** Requests *)

(** What one request reads from outside the store: [clock k] is the
    [k]-th reading of the clock, [uuid4] is [str(uuid.uuid4())] (no
    handler draws two), [inserted_id] the [_id] the driver generates
    for [insert_one], [salt] is [bcrypt.gensalt()]. *)
Record env := Env {
  clock : nat → Z;
  uuid4 : string;
  inserted_id : string;
  salt : string
}.

(** JSON bodies.  A field is [None] when the key is absent; fields are
    typed as the handlers use them. *)
Record register_body := RegisterBody {
  rb_username : option string;
  rb_email : option string;
  rb_password : option string;
  rb_country : option string;
  rb_preferred_currency : option string;
  rb_role : option string
}.

Record cart_body := CartBody {
  cb_product_id : option string;
  cb_quantity : option Z
}.

Record checkout_body := CheckoutBody {
  ck_shipping_address : option string;
  ck_payment_method : option string
}.

(** *** Responses *)

Record cart_view := CartViewItem {
  cv_item : cart_item;
  cv_product : option (string * F)  (* product_name, product_price *)
}.

Inductive response :=
| Registered (access_token uid uname mail ctry currency rl : string)
| CartUpdated (message : string) (cart_count : nat)
| CartTotals (lines : list cart_view) (usd local : F) (currency sym : string)
| OrderCreated (code order_number : string) (total : F) (items_count : nat)
| Error (code : Z) (error : string)
| Raised (x : exn).

Definition status (r : response) : Z :=
  match r with
  | Registered _ _ _ _ _ _ _ => 201
  | CartUpdated _ _ | CartTotals _ _ _ _ _ | OrderCreated _ _ _ _ => 200
  | Error code _ => code
  | Raised _ => 500
  end.

(** *** Store operations *)

Definition set_users (us : gmap string user) (s : db) : db :=
  {| db_users := us; db_products := db_products s; db_orders := db_orders s |}.

Definition set_orders (os : gmap string order) (s : db) : db :=
  {| db_users := db_users s; db_products := db_products s; db_orders := os |}.

(** [{'$set': {'cart': c, 'updated_at': t}}] *)
Definition set_cart (c : list cart_item) (t : Z) (u : user) : user :=
  {| username := username u; email := email u;
     password_hash := password_hash u; user_country := user_country u;
     preferred_currency := preferred_currency u;
     created_at := created_at u; updated_at := t; role := role u;
     cart := c; orders := orders u |}.

(** [{'$set': {'orders': os}}] *)
Definition set_user_orders (os : list string) (u : user) : user :=
  {| username := username u; email := email u;
     password_hash := password_hash u; user_country := user_country u;
     preferred_currency := preferred_currency u;
     created_at := created_at u; updated_at := updated_at u;
     role := role u; cart := cart u; orders := os |}.

(** [users.update_one({'_id': id}, {'$set': ...})] *)
Definition update_user (id : string) (f : user → user) (s : db) : db :=
  set_users (alter f id (db_users s)) s.

(** [users.find_one({'email': e})] and [{'username': n}], as tests *)
Definition email_registered (e : string) (s : db) : bool :=
  bool_decide (map_Exists (λ _ u, email u = e) (db_users s)).

Definition username_taken (n : string) (s : db) : bool :=
  bool_decide (map_Exists (λ _ u, username u = n) (db_users s)).

(** *** [POST /auth/register] *)

(** The document [user = {...}] that [register] builds. *)
Definition new_user (e : env) (data : register_body) : user :=
  {| username := default "" (rb_username data);
     email := default "" (rb_email data);
     password_hash := hashpw (default "" (rb_password data)) (salt e);
     user_country := default "Kenya" (rb_country data);
     preferred_currency := default "KES" (rb_preferred_currency data);
     created_at := clock e 0;
     updated_at := clock e 1;
     role := "customer";
     cart := [];
     orders := [] |}.

Definition register (e : env) (data : register_body) (s : db) : db * response :=
  finish s (
    require (truthy_str (rb_username data)) (Error 400 "username is required");;
    require (truthy_str (rb_email data)) (Error 400 "email is required");;
    require (truthy_str (rb_password data)) (Error 400 "password is required");;
    require (negb (email_registered (default "" (rb_email data)) s))
            (Error 400 "Email already registered");;
    require (negb (username_taken (default "" (rb_username data)) s))
            (Error 400 "Username already taken");;
    let u := new_user e data in
    (* insert_one *)
    require (bool_decide (db_users s !! inserted_id e = None))
            (Raised DuplicateKeyError);;
    let user_id := inserted_id e in
    mret (set_users (<[user_id := u]> (db_users s)) s,
          Registered (create_access_token user_id (clock e 2) (uuid4 e))
                     user_id (username u)
                     (email u) (user_country u) (preferred_currency u) (role u))).

(** *** [GET /cart] *)

(** The loop over the cart: annotates the lines whose product is found
    and adds them to [total_usd]. *)
Fixpoint cart_totals (ps : gmap string product) (cart_items : list cart_item)
    (total_usd : F) : flow response (F * list cart_view) :=
  match cart_items with
  | [] => Next (total_usd, [])
  | item :: rest =>
      oid ← expect (ObjectId (product_id item)) (Raised InvalidId);
      match ps !! oid with
      | Some product =>
          '(total, views) ← cart_totals ps rest
             (fadd total_usd (fmul (base_price_usd product) (of_int (quantity item))));
          mret (total, {| cv_item := item;
                          cv_product := Some (name product, base_price_usd product) |}
                       :: views)
      | None =>
          '(total, views) ← cart_totals ps rest total_usd;
          mret (total, {| cv_item := item; cv_product := None |} :: views)
      end
  end.

Definition get_cart (user_id : string) (s : db) : db * response :=
  finish s (
    uoid ← expect (ObjectId user_id) (Raised InvalidId);
    user ← expect (db_users s !! uoid) (Error 404 "User not found");
    '(total_usd, views) ← cart_totals (db_products s) (cart user) (of_int 0);
    let currency := preferred_currency user in
    let total_local := fmul total_usd (rate_or_one currency) in
    mret (s, CartTotals views (round2 total_usd) (round2 total_local)
                        currency (symbol_or_dollar currency))).

(** *** [POST /cart/add] *)

(** The search loop: the first line with this product id has its
    quantity increased, and the flag [product_in_cart] says whether
    there was one. *)
Fixpoint bump (pid : string) (qty : Z) (cart : list cart_item)
    : list cart_item * bool :=
  match cart with
  | [] => ([], false)
  | item :: rest =>
      if String.eqb (product_id item) pid
      then ({| product_id := product_id item;
               quantity := quantity item + qty;
               added_at := added_at item |} :: rest, true)
      else let '(rest', found) := bump pid qty rest in (item :: rest', found)
  end.

(** The cart after the loop and the [if not product_in_cart] branch,
    with the time written to [updated_at]: the clock is read for
    [added_at] first when a line is appended. *)
Definition merge_line (e : env) (pid : string) (qty : Z) (cart : list cart_item)
    : list cart_item * Z :=
  let '(bumped, product_in_cart) := bump pid qty cart in
  if product_in_cart then (bumped, clock e 0)
  else (bumped ++ [ {| product_id := pid; quantity := qty;
                       added_at := clock e 0 |} ], clock e 1).

(** The quantity the loop leaves on the line of [pid]: what the first
    line with this id held plus [qty], or [qty] on the line appended. *)
Fixpoint new_quantity (pid : string) (qty : Z) (cart : list cart_item) : Z :=
  match cart with
  | [] => qty
  | item :: rest =>
      if String.eqb (product_id item) pid then quantity item + qty
      else new_quantity pid qty rest
  end.

(** [update_one] encodes the cart it is given.  The lines it read from
    the store encode as they were stored; the one integer the request
    computed, the quantity of the line it touched, is refused with
    [OverflowError] when it does not fit eight bytes, and the handler's
    [except] answers 500 with nothing written. *)
Definition add_to_cart (e : env) (user_id : string) (data : cart_body) (s : db)
    : db * response :=
  finish s (
    require (truthy_str (cb_product_id data) && truthy_int (cb_quantity data))
            (Error 400 "Product ID and quantity required");;
    let pid := default "" (cb_product_id data) in
    let qty := default 0 (cb_quantity data) in
    poid ← expect (ObjectId pid) (Raised InvalidId);
    _ ← expect (db_products s !! poid) (Error 404 "Product not found");
    uoid ← expect (ObjectId user_id) (Raised InvalidId);
    user ← expect (db_users s !! uoid) (Error 404 "User not found");
    let '(new_cart, now) := merge_line e pid qty (cart user) in
    require (int64 (new_quantity pid qty (cart user))) (Raised OverflowError);;
    mret (update_user uoid (set_cart new_cart now) s,
          CartUpdated "Product added to cart" (length new_cart))).

(** *** [DELETE /cart/remove/<product_id>] *)

Definition remove_from_cart (e : env) (user_id : string) (pid : string) (s : db)
    : db * response :=
  finish s (
    uoid ← expect (ObjectId user_id) (Raised InvalidId);
    user ← expect (db_users s !! uoid) (Error 404 "User not found");
    let new_cart := filter (λ item, product_id item ≠ pid) (cart user) in
    mret (update_user uoid (set_cart new_cart (clock e 0)) s,
          CartUpdated "Product removed from cart" (length new_cart))).

(** *** [POST /checkout] *)

(** The pricing loop: a line whose product is found adds its total and
    its snapshot; a line whose product is not found is passed over. *)
Fixpoint price_cart (ps : gmap string product) (cart : list cart_item)
    (total_usd : F) (order_items : list order_item)
    : flow response (F * list order_item) :=
  match cart with
  | [] => Next (total_usd, order_items)
  | item :: rest =>
      oid ← expect (ObjectId (product_id item)) (Raised InvalidId);
      match ps !! oid with
      | Some product =>
          let item_total := fmul (base_price_usd product) (of_int (quantity item)) in
          price_cart ps rest (fadd total_usd item_total)
            (order_items ++ [ {| oi_product_id := oid;
                                 oi_product_name := name product;
                                 oi_quantity := quantity item;
                                 oi_price_per_item := base_price_usd product;
                                 oi_item_total := item_total |} ])
      | None => price_cart ps rest total_usd order_items
      end
  end.

(** The document [order = {...}] that [checkout] builds. *)
Definition new_order (e : env) (user_id : string) (data : checkout_body)
    (total : F) (order_items : list order_item) : order :=
  {| order_id := order_code (uuid4 e);
     o_user_id := user_id;
     items := order_items;
     total_usd := total;
     shipping_address := default "{}" (ck_shipping_address data);
     payment_method := default "card" (ck_payment_method data);
     payment_status := "pending";
     order_status := "processing";
     o_created_at := clock e 0;
     o_updated_at := clock e 1 |}.

Definition checkout (e : env) (user_id : string) (data : checkout_body) (s : db)
    : db * response :=
  finish s (
    uoid ← expect (ObjectId user_id) (Raised InvalidId);
    user ← expect (db_users s !! uoid) (Error 404 "User not found");
    require (negb (length (cart user) =? 0)%nat) (Error 400 "Cart is empty");;
    '(total, order_items) ← price_cart (db_products s) (cart user) (of_int 0) [];
    let o := new_order e user_id data total order_items in
    (* insert_one *)
    require (bool_decide (db_orders s !! inserted_id e = None))
            (Raised DuplicateKeyError);;
    let oid := inserted_id e in
    let s1 := set_orders (<[oid := o]> (db_orders s)) s in
    (* clear the cart *)
    let s2 := update_user uoid (set_cart [] (clock e 2)) s1 in
    (* add the order to the user's orders *)
    let user_orders := orders user ++ [oid] in
    let s3 := update_user uoid (set_user_orders user_orders) s2 in
    mret (s3, OrderCreated (order_id o) oid total (length order_items))).

(** *** What the checkout claims speak of *)

(** The lines of a cart whose product reference resolves, each with the
    product it resolves to. *)
Fixpoint resolved (ps : gmap string product) (cart : list cart_item)
    : list (cart_item * string * product) :=
  match cart with
  | [] => []
  | item :: rest =>
      match ObjectId (product_id item) ≫= λ oid, (oid,.) <$> ps !! oid with
      | Some (oid, prod) => (item, oid, prod) :: resolved ps rest
      | None => resolved ps rest
      end
  end.

Definition line_total (l : cart_item * string * product) : F :=
  let '(item, _, prod) := l in fmul (base_price_usd prod) (of_int (quantity item)).

Definition snapshot (l : cart_item * string * product) : order_item :=
  let '(item, oid, prod) := l in
  {| oi_product_id := oid;
     oi_product_name := name prod;
     oi_quantity := quantity item;
     oi_price_per_item := base_price_usd prod;
     oi_item_total := fmul (base_price_usd prod) (of_int (quantity item)) |}.

(** Every line holds a well-formed id. *)
Definition well_formed (cart : list cart_item) : Prop :=
  Forall (λ item, is_Some (ObjectId (product_id item))) cart.

(** The carts of the store hold well-formed ids only: [add_to_cart]
    parses the id before it stores it, and no other handler puts a line
    in a cart. *)
Definition carts_well_formed (s : db) : Prop :=
  map_Forall (λ _ u, well_formed (cart u)) (db_users s).

End Edition.
End Mongo.

(** * Relational edition ([queenkoba_postgresql.py]) *)

Module Postgres.
Section Edition.
Context {F : Type} `{!PyFloat F} `{!Services}.

(** *** Rows *)

Record user := User {
  name : option string;
  username : option string;
  email : string;
  phone : option string;
  password_hash : string;
  role : string;
  user_country : string;
  preferred_currency : string;
  user_status : string;
  permissions : list string;
  created_at : Z;
  updated_at : Z
}.

Record product := Product {
  p_name : string;
  category : string;
  base_price_usd : F;
  prices : gmap string (price F);
  in_stock : bool
}.

Record cart_item := CartItem {
  ci_id : Z;
  ci_user_id : Z;
  product_id : Z;
  quantity : Z;
  added_at : Z
}.

Record order_item := OrderItem {
  oi_product_id : string;
  oi_product_name : string;
  oi_quantity : Z;
  oi_price_per_item : F;
  oi_item_total : F
}.

Record order := Order {
  o_id : Z;
  order_id : string;
  o_user_id : Z;
  items : list order_item;
  total_usd : F;
  shipping_address : string;
  payment_method : string;
  payment_status : string;
  order_status : string;
  o_created_at : Z;
  o_updated_at : Z
}.

(** The tables.  [users] and [products] are keyed by primary key;
    [cart_items] and [orders] are kept in insertion order, the order in
    which the unordered queries [.all()] and [.first()] see the rows. *)
Record db := Db {
  db_users : gmap Z user;
  db_products : gmap Z product;
  db_cart_items : list cart_item;
  db_orders : list order
}.

(** The foreign keys the models declare: [cart_items.user_id] and
    [orders.user_id] on [users.id], [cart_items.product_id] on
    [products.id].  The engine refuses a write that would break one, so
    a store of the application meets them; the handlers below fail
    where the engine would, and keep them ([foreign_keys_kept]). *)
Definition foreign_keys (s : db) : Prop :=
  Forall (λ r, is_Some (db_users s !! ci_user_id r) ∧
               is_Some (db_products s !! product_id r)) (db_cart_items s) ∧
  Forall (λ o, is_Some (db_users s !! o_user_id o)) (db_orders s).

(** The tables a handler inserts into, each with its id sequence. *)
Inductive table := Users | Products | CartItems | Orders.

(** The id a sequence hands to a new row.  A sequence never goes back
    and never hands out a value twice: it is ahead of the largest id
    left in the table, [ids] being the ids there, by the number
    [skipped] of values that went to rows deleted since or to inserts
    that were rolled back. *)
Definition nextval (ids : list Z) (skipped : nat) : Z :=
  1 + foldr Z.max 0 ids + Z.of_nat skipped.

(** *** Requests *)

(** What one request reads from outside the tables: [clock k] is the
    [k]-th reading of the clock, [uuid4] is [str(uuid.uuid4())] (no
    handler draws two), [salt] is [bcrypt.gensalt()], [skipped t] is
    how far the id sequence of table [t] is ahead of its rows. *)
Record env := Env {
  clock : nat → Z;
  uuid4 : string;
  salt : string;
  skipped : table → nat
}.

Record signup_body := SignupBody {
  sb_email : option string;
  sb_password : option string;
  sb_name : option string;
  sb_phone : option string;
  sb_role : option string
}.

Record cart_body := CartBody {
  cb_product_id : option Z;
  cb_quantity : option Z
}.

Record checkout_body := CheckoutBody {
  ck_shipping_address : option string;
  ck_payment_method : option string
}.

(** *** Responses *)

Record cart_view := CartViewItem {
  cv_product_id : string;
  cv_product_name : string;
  cv_product_price : F;
  cv_quantity : Z
}.

Inductive response :=
| SignedUp (token uid : string) (nm mail ph : string)
| CartUpdated (message : string)
| CartTotals (lines : list cart_view) (usd : F)
| OrderCreated (code : string) (total : F)
| Error (code : Z) (message : string)
| Raised (x : exn).

Definition status (r : response) : Z :=
  match r with
  | SignedUp _ _ _ _ _ => 201
  | CartUpdated _ | CartTotals _ _ | OrderCreated _ _ => 200
  | Error code _ => code
  | Raised _ => 500
  end.

(** *** Queries *)

(** [CartItem.query.filter_by(user_id=user_id).all()] *)
Definition cart_of (user_id : Z) (s : db) : list cart_item :=
  filter (λ r, ci_user_id r = user_id) (db_cart_items s).

(** The relationship [User.orders]: the orders whose [user_id] is the
    user's. *)
Definition orders_of (user_id : Z) (s : db) : list order :=
  filter (λ o, o_user_id o = user_id) (db_orders s).

(** [User.query.filter_by(email=e).first()], as a test *)
Definition email_registered (e : string) (s : db) : bool :=
  bool_decide (map_Exists (λ _ u, email u = e) (db_users s)).

(** *** [POST /auth/signup] *)

(** The row [User(...)] that [signup] builds; the columns it does not
    name take their declared defaults. *)
Definition new_user (e : env) (data : signup_body) : user :=
  {| name := Some (default "" (sb_name data));
     username := None;
     email := default "" (sb_email data);
     phone := Some (default "" (sb_phone data));
     password_hash := hashpw (default "" (sb_password data)) (salt e);
     role := "customer";
     user_country := "Kenya";
     preferred_currency := "KES";
     user_status := "active";
     permissions := [];
     created_at := clock e 0;
     updated_at := clock e 1 |}.

Definition signup (e : env) (data : signup_body) (s : db) : db * response :=
  finish s (
    require (bool_decide (is_Some (sb_email data)) &&
             bool_decide (is_Some (sb_password data)) &&
             bool_decide (is_Some (sb_name data)) &&
             bool_decide (is_Some (sb_phone data)))
            (Error 400 "Name, email, phone and password required");;
    require (negb (email_registered (default "" (sb_email data)) s))
            (Error 400 "Email already registered");;
    let u := new_user e data in
    let uid := nextval (map fst (map_to_list (db_users s))) (skipped e Users) in
    mret ({| db_users := <[uid := u]> (db_users s);
             db_products := db_products s;
             db_cart_items := db_cart_items s;
             db_orders := db_orders s |},
          SignedUp (create_access_token (pretty uid) (clock e 2) (uuid4 e))
                   (pretty uid)
                   (default "" (sb_name data)) (email u)
                   (default "" (sb_phone data)))).

(** *** [GET /cart] *)

(** [item.product.<attribute>]: the relationship is [None] when the row
    is missing, and reading an attribute of it raises. *)
Definition product_of (ps : gmap Z product) (item : cart_item)
    : flow response product :=
  expect (ps !! product_id item) (Raised AttributeError).

Fixpoint cart_lines (ps : gmap Z product) (cart_items : list cart_item)
    : flow response (list (cart_item * product)) :=
  match cart_items with
  | [] => Next []
  | item :: rest =>
      prod ← product_of ps item;
      lines ← cart_lines ps rest;
      mret ((item, prod) :: lines)
  end.

Definition line_total (l : cart_item * product) : F :=
  fmul (base_price_usd l.2) (of_int (quantity l.1)).

Definition get_cart (user_id : Z) (s : db) : db * response :=
  finish s (
    lines ← cart_lines (db_products s) (cart_of user_id s);
    let total_usd := py_sum (line_total <$> lines) in
    mret (s, CartTotals
               ((λ l, {| cv_product_id := pretty (product_id l.1);
                         cv_product_name := p_name l.2;
                         cv_product_price := base_price_usd l.2;
                         cv_quantity := quantity l.1 |}) <$> lines)
               (round2 total_usd))).

(** *** [POST /cart/add] *)

(** [filter_by(user_id=.., product_id=..).first()] followed by
    [cart_item.quantity += qty]: the first matching row is updated in
    place; the flag says whether there was one. *)
Fixpoint bump (uid pid qty : Z) (rows : list cart_item) : list cart_item * bool :=
  match rows with
  | [] => ([], false)
  | r :: rest =>
      if bool_decide (ci_user_id r = uid) && bool_decide (product_id r = pid)
      then ({| ci_id := ci_id r; ci_user_id := ci_user_id r;
               product_id := product_id r;
               quantity := quantity r + qty;
               added_at := added_at r |} :: rest, true)
      else let '(rest', found) := bump uid pid qty rest in (r :: rest', found)
  end.

Definition set_cart_items (rows : list cart_item) (s : db) : db :=
  {| db_users := db_users s; db_products := db_products s;
     db_cart_items := rows; db_orders := db_orders s |}.

(** The table after [add_to_cart]'s [if cart_item: ... else: ...]. *)
Definition merge_row (e : env) (uid pid qty : Z) (rows : list cart_item)
    : list cart_item :=
  let '(bumped, found) := bump uid pid qty rows in
  if found then bumped
  else rows ++ [ {| ci_id := nextval (ci_id <$> rows) (skipped e CartItems);
                    ci_user_id := uid; product_id := pid; quantity := qty;
                    added_at := clock e 0 |} ].

(** Whether the user has a row for the product. *)
Definition has_row (uid pid : Z) (rows : list cart_item) : bool :=
  existsb (λ r, bool_decide (ci_user_id r = uid) && bool_decide (product_id r = pid))
          rows.

(** The quantity the request leaves on the row it updates, or on the row
    it inserts. *)
Fixpoint new_quantity (uid pid qty : Z) (rows : list cart_item) : Z :=
  match rows with
  | [] => qty
  | r :: rest =>
      if bool_decide (ci_user_id r = uid) && bool_decide (product_id r = pid)
      then quantity r + qty
      else new_quantity uid pid qty rest
  end.

(** The flush of the commit: a quantity out of the range of the
    [INTEGER] column is refused with [DataError], and the INSERT of a
    row for a caller without a [users] row with [IntegrityError]; both
    leave nothing written and are answered 500.  The product of the row
    exists, [get_or_404] has found it. *)
Definition add_to_cart (e : env) (user_id : Z) (data : cart_body) (s : db)
    : db * response :=
  finish s (
    pid ← expect (cb_product_id data) (Raised KeyError);
    _ ← expect (db_products s !! pid) (Error 404 "Not Found");
    qty ← expect (cb_quantity data) (Raised KeyError);
    let rows := db_cart_items s in
    require (int32 (new_quantity user_id pid qty rows)) (Raised DataError);;
    require (has_row user_id pid rows
             || bool_decide (is_Some (db_users s !! user_id)))
            (Raised IntegrityError);;
    mret (set_cart_items (merge_row e user_id pid qty rows) s,
          CartUpdated "Product added to cart")).

(** *** [POST /checkout] *)

(** The pricing loop.  There is no test on [item.product]; the foreign
    key of [cart_items] is what makes every row have one. *)
Fixpoint price_cart (ps : gmap Z product) (cart_items : list cart_item)
    (total_usd : F) (order_items : list order_item)
    : flow response (F * list order_item) :=
  match cart_items with
  | [] => Next (total_usd, order_items)
  | item :: rest =>
      prod ← product_of ps item;
      let item_total := fmul (base_price_usd prod) (of_int (quantity item)) in
      price_cart ps rest (fadd total_usd item_total)
        (order_items ++ [ {| oi_product_id := pretty (product_id item);
                             oi_product_name := p_name prod;
                             oi_quantity := quantity item;
                             oi_price_per_item := base_price_usd prod;
                             oi_item_total := item_total |} ])
  end.

(** The row [Order(...)] that [checkout] builds. *)
Definition new_order (e : env) (user_id : Z) (data : checkout_body)
    (total : F) (order_items : list order_item) (s : db) : order :=
  {| o_id := nextval (o_id <$> db_orders s) (skipped e Orders);
     order_id := order_code (uuid4 e);
     o_user_id := user_id;
     items := order_items;
     total_usd := total;
     shipping_address := default "{}" (ck_shipping_address data);
     payment_method := default "card" (ck_payment_method data);
     payment_status := "pending";
     order_status := "processing";
     o_created_at := clock e 0;
     o_updated_at := clock e 1 |}.

Definition checkout (e : env) (user_id : Z) (data : checkout_body) (s : db)
    : db * response :=
  finish s (
    let cart_items := cart_of user_id s in
    require (negb (length cart_items =? 0)%nat) (Error 400 "Cart is empty");;
    '(total, order_items) ← price_cart (db_products s) cart_items (of_int 0) [];
    let o := new_order e user_id data total order_items s in
    (* flush of the INSERT: orders.payment_method is a String(50),
       orders.order_id is UNIQUE, and orders.user_id is a foreign key *)
    require (varchar 50 (payment_method o)) (Raised DataError);;
    require (bool_decide (Forall (λ o', order_id o' ≠ order_id o) (db_orders s)))
            (Raised IntegrityError);;
    require (bool_decide (is_Some (db_users s !! user_id)))
            (Raised IntegrityError);;
    (* CartItem.query.filter_by(user_id=user_id).delete(); commit *)
    mret ({| db_users := db_users s;
             db_products := db_products s;
             db_cart_items := filter (λ r, ci_user_id r ≠ user_id) (db_cart_items s);
             db_orders := db_orders s ++ [o] |},
          OrderCreated (order_id o) total)).

Definition snapshot (l : cart_item * product) : order_item :=
  {| oi_product_id := pretty (product_id l.1);
     oi_product_name := p_name l.2;
     oi_quantity := quantity l.1;
     oi_price_per_item := base_price_usd l.2;
     oi_item_total := line_total l |}.

(** The lines of a cart whose product row exists. *)
Definition resolved (ps : gmap Z product) (cart_items : list cart_item)
    : list (cart_item * product) :=
  omap (λ item, (item,.) <$> ps !! product_id item) cart_items.

End Edition.
End Postgres.

(** * Concrete stores and requests

    Small stores on which the handlers are run: prices are exact
    rationals, ObjectIds are 24 hexadecimal digits. *)

Module Sample.
Import Exact.

Definition is_hex (c : ascii) : bool :=
  let n := nat_of_ascii c in
  ((48 <=? n) && (n <=? 57) || (97 <=? n) && (n <=? 102)
   || (65 <=? n) && (n <=? 70))%nat.

Definition lower_ascii (c : ascii) : ascii :=
  let n := nat_of_ascii c in
  if ((65 <=? n) && (n <=? 90))%nat then ascii_of_nat (n + 32) else c.

Fixpoint lower (s : string) : string :=
  match s with
  | EmptyString => EmptyString
  | String c rest => String (lower_ascii c) (lower rest)
  end.

Definition ObjectId_hex (s : string) : option string :=
  if ((String.length s =? 24)%nat && forallb is_hex (list_ascii_of_string s))%bool
  then Some (lower s) else None.

Definition services : Services :=
  {| ObjectId := ObjectId_hex;
     hashpw password salt := salt +:+ password;
     create_access_token identity iat jti :=
       "token:" +:+ identity +:+ ":" +:+ pretty iat +:+ ":" +:+ jti |}.

(** **** Document store *)

Definition cream_id := "aaaaaaaaaaaaaaaaaaaaaaaa".
(** The same ObjectId, spelled in upper case. *)
Definition cream_upper := "AAAAAAAAAAAAAAAAAAAAAAAA".
Definition toner_id := "bbbbbbbbbbbbbbbbbbbbbbbb".
Definition gone_id := "cccccccccccccccccccccccc".
Definition ann_id := "111111111111111111111111".
Definition new_id := "999999999999999999999999".

Definition m_product (nm : string) (usd : Q) : Mongo.product :=
  {| Mongo.name := nm; Mongo.category := "Skincare";
     Mongo.base_price_usd := usd;
     Mongo.prices := calculate_prices usd; Mongo.in_stock := true |}.

Definition m_products : gmap string Mongo.product :=
  {[ cream_id := m_product "Cream" (10 # 1);
     toner_id := m_product "Toner" (5 # 1) ]}.

Definition ann (cart : list Mongo.cart_item) : Mongo.user :=
  {| Mongo.username := "ann"; Mongo.email := "ann@example.com";
     Mongo.password_hash := "h"; Mongo.user_country := "Kenya";
     Mongo.preferred_currency := "KES";
     Mongo.created_at := 0; Mongo.updated_at := 0;
     Mongo.role := "customer"; Mongo.cart := cart; Mongo.orders := [] |}.

Definition m_store (cart : list Mongo.cart_item) : Mongo.db :=
  {| Mongo.db_users := {[ ann_id := ann cart ]};
     Mongo.db_products := m_products;
     Mongo.db_orders := ∅ |}.

(** Two lines that resolve around one whose product is gone. *)
Definition mixed_cart : list Mongo.cart_item :=
  [ Mongo.CartItem cream_id 2 1; Mongo.CartItem gone_id 1 2;
    Mongo.CartItem toner_id 1 3 ].

Definition gone_cart : list Mongo.cart_item := [ Mongo.CartItem gone_id 1 2 ].

Definition m_env (t : Z) : Mongo.env :=
  {| Mongo.clock k := t + Z.of_nat k;
     Mongo.uuid4 := "3f2a9c1e-0b7d-4c55-9a10-6e2f8d4b7c33";
     Mongo.inserted_id := new_id;
     Mongo.salt := "salt" |}.

Definition m_checkout : Mongo.checkout_body := Mongo.CheckoutBody None None.

Definition m_register (rl : option string) : Mongo.register_body :=
  Mongo.RegisterBody (Some "bob") (Some "bob@example.com") (Some "secret")
                     None None rl.

(** **** Relational store *)

Definition p_product (nm : string) (usd : Q) : Postgres.product :=
  {| Postgres.p_name := nm; Postgres.category := "Skincare";
     Postgres.base_price_usd := usd;
     Postgres.prices := calculate_prices usd; Postgres.in_stock := true |}.

Definition p_products : gmap Z Postgres.product :=
  {[ 1 := p_product "Cream" (10 # 1); 2 := p_product "Toner" (5 # 1) ]}.

Definition p_ann : Postgres.user :=
  {| Postgres.name := Some "Ann"; Postgres.username := None;
     Postgres.email := "ann@example.com"; Postgres.phone := Some "0700";
     Postgres.password_hash := "h"; Postgres.role := "customer";
     Postgres.user_country := "Kenya"; Postgres.preferred_currency := "KES";
     Postgres.user_status := "active"; Postgres.permissions := [];
     Postgres.created_at := 0; Postgres.updated_at := 0 |}.

Definition p_store (rows : list Postgres.cart_item) : Postgres.db :=
  {| Postgres.db_users := {[ 1 := p_ann ]};
     Postgres.db_products := p_products;
     Postgres.db_cart_items := rows;
     Postgres.db_orders := [] |}.

Definition p_cart : list Postgres.cart_item :=
  [ Postgres.CartItem 1 1 1 2 1; Postgres.CartItem 2 1 2 1 3 ].

Definition p_env (t : Z) : Postgres.env :=
  {| Postgres.clock k := t + Z.of_nat k;
     Postgres.uuid4 := "3f2a9c1e-0b7d-4c55-9a10-6e2f8d4b7c33";
     Postgres.salt := "salt";
     Postgres.skipped _ := 0%nat |}.

Definition p_checkout : Postgres.checkout_body := Postgres.CheckoutBody None None.

Definition p_signup (rl : option string) : Postgres.signup_body :=
  Postgres.SignupBody (Some "bob@example.com") (Some "secret") (Some "Bob")
                      (Some "0711") rl.

End Sample.

(** * Further services *)

(** [bcrypt.checkpw(password, hashed)] *)
Class Bcrypt := {
  checkpw : string → string → bool
}.

(** [s.upper()] on arbitrary text, as the promotion handlers use it. *)
Class PyStr := {
  str_upper : string → string
}.

(** [.first()] and [find_one] on an enumeration of the candidates: the
    first that matches.  Which of several matching records a store
    returns is its own business; the facts proved below hold whichever
    it is. *)
Definition first_match {A} (P : A → Prop) `{∀ x, Decision (P x)} (l : list A)
    : option A :=
  head (filter P l).

(** [x or y] on optional text: [x] unless it is [None] or empty. *)
Definition or_else (x y : option string) : option string :=
  if truthy_str x then x else y.

(** * Document-store edition: the remaining routes *)

Module MongoApi.
Import Mongo.
Section Edition.
Context {F : Type} `{!PyFloat F} `{!Services} `{!Bcrypt}.

(** *** [POST /auth/login], [POST /admin/auth/login] *)

Record login_body := LoginBody {
  lb_email : option string;
  lb_password : option string
}.

Inductive auth_response :=
| LoggedIn (access_token uid uname mail ctry currency rl : string)
| AdminLoggedIn (token uid mail full_name rl : string) (permissions : list string)
| AuthError (code : Z) (error : string).

Definition auth_status (r : auth_response) : Z :=
  match r with
  | LoggedIn _ _ _ _ _ _ _ | AdminLoggedIn _ _ _ _ _ _ => 200
  | AuthError code _ => code
  end.

(** [users.find_one({'email': e})] *)
Definition find_by_email (e : string) (s : db (F:=F)) : option (string * user) :=
  first_match (λ kv, email kv.2 = e) (map_to_list (db_users s)).

Definition login (e : env) (data : login_body) (s : db (F:=F)) : auth_response :=
  if negb (truthy_str (lb_email data)) || negb (truthy_str (lb_password data))
  then AuthError 400 "Email and password required"
  else
    match find_by_email (default "" (lb_email data)) s with
    | None => AuthError 401 "Invalid credentials"
    | Some (uid, user) =>
        if negb (checkpw (default "" (lb_password data)) (password_hash user))
        then AuthError 401 "Invalid credentials"
        else LoggedIn (create_access_token uid (clock e 0) (uuid4 e)) uid
                      (username user) (email user)
                      (user_country user) (preferred_currency user) (role user)
    end.

Definition admin_login (e : env) (data : login_body) (s : db (F:=F))
    : auth_response :=
  if negb (truthy_str (lb_email data)) || negb (truthy_str (lb_password data))
  then AuthError 400 "Email and password required"
  else
    match find_by_email (default "" (lb_email data)) s with
    | None => AuthError 401 "Invalid credentials"
    | Some (uid, user) =>
        if negb (String.eqb (role user) "admin")
        then AuthError 401 "Invalid credentials"
        else if negb (checkpw (default "" (lb_password data)) (password_hash user))
        then AuthError 401 "Invalid credentials"
        else AdminLoggedIn (create_access_token uid (clock e 0) (uuid4 e)) uid
                           (email user) (username user) "super_admin" ["*"]
    end.

(** *** [GET /products], [GET /products/<product_id>] *)

Inductive product_response :=
| ProductList (count : nat) (products : list (string * product (F:=F)))
| ProductFound (pid : string) (p : product (F:=F))
| ProductError (code : Z) (error : string).

(** [list(products.find())], each document with its [_id] rendered. *)
Definition get_products (s : db (F:=F)) : product_response :=
  let products := map_to_list (db_products s) in
  ProductList (length products) products.

(** The bare [except:] turns the [InvalidId] of a malformed id into 400. *)
Definition get_product (product_id : string) (s : db (F:=F)) : product_response :=
  match ObjectId product_id with
  | None => ProductError 400 "Invalid product ID"
  | Some oid =>
      match db_products s !! oid with
      | None => ProductError 404 "Product not found"
      | Some p => ProductFound oid p
      end
  end.

(** *** [GET /orders], [GET /orders/<order_id>] *)

(** Newest first: [.sort('created_at', -1)]. *)
Definition newer (a b : string * order (F:=F)) : Prop :=
  o_created_at b.2 ≤ o_created_at a.2.

#[global] Instance newer_dec a b : Decision (newer a b) :=
  Z_le_dec (o_created_at b.2) (o_created_at a.2).

(** [orders.find({'user_id': user_id}).sort('created_at', -1)] *)
Definition get_orders (user_id : string) (s : db (F:=F))
    : list (string * order (F:=F)) :=
  merge_sort newer
    (filter (λ kv, o_user_id kv.2 = user_id) (map_to_list (db_orders s))).

Inductive order_response :=
| OrderFound (oid : string) (o : order (F:=F)) (total_local : F)
             (currency currency_symbol : string)
| OrderError (code : Z) (error : string)
| OrderRaised (x : exn).

Definition order_status_code (r : order_response) : Z :=
  match r with
  | OrderFound _ _ _ _ _ => 200
  | OrderError code _ => code
  | OrderRaised _ => 500
  end.

(** The query matches on [_id] and on [user_id]; the local total is
    computed with the currency the user prefers now.  [user.get] on a
    user that is not found raises. *)
Definition get_order (user_id order_id : string) (s : db (F:=F)) : order_response :=
  match ObjectId order_id with
  | None => OrderRaised InvalidId
  | Some oid =>
      match db_orders s !! oid with
      | Some o =>
          if decide (o_user_id o = user_id) then
            match ObjectId user_id with
            | None => OrderRaised InvalidId
            | Some uoid =>
                match db_users s !! uoid with
                | None => OrderRaised AttributeError
                | Some user =>
                    let currency := preferred_currency user in
                    OrderFound oid o (fmul (total_usd o) (rate_or_one currency))
                               currency (symbol_or_dollar currency)
                end
            end
          else OrderError 404 "Order not found"
      | None => OrderError 404 "Order not found"
      end
  end.

(** *** [GET /payment-methods/<country>] *)

Record payment_method_entry := PaymentMethod {
  pm_name : string;
  pm_code : string;
  pm_description : string
}.

Definition payment_methods : list (string * list payment_method_entry) :=
  [ ("Kenya",
     [ PaymentMethod "M-Pesa" "mpesa" "Mobile money";
       PaymentMethod "Airtel Money" "airtel" "Mobile money";
       PaymentMethod "Visa/Mastercard" "card" "Credit/Debit card";
       PaymentMethod "Bank Transfer" "bank" "Direct transfer" ]);
    ("Uganda",
     [ PaymentMethod "MTN Mobile Money" "mtn" "Mobile money";
       PaymentMethod "Airtel Money" "airtel" "Mobile money";
       PaymentMethod "Visa/Mastercard" "card" "Credit/Debit card" ]);
    ("Burundi",
     [ PaymentMethod "Lumicash" "lumicash" "Mobile money";
       PaymentMethod "EcoCash" "ecocash" "Mobile money";
       PaymentMethod "Visa/Mastercard" "card" "Credit/Debit card" ]);
    ("DRC Congo",
     [ PaymentMethod "Orange Money" "orange" "Mobile money";
       PaymentMethod "Vodacom M-Pesa" "mpesa" "Mobile money";
       PaymentMethod "Visa/Mastercard" "card" "Credit/Debit card" ]) ].

(** [payment_methods.get(country, [])] *)
Definition get_payment_methods (country : string) : list payment_method_entry :=
  default [] ((list_to_map payment_methods : gmap string _) !! country).

(** *** [seed_products] *)

(** What a run of the seed reads from outside: the clock, the [_id]s
    the driver generates for the products and for the admin, the salt. *)
Record seed_env := SeedEnv {
  seed_clock : nat → Z;
  seed_product_id : nat → string;
  seed_admin_id : string;
  seed_salt : string
}.

(** [products_to_seed], name, price and category of each (the text and
    image fields, which no route reads, are left out as in [product]),
    with [prices] as the loop after the list sets it. *)
Definition products_to_seed : list (product (F:=F)) :=
  (λ '(nm, usd, cat),
     {| name := nm; category := cat; base_price_usd := usd;
        prices := calculate_prices usd; in_stock := true |})
  <$> [ ("Complex Clarifier Cream", flit 2999 2, "Cream");
        ("Complexion Clarifier Serum", flit 3450 2, "Serum");
        ("Complexion Clarifying Mask", flit 2575 2, "Mask");
        ("Complexion Renewal Scrub", flit 2199 2, "Scrub");
        ("Rich Gentle Foaming Lather", flit 1850 2, "Cleanser");
        ("Eternal Radiance Toner", flit 2325 2, "Toner") ].

(** [insert_many], ordered: documents go in one by one until an [_id]
    is already there; the flag says whether all went in. *)
Fixpoint insert_many {A} (docs : list (string * A)) (m : gmap string A)
    : gmap string A * bool :=
  match docs with
  | [] => (m, true)
  | (k, d) :: rest =>
      match m !! k with
      | None => insert_many rest (<[k := d]> m)
      | Some _ => (m, false)
      end
  end.

(** The admin document; [k] is the number of clock readings made before
    it (one for each product seeded). *)
Definition admin_user (e : seed_env) (k : nat) : user :=
  {| username := "admin";
     email := "info@queenkoba.com";
     password_hash := hashpw "admin123" (seed_salt e);
     user_country := "Kenya";
     preferred_currency := "KES";
     created_at := seed_clock e k;
     updated_at := seed_clock e (S k);
     role := "admin";
     cart := [];
     orders := [] |}.

(** The [try] block: an exception ends the run with what was written so
    far.  The admin is looked for under one address and stored under
    another. *)
Definition seed_products (e : seed_env) (s : db (F:=F)) : db (F:=F) :=
  let seeding := (size (db_products s) =? 0)%nat in
  let '(ps, ok) :=
    if seeding
    then insert_many (imap (λ i p, (seed_product_id e i, p)) products_to_seed)
                     (db_products s)
    else (db_products s, true) in
  let k := if seeding then 6%nat else 0%nat in
  let s1 := {| db_users := db_users s; db_products := ps;
               db_orders := db_orders s |} in
  if negb ok then s1
  else if bool_decide (map_Exists (λ _ u, email u = "admin@queenkoba.com")
                                  (db_users s1))
  then s1
  else match db_users s1 !! seed_admin_id e with
       | Some _ => s1
       | None => set_users (<[seed_admin_id e := admin_user e k]> (db_users s1)) s1
       end.

End Edition.
End MongoApi.

(** * Relational edition: the remaining routes *)

Module PostgresApi.
Import Postgres.
Section Edition.
Context {F : Type} `{!PyFloat F} `{!Services} `{!Bcrypt} `{!PyStr}.

(** *** [POST /auth/login], [POST /admin/auth/login],
    [PUT /admin/profile/password] *)

Record login_body := LoginBody {
  lb_email : option string;
  lb_password : option string
}.

Record password_body := PasswordBody {
  pb_current_password : option string;
  pb_new_password : option string
}.

Inductive auth_response :=
| LoggedIn (token uid : string) (nm : option string) (mail ph : string)
| AdminLoggedIn (token uid mail full_name rl : string) (permissions : list string)
| PasswordUpdated
| AuthError (code : Z) (message : string)
| AuthRaised (x : exn).

Definition auth_status (r : auth_response) : Z :=
  match r with
  | LoggedIn _ _ _ _ _ | AdminLoggedIn _ _ _ _ _ _ | PasswordUpdated => 200
  | AuthError code _ => code
  | AuthRaised _ => 500
  end.

(** [User.query.filter_by(email=e, role='customer').first()] *)
Definition find_customer (e : string) (s : db (F:=F)) : option (Z * user) :=
  first_match (λ kv, email kv.2 = e ∧ role kv.2 = "customer")
              (map_to_list (db_users s)).

(** [User.query.filter_by(email=e).first()] *)
Definition find_by_email (e : string) (s : db (F:=F)) : option (Z * user) :=
  first_match (λ kv, email kv.2 = e) (map_to_list (db_users s)).

Definition login (e : env) (data : login_body) (s : db (F:=F)) : auth_response :=
  if negb (truthy_str (lb_email data)) || negb (truthy_str (lb_password data))
  then AuthError 400 "Email and password required"
  else
    match find_customer (default "" (lb_email data)) s with
    | None => AuthError 401 "Invalid credentials"
    | Some (uid, user) =>
        if negb (checkpw (default "" (lb_password data)) (password_hash user))
        then AuthError 401 "Invalid credentials"
        else LoggedIn (create_access_token (pretty uid) (clock e 0) (uuid4 e))
                      (pretty uid)
                      (or_else (name user) (username user)) (email user)
                      (default "" (or_else (phone user) (Some "")))
    end.

(** Subscripts, not [.get]: a missing key raises.  The password is read
    only once the user has passed the role test. *)
Definition admin_login (e : env) (data : login_body) (s : db (F:=F))
    : auth_response :=
  match lb_email data with
  | None => AuthRaised KeyError
  | Some mail =>
      match find_by_email mail s with
      | None => AuthError 401 "Invalid credentials"
      | Some (uid, user) =>
          if negb (bool_decide (role user ∈ ["admin"; "super_admin"]))
          then AuthError 401 "Invalid credentials"
          else
            match lb_password data with
            | None => AuthRaised KeyError
            | Some password =>
                if negb (checkpw password (password_hash user))
                then AuthError 401 "Invalid credentials"
                else AdminLoggedIn
                       (create_access_token (pretty uid) (clock e 0) (uuid4 e))
                       (pretty uid)
                       (email user)
                       (default "Admin" (or_else (username user) (Some "Admin")))
                       (role user)
                       (match permissions user with [] => ["*"] | ps => ps end)
            end
      end
  end.

Definition set_password (h : string) (t : Z) (u : user) : user :=
  {| name := name u; username := username u; email := email u;
     phone := phone u; password_hash := h; role := role u;
     user_country := user_country u;
     preferred_currency := preferred_currency u;
     user_status := user_status u; permissions := permissions u;
     created_at := created_at u; updated_at := t |}.

(** The row is written, and [onupdate] stamps [updated_at], only when the
    new hash differs from the stored one. *)
Definition admin_change_password (e : env) (user_id : Z) (data : password_body)
    (s : db (F:=F)) : db (F:=F) * auth_response :=
  match db_users s !! user_id with
  | None => (s, AuthError 404 "Not Found")
  | Some user =>
      match pb_current_password data with
      | None => (s, AuthRaised KeyError)
      | Some current =>
          if negb (checkpw current (password_hash user))
          then (s, AuthError 401 "Current password is incorrect")
          else
            match pb_new_password data with
            | None => (s, AuthRaised KeyError)
            | Some new =>
                let h := hashpw new (salt e) in
                let user' := if decide (h = password_hash user) then user
                             else set_password h (clock e 0) user in
                ({| db_users := <[user_id := user']> (db_users s);
                    db_products := db_products s;
                    db_cart_items := db_cart_items s;
                    db_orders := db_orders s |}, PasswordUpdated)
            end
      end
  end.

(** *** [DELETE /admin/products/<int:product_id>] *)

Inductive delete_response :=
| Deleted
| DeleteError (code : Z) (message : string)
| DeleteRaised (x : exn).

Definition delete_status (r : delete_response) : Z :=
  match r with
  | Deleted => 200
  | DeleteError code _ => code
  | DeleteRaised _ => 500
  end.

(** [Product.query.get_or_404], [db.session.delete(product)] and the
    commit.  [cart_items.product_id] and [reviews.product_id] are foreign
    keys with no [ON DELETE] action, and no relationship is declared on
    the product's side: the DELETE is refused while a cart row or a
    review names the product.  The reviews are not part of [db];
    [reviewed] lists the products they name. *)
Definition admin_delete_product (reviewed : list Z) (pid : Z) (s : db (F:=F))
    : db (F:=F) * delete_response :=
  match db_products s !! pid with
  | None => (s, DeleteError 404 "Not Found")
  | Some _ =>
      if bool_decide (Forall (λ r, product_id r ≠ pid) (db_cart_items s))
         && bool_decide (pid ∉ reviewed)
      then ({| db_users := db_users s;
               db_products := delete pid (db_products s);
               db_cart_items := db_cart_items s;
               db_orders := db_orders s |}, Deleted)
      else (s, DeleteRaised IntegrityError)
  end.

(** *** [GET /orders] *)

Definition newer (a b : order (F:=F)) : Prop := o_created_at b ≤ o_created_at a.

#[global] Instance newer_dec a b : Decision (newer a b) :=
  Z_le_dec (o_created_at b) (o_created_at a).

(** [Order.query.filter_by(user_id=..).order_by(Order.created_at.desc()).all()] *)
Definition get_orders (user_id : Z) (s : db (F:=F)) : list (order (F:=F)) :=
  merge_sort newer (orders_of user_id s).

(** *** [GET /payment-methods/<country>] *)

Definition payment_methods : list (string * list (string * string)) :=
  [ ("Kenya", [ ("M-Pesa", "mpesa"); ("Airtel Money", "airtel");
                ("Visa/Mastercard", "card") ]);
    ("Uganda", [ ("MTN Mobile Money", "mtn"); ("Airtel Money", "airtel");
                 ("Visa/Mastercard", "card") ]) ].

(** [methods_map.get(country, [])] *)
Definition get_payment_methods (country : string) : list (string * string) :=
  default [] ((list_to_map payment_methods : gmap string _) !! country).

(** *** [seed_data] *)

(** [db.session.add(product)] for each product, inserted in this order at
    the commit: the first row takes the next value of the sequence, each
    further row the value after it. *)
Fixpoint add_products (skipped : nat) (ps : gmap Z (product (F:=F)))
    (new : list (product (F:=F))) : gmap Z (product (F:=F)) :=
  match new with
  | [] => ps
  | p :: rest =>
      add_products 0 (<[nextval (map_to_list ps).*1 skipped := p]> ps) rest
  end.

(** The six products of the seed (the text, image and sale columns, which
    no modelled route reads, are left out as in [product]), with [prices]
    as the loop sets it. *)
Definition products_to_seed : list (product (F:=F)) :=
  (λ '(nm, usd, cat),
     {| p_name := nm; category := cat; base_price_usd := usd;
        prices := calculate_prices usd; in_stock := true |})
  <$> [ ("Complex Clarifier Cream", flit 2999 2, "Cream");
        ("Complexion Clarifier Serum", flit 3450 2, "Serum");
        ("Complexion Clarifying Mask", flit 2575 2, "Mask");
        ("Complexion Renewal Scrub", flit 2199 2, "Scrub");
        ("Rich Gentle Foaming Lather", flit 1850 2, "Cleanser");
        ("Eternal Radiance Toner", flit 2325 2, "Toner") ].

(** The admin row; [k] is the number of clock readings made before it. *)
Definition admin_user (e : env) (k : nat) : user :=
  {| name := None; username := Some "admin";
     email := "admin@queenkoba.com"; phone := None;
     password_hash := hashpw "admin123" (salt e);
     role := "admin"; user_country := "Kenya"; preferred_currency := "KES";
     user_status := "active"; permissions := ["*"];
     created_at := clock e k; updated_at := clock e (S k) |}.

Definition seed_data (e : env) (s : db (F:=F)) : db (F:=F) :=
  let seeding := (size (db_products s) =? 0)%nat in
  let ps := if seeding
            then add_products (skipped e Products) (db_products s) products_to_seed
            else db_products s in
  (* each seeded product row reads the clock for its two timestamps *)
  let k := if seeding then 12%nat else 0%nat in
  let us :=
    if email_registered "admin@queenkoba.com" s then db_users s
    else <[nextval (map_to_list (db_users s)).*1 (skipped e Users)
           := admin_user e k]> (db_users s) in
  {| db_users := us; db_products := ps;
     db_cart_items := db_cart_items s; db_orders := db_orders s |}.

(** *** Promotions: [POST /promotions/validate], [POST /admin/promotions] *)

Record promotion := Promotion {
  pr_id : Z;
  pr_code : string;
  pr_discount : F;
  pr_type : string;
  pr_status : string;
  pr_uses : Z;
  pr_limit : option Z;
  pr_expires : option Z
}.

Record promo_body := PromoBody {
  pm_code : option string;
  pm_discount : option F;
  pm_type : option string;
  pm_limit : option Z;
  pm_expires : option Z
}.

Inductive promo_response :=
| PromoValid (code : string) (discount : F) (type : string)
| PromoCreated
| PromoError (code : Z) (error : string)
| PromoRaised (x : exn).

Definition promo_status (r : promo_response) : Z :=
  match r with
  | PromoValid _ _ _ => 200
  | PromoCreated => 201
  | PromoError code _ => code
  | PromoRaised _ => 500
  end.

(** [promo.limit and promo.uses >= promo.limit]: a limit of [None] or 0
    is no limit. *)
Definition limit_reached (p : promotion) : bool :=
  match pr_limit p with
  | None => false
  | Some l => negb (l =? 0) && (l <=? pr_uses p)
  end.

(** [promo.expires and promo.expires < datetime.utcnow()] *)
Definition expired (now : Z) (p : promotion) : bool :=
  match pr_expires p with
  | None => false
  | Some t => t <? now
  end.

Definition validate_promo_code (now : Z) (code : option string)
    (promotions : list promotion) : promo_response :=
  let code := str_upper (default "" code) in
  match first_match (λ p, pr_code p = code ∧ pr_status p = "active") promotions with
  | None => PromoError 404 "Invalid promo code"
  | Some promo =>
      if expired now promo then PromoError 400 "Promo code expired"
      else if limit_reached promo then PromoError 400 "Promo code limit reached"
      else PromoValid (pr_code promo) (pr_discount promo) (pr_type promo)
  end.

(** The POST branch of [admin_promotions].  [uses] takes its default 0;
    the [code] column is UNIQUE; [skipped] is how far the id sequence of
    the table is ahead of its rows. *)
Definition create_promotion (skipped : nat) (data : promo_body)
    (promotions : list promotion) : list promotion * promo_response :=
  let promo := {| pr_id := nextval (pr_id <$> promotions) skipped;
                  pr_code := str_upper (default "" (pm_code data));
                  pr_discount := default (of_int 0) (pm_discount data);
                  pr_type := default "percentage" (pm_type data);
                  pr_status := "active";
                  pr_uses := 0;
                  pr_limit := pm_limit data;
                  pr_expires := pm_expires data |} in
  if bool_decide (Forall (λ p, pr_code p ≠ pr_code promo) promotions)
  then (promotions ++ [promo], PromoCreated)
  else (promotions, PromoRaised IntegrityError).

(** *** Site content: [GET] and [PUT /admin/content] *)

Record site_content := SiteContent {
  sc_id : Z;
  sc_key : option string;
  sc_value : option string;
  sc_updated_at : Z
}.

(** [{c.key: c.value for c in all_content}]: a later row overrides an
    earlier one. *)
Definition content_dict (rows : list site_content)
    : gmap (option string) (option string) :=
  foldl (λ d c, <[sc_key c := sc_value c]> d) ∅ rows.

Definition content_defaults : list (string * string) :=
  [ ("hero_title", "Queen Koba Skincare");
    ("hero_subtitle", "Luxurious skincare for melanin-rich skin");
    ("about_title", "Our Story");
    ("about_description",
     "Queen Koba is dedicated to creating premium skincare products.");
    ("contact_email", "info@queenkoba.com");
    ("contact_phone", "0119 559 180");
    ("contact_whatsapp", "0119 559 180");
    ("instagram_handle", "@queenkoba");
    ("footer_text", "¬© 2024 Queen Koba. All rights reserved.") ].

(** [content_dict.get(k, d)]: the stored value, which may be [None],
    when there is a row, the default otherwise. *)
Definition content_get (d : gmap (option string) (option string))
    (k dflt : string) : option string :=
  match d !! Some k with
  | Some v => v
  | None => Some dflt
  end.

(** The GET branch: the nine known sections. *)
Definition get_content (rows : list site_content) : list (string * option string) :=
  (λ '(k, dflt), (k, content_get (content_dict rows) k dflt)) <$> content_defaults.

(** [content.value = value; content.updated_at = now] on the first row
    with this key; the flag says whether there was one. *)
Fixpoint set_content (section value : option string) (now : Z)
    (rows : list site_content) : list site_content * bool :=
  match rows with
  | [] => ([], false)
  | c :: rest =>
      if decide (sc_key c = section)
      then ({| sc_id := sc_id c; sc_key := sc_key c; sc_value := value;
               sc_updated_at := now |} :: rest, true)
      else let '(rest', found) := set_content section value now rest in
           (c :: rest', found)
  end.

(** The PUT branch.  A new row takes its [updated_at] from the column
    default and its id from the sequence, [skipped] ahead of the rows. *)
Definition put_content (skipped : nat) (now : Z) (section value : option string)
    (rows : list site_content) : list site_content :=
  let '(updated, found) := set_content section value now rows in
  if found then updated
  else rows ++ [ {| sc_id := nextval (sc_id <$> rows) skipped; sc_key := section;
                    sc_value := value; sc_updated_at := now |} ].

(** *** Support tickets: [POST /support-tickets],
    [GET /admin/support-tickets] *)

Record ticket := Ticket {
  t_id : Z;
  t_customer_name : option string;
  t_customer_email : option string;
  t_subject : option string;
  t_message : option string;
  t_priority : string;
  t_status : string;
  t_created_at : Z
}.

Record ticket_body := TicketBody {
  tb_customer_name : option string;
  tb_customer_email : option string;
  tb_subject : option string;
  tb_message : option string;
  tb_priority : option string
}.

(** Returns the table and the [ticket_id] of the 201 response; the id
    comes from the sequence, [skipped] ahead of the rows. *)
Definition create_support_ticket (skipped : nat) (now : Z) (data : ticket_body)
    (tickets : list ticket) : list ticket * string :=
  let t := {| t_id := nextval (t_id <$> tickets) skipped;
              t_customer_name := tb_customer_name data;
              t_customer_email := tb_customer_email data;
              t_subject := tb_subject data;
              t_message := tb_message data;
              t_priority := default "medium" (tb_priority data);
              t_status := "open";
              t_created_at := now |} in
  (tickets ++ [t], pretty (t_id t)).

Definition later_ticket (a b : ticket) : Prop := t_created_at b ≤ t_created_at a.

#[global] Instance later_ticket_dec a b : Decision (later_ticket a b) :=
  Z_le_dec (t_created_at b) (t_created_at a).

(** [SupportTicket.query.order_by(SupportTicket.created_at.desc()).all()] *)
Definition admin_get_support_tickets (tickets : list ticket) : list ticket :=
  merge_sort later_ticket tickets.

End Edition.
End PostgresApi.

(** * Further concrete stores and requests

    Stores reached from those of [Sample] by running the handlers, with
    a password check that fits the hash of [Sample.services]. *)

Module Fixtures.
Import Exact Sample.
#[local] Existing Instance services.

(** [Sample.services] hashes a password to the salt followed by the
    password, and the salts are four characters long: [checkpw] takes
    the salt off the stored hash, hashes again and compares. *)
Definition bcrypt : Bcrypt :=
  {| checkpw password hashed :=
       String.eqb (hashpw password (substring 0 4 hashed)) hashed |}.

Definition pystr : PyStr := {| str_upper := upper |}.

#[local] Existing Instance bcrypt.
#[local] Existing Instance pystr.

(** **** Document store *)

Definition second_id := "eeeeeeeeeeeeeeeeeeeeeeee".
Definition admin_id := "dddddddddddddddddddddddd".

Definition m_empty : Mongo.db (F:=Q) :=
  {| Mongo.db_users := ∅; Mongo.db_products := ∅; Mongo.db_orders := ∅ |}.

(** Ann and Bob. *)
Definition m_registered : Mongo.db :=
  (Mongo.register (m_env 100) (m_register None) (m_store [])).1.

Definition m_seed_env : MongoApi.seed_env :=
  {| MongoApi.seed_clock k := Z.of_nat k;
     MongoApi.seed_product_id i := "00000000000000000000000" +:+ pretty i;
     MongoApi.seed_admin_id := admin_id;
     MongoApi.seed_salt := "salt" |}.

(** Ann and the seeded admin; the next start of the application seeds
    again, under a new id. *)
Definition m_seeded : Mongo.db := MongoApi.seed_products m_seed_env (m_store []).

Definition m_seed_env_again : MongoApi.seed_env :=
  {| MongoApi.seed_clock k := 50 + Z.of_nat k;
     MongoApi.seed_product_id := MongoApi.seed_product_id m_seed_env;
     MongoApi.seed_admin_id := second_id;
     MongoApi.seed_salt := "salt" |}.

(** Ann after her checkout, and after she has put a product in her cart
    again. *)
Definition m_ordered : Mongo.db :=
  (Mongo.checkout (m_env 100) ann_id m_checkout (m_store mixed_cart)).1.

Definition m_refilled : Mongo.db :=
  (Mongo.add_to_cart (m_env 150) ann_id
     (Mongo.CartBody (Some cream_id) (Some 1)) m_ordered).1.

(** A later request that draws the same uuid. *)
Definition m_env_again : Mongo.env :=
  {| Mongo.clock k := 200 + Z.of_nat k;
     Mongo.uuid4 := Mongo.uuid4 (m_env 100);
     Mongo.inserted_id := second_id;
     Mongo.salt := "salt" |}.

(** **** Relational store *)

Definition p_empty : Postgres.db (F:=Q) :=
  {| Postgres.db_users := ∅; Postgres.db_products := ∅;
     Postgres.db_cart_items := []; Postgres.db_orders := [] |}.

(** A database whose products were seeded once and then deleted: the
    products sequence has given six values. *)
Definition p_env_reseeded : Postgres.env :=
  {| Postgres.clock k := Z.of_nat k;
     Postgres.uuid4 := Postgres.uuid4 (p_env 0);
     Postgres.salt := "salt";
     Postgres.skipped t := match t with Postgres.Products => 6%nat | _ => 0%nat end |}.

(** Ann and Bob, and with them the seeded admin. *)
Definition p_registered : Postgres.db :=
  (Postgres.signup (p_env 100) (p_signup None) (p_store [])).1.

Definition p_seeded : Postgres.db := PostgresApi.seed_data (p_env 0) p_registered.

Definition p_ordered : Postgres.db :=
  (Postgres.checkout (p_env 100) 1 p_checkout (p_store p_cart)).1.

Definition p_refilled : Postgres.db :=
  (Postgres.add_to_cart (p_env 150) 1 (Postgres.CartBody (Some 1) (Some 1))
     p_ordered).1.

Definition glow10 : PostgresApi.promo_body :=
  PostgresApi.PromoBody (Some "glow10") (Some (10 # 1)) None (Some 5) (Some 500).

Definition promotions : list PostgresApi.promotion :=
  (PostgresApi.create_promotion 0 glow10 []).1.

Definition content_rows : list PostgresApi.site_content :=
  PostgresApi.put_content 0 1 (Some "hero_title") (Some "Hello") [].

(** A decidable statement about concrete data, settled by evaluation. *)
Ltac decided := apply (bool_decide_unpack _); vm_compute; exact I.

End Fixtures.

(** * A fact about lists *)

Module ListFacts.

Lemma Forall_filtered {A} (P Q : A → Prop) `{∀ x, Decision (Q x)} (l : list A) :
  Forall P l → Forall P (filter Q l).
Proof.
  rewrite !Forall_forall. intros Hall x Hx.
  apply list_elem_of_filter in Hx as [_ Hx]. by apply Hall.
Qed.

End ListFacts.

(** * Facts about the document-store edition *)

Module MongoFacts.
Import Mongo.
Section Facts.
Context {F : Type} `{!PyFloat F} `{!Services}.
Implicit Types (s : db (F:=F)) (u : user) (cart : list cart_item).
Implicit Types (ps : gmap string (product (F:=F))).

Lemma alter_present {A} (f : A → A) (m : gmap string A) k x :
  m !! k = Some x → alter f k m = <[k := f x]> m.
Proof.
  intros Hk. apply map_eq. intros j.
  destruct (decide (k = j)) as [->|Hne].
  - by rewrite lookup_alter_eq, lookup_insert_eq, Hk.
  - by rewrite lookup_alter_ne, lookup_insert_ne.
Qed.

(** The pricing loop on a well-formed cart: exactly the resolved lines
    are added, in cart order. *)
Lemma price_cart_resolved ps cart : ∀ total acc,
  well_formed cart →
  price_cart ps cart total acc
  = Next (foldl fadd total (line_total <$> resolved ps cart),
          acc ++ (snapshot <$> resolved ps cart)).
Proof.
  induction cart as [|item rest IH]; intros total acc Hwf; simpl.
  - by rewrite app_nil_r.
  - inversion Hwf as [|? ? [oid Hoid] Hrest]; subst.
    rewrite Hoid. simpl.
    destruct (ps !! oid) as [prod|] eqn:Hp; simpl.
    + rewrite IH by done. by rewrite <- app_assoc.
    + by apply IH.
Qed.

Lemma price_cart_Next ps cart : ∀ total acc out,
  price_cart ps cart total acc = Next out → well_formed cart.
Proof.
  induction cart as [|item rest IH]; intros total acc out; simpl.
  - constructor.
  - destruct (ObjectId (product_id item)) as [oid|] eqn:Hoid; simpl; [|done].
    intros Hrun. constructor; [by eexists|].
    destruct (ps !! oid); simpl in Hrun; by eapply IH.
Qed.

(** The pricing loop stops early only on a malformed id. *)
Lemma price_cart_Reply ps cart : ∀ total acc r,
  price_cart ps cart total acc = Reply r → r = Raised InvalidId.
Proof.
  induction cart as [|item rest IH]; intros total acc r; simpl; [done|].
  destruct (ObjectId (product_id item)) as [oid|]; simpl.
  - destruct (ps !! oid); apply IH.
  - by intros [= <-].
Qed.

(** [checkout] on an existing user with a non-empty, well-formed cart
    and a fresh order [_id]: the response and the store it leaves. *)
Lemma checkout_run e uid data s uoid u :
  ObjectId uid = Some uoid →
  db_users s !! uoid = Some u →
  cart u ≠ [] →
  well_formed (cart u) →
  db_orders s !! inserted_id e = None →
  let rs := resolved (db_products s) (cart u) in
  let o := new_order e uid data (running_total (line_total <$> rs)) (snapshot <$> rs) in
  checkout e uid data s
  = ({| db_users :=
          <[uoid := set_user_orders (orders u ++ [inserted_id e])
                      (set_cart [] (clock e 2) u)]> (db_users s);
        db_products := db_products s;
        db_orders := <[inserted_id e := o]> (db_orders s) |},
     OrderCreated (order_id o) (inserted_id e) (total_usd o) (length (items o))).
Proof.
  intros Hoid Hu Hne Hwf Hfresh rs o. unfold checkout.
  rewrite Hoid. simpl. rewrite Hu. simpl.
  assert ((length (cart u) =? 0)%nat = false) as ->
    by (destruct (cart u); [done|reflexivity]).
  simpl. rewrite price_cart_resolved by done. simpl.
  rewrite bool_decide_true by done. simpl.
  unfold update_user, set_users, set_orders. simpl.
  rewrite (alter_present _ _ _ _ Hu).
  rewrite (alter_present _ _ uoid (set_cart [] (clock e 2) u))
    by apply lookup_insert_eq.
  by rewrite insert_insert_eq.
Qed.

(** A checkout answered with 200 ran on such a user. *)
Lemma checkout_ok_inv e uid data s s' r :
  checkout e uid data s = (s', r) → status r = 200 →
  ∃ uoid u,
    ObjectId uid = Some uoid ∧ db_users s !! uoid = Some u ∧
    cart u ≠ [] ∧ well_formed (cart u) ∧ db_orders s !! inserted_id e = None.
Proof.
  unfold checkout.
  destruct (ObjectId uid) as [uoid|] eqn:Hoid; simpl; [|by intros [= <- <-]].
  destruct (db_users s !! uoid) as [u|] eqn:Hu; simpl; [|by intros [= <- <-]].
  destruct (decide (cart u = [])) as [->|Hne]; simpl; [by intros [= <- <-]|].
  assert ((length (cart u) =? 0)%nat = false) as ->
    by (destruct (cart u); [done|reflexivity]).
  simpl.
  destruct (price_cart (db_products s) (cart u) (of_int 0) []) as [[total its]|r0]
    eqn:Hrun; simpl.
  - apply price_cart_Next in Hrun.
    case_bool_decide as Hfresh; simpl; [|by intros [= <- <-]].
    intros _ _. by exists uoid, u.
  - apply price_cart_Reply in Hrun as ->. by intros [= <- <-].
Qed.

(** *** The search loop of [add_to_cart] *)

Lemma bump_absent pid q cart :
  pid ∉ product_id <$> cart → bump pid q cart = (cart, false).
Proof.
  induction cart as [|item rest IH]; simpl; [done|].
  rewrite not_elem_of_cons. intros [Hne Hrest].
  destruct (String.eqb_spec (product_id item) pid) as [Heq|_]; [congruence|].
  by rewrite IH.
Qed.

Lemma bump_present pid q l1 item l2 :
  pid ∉ product_id <$> l1 → product_id item = pid →
  bump pid q (l1 ++ item :: l2)
  = (l1 ++ {| product_id := product_id item; quantity := quantity item + q;
              added_at := added_at item |} :: l2, true).
Proof.
  intros Hl1 Hitem. induction l1 as [|x l1 IH]; simpl.
  - by rewrite <- Hitem, String.eqb_refl.
  - simpl in Hl1. apply not_elem_of_cons in Hl1 as [Hne Hl1].
    destruct (String.eqb_spec (product_id x) pid) as [Heq|_]; [congruence|].
    by rewrite IH.
Qed.

(** A cart either has no line for [pid] or splits at its first one. *)
Lemma first_line pid cart :
  (pid ∉ product_id <$> cart) ∨
  ∃ l1 item l2, cart = l1 ++ item :: l2 ∧ (pid ∉ product_id <$> l1) ∧
                product_id item = pid.
Proof.
  induction cart as [|x rest IH]; [left; apply not_elem_of_nil|].
  destruct (decide (product_id x = pid)) as [Heq|Hne].
  - right. exists [], x, rest. split_and!; [done|apply not_elem_of_nil|done].
  - destruct IH as [Habs|(l1 & item & l2 & -> & Hl1 & Hitem)].
    + left. simpl. rewrite not_elem_of_cons. split; [congruence|done].
    + right. exists (x :: l1), item, l2. split_and!; [done| |done].
      simpl. rewrite not_elem_of_cons. split; [congruence|done].
Qed.




(** A product already in the cart: its first line is incremented and
    nothing is appended. *)
Lemma merge_line_present e pid q l1 item l2 :
  pid ∉ product_id <$> l1 → product_id item = pid →
  merge_line e pid q (l1 ++ item :: l2)
  = (l1 ++ {| product_id := pid; quantity := quantity item + q;
              added_at := added_at item |} :: l2, clock e 0).
Proof.
  intros Hl1 Hitem. unfold merge_line. rewrite bump_present by done.
  by rewrite Hitem.
Qed.

Lemma merge_line_absent e pid q cart :
  pid ∉ product_id <$> cart →
  merge_line e pid q cart
  = (cart ++ [ {| product_id := pid; quantity := q; added_at := clock e 0 |} ],
     clock e 1).
Proof. intros Habs. unfold merge_line. by rewrite bump_absent. Qed.

(** *** [add_to_cart] and [remove_from_cart] as store updates *)

Lemma truthy_str_true pid : pid ≠ "" → truthy_str (Some pid) = true.
Proof.
  intros Hne. simpl. by destruct (String.eqb_spec pid "").
Qed.

Lemma truthy_int_true q : q ≠ 0 → truthy_int (Some q) = true.
Proof. intros Hne. simpl. by destruct (Z.eqb_spec q 0). Qed.




Lemma add_to_cart_run e uid pid qty s poid p uoid u :
  pid ≠ "" → qty ≠ 0 →
  ObjectId pid = Some poid → db_products s !! poid = Some p →
  ObjectId uid = Some uoid → db_users s !! uoid = Some u →
  int64 (new_quantity pid qty (cart u)) = true →
  add_to_cart e uid (CartBody (Some pid) (Some qty)) s
  = (set_users (<[uoid := set_cart (merge_line e pid qty (cart u)).1
                            (merge_line e pid qty (cart u)).2 u]> (db_users s)) s,
     CartUpdated "Product added to cart"
                 (length (merge_line e pid qty (cart u)).1)).
Proof.
  intros Hpid Hqty Hpoid Hp Huoid Hu Hfits. unfold add_to_cart.
  cbn [cb_product_id cb_quantity].
  rewrite truthy_str_true, truthy_int_true by done. simpl.
  rewrite Hpoid. simpl. rewrite Hp. simpl. rewrite Huoid. simpl.
  rewrite Hu. simpl.
  destruct (merge_line e pid qty (cart u)) as [new_cart now]. simpl.
  rewrite Hfits. simpl.
  unfold update_user. by rewrite (alter_present _ _ _ _ Hu).
Qed.

(** A quantity that does not fit eight bytes: the driver raises, the
    handler answers 500 and nothing is written. *)
Lemma add_to_cart_overflow e uid pid qty s poid p uoid u :
  pid ≠ "" → qty ≠ 0 →
  ObjectId pid = Some poid → db_products s !! poid = Some p →
  ObjectId uid = Some uoid → db_users s !! uoid = Some u →
  int64 (new_quantity pid qty (cart u)) = false →
  add_to_cart e uid (CartBody (Some pid) (Some qty)) s = (s, Raised OverflowError).
Proof.
  intros Hpid Hqty Hpoid Hp Huoid Hu Hfits. unfold add_to_cart.
  cbn [cb_product_id cb_quantity].
  rewrite truthy_str_true, truthy_int_true by done. simpl.
  rewrite Hpoid. simpl. rewrite Hp. simpl. rewrite Huoid. simpl.
  rewrite Hu. simpl.
  destruct (merge_line e pid qty (cart u)) as [new_cart now]. simpl.
  by rewrite Hfits.
Qed.

Lemma add_to_cart_unfound e uid pid qty s poid :
  pid ≠ "" → qty ≠ 0 →
  ObjectId pid = Some poid → db_products s !! poid = None →
  add_to_cart e uid (CartBody (Some pid) (Some qty)) s
  = (s, Error 404 "Product not found").
Proof.
  intros Hpid Hqty Hpoid Hp. unfold add_to_cart.
  cbn [cb_product_id cb_quantity].
  rewrite truthy_str_true, truthy_int_true by done. simpl.
  rewrite Hpoid. simpl. by rewrite Hp.
Qed.

Lemma add_to_cart_invalid e uid data s :
  truthy_str (cb_product_id data) && truthy_int (cb_quantity data) = false →
  add_to_cart e uid data s = (s, Error 400 "Product ID and quantity required").
Proof. intros Hfalsy. unfold add_to_cart. by rewrite Hfalsy. Qed.

(** Whatever the outcome, a request with a non-zero quantity either
    leaves the store as it was or merges the line into the cart of the
    caller. *)
Lemma add_to_cart_cases uid pid s :
  (∀ e' q', q' ≠ 0 →
     (add_to_cart e' uid (CartBody (Some pid) (Some q')) s).1 = s) ∨
  (∃ poid p uoid u,
     pid ≠ "" ∧ ObjectId pid = Some poid ∧ db_products s !! poid = Some p ∧
     ObjectId uid = Some uoid ∧ db_users s !! uoid = Some u).
Proof.
  destruct (decide (pid = "")) as [->|Hpid].
  { left. intros e' q' _. by rewrite add_to_cart_invalid. }
  destruct (ObjectId pid) as [poid|] eqn:Hpoid; cycle 1.
  { left. intros e' q' Hq'. unfold add_to_cart. cbn [cb_product_id cb_quantity].
    rewrite truthy_str_true, truthy_int_true by done. simpl. by rewrite Hpoid. }
  destruct (db_products s !! poid) as [p|] eqn:Hp; cycle 1.
  { left. intros e' q' Hq'. by erewrite add_to_cart_unfound. }
  destruct (ObjectId uid) as [uoid|] eqn:Huoid; cycle 1.
  { left. intros e' q' Hq'. unfold add_to_cart. cbn [cb_product_id cb_quantity].
    rewrite truthy_str_true, truthy_int_true by done. simpl.
    rewrite Hpoid. simpl. rewrite Hp. simpl. by rewrite Huoid. }
  destruct (db_users s !! uoid) as [u|] eqn:Hu; cycle 1.
  { left. intros e' q' Hq'. unfold add_to_cart. cbn [cb_product_id cb_quantity].
    rewrite truthy_str_true, truthy_int_true by done. simpl.
    rewrite Hpoid. simpl. rewrite Hp. simpl. rewrite Huoid. simpl.
    by rewrite Hu. }
  right. by exists poid, p, uoid, u.
Qed.

Lemma remove_from_cart_run e uid pid s uoid u :
  ObjectId uid = Some uoid → db_users s !! uoid = Some u →
  let new_cart := filter (λ item, product_id item ≠ pid) (cart u) in
  remove_from_cart e uid pid s
  = (set_users (<[uoid := set_cart new_cart (clock e 0) u]> (db_users s)) s,
     CartUpdated "Product removed from cart" (length new_cart)).
Proof.
  intros Huoid Hu new_cart. unfold remove_from_cart.
  rewrite Huoid. simpl. rewrite Hu. simpl.
  unfold update_user. by rewrite (alter_present _ _ _ _ Hu).
Qed.

Lemma filter_absent pid cart :
  pid ∉ product_id <$> cart →
  filter (λ item, product_id item ≠ pid) cart = cart.
Proof.
  induction cart as [|item rest IH]; [done|]. simpl.
  rewrite not_elem_of_cons. intros [Hne Hrest].
  rewrite filter_cons_True by congruence. by rewrite IH.
Qed.

Lemma filter_removes pid cart :
  pid ∉ product_id <$> filter (λ item, product_id item ≠ pid) cart.
Proof.
  rewrite list_elem_of_fmap. intros (item & -> & Hin).
  by apply list_elem_of_filter in Hin as [Hne _].
Qed.

(** *** [get_cart], [checkout] on an empty cart, [register] *)

Lemma cart_totals_resolved ps cart : ∀ total,
  well_formed cart →
  ∃ views,
    cart_totals ps cart total
    = Next (foldl fadd total (line_total <$> resolved ps cart), views) ∧
    cv_item <$> views = cart.
Proof.
  induction cart as [|item rest IH]; intros total Hwf; simpl.
  - by exists [].
  - inversion Hwf as [|? ? [oid Hoid] Hrest]; subst.
    rewrite Hoid. simpl.
    destruct (ps !! oid) as [prod|] eqn:Hp; simpl.
    + destruct (IH (fadd total (fmul (base_price_usd prod) (of_int (quantity item))))
                  Hrest) as (views & -> & Hviews).
      simpl. eexists. split; [done|]. by rewrite fmap_cons, Hviews.
    + destruct (IH total Hrest) as (views & -> & Hviews).
      simpl. eexists. split; [done|]. by rewrite fmap_cons, Hviews.
Qed.

Lemma get_cart_run uid s uoid u :
  ObjectId uid = Some uoid → db_users s !! uoid = Some u →
  well_formed (cart u) →
  let total_usd := running_total (line_total <$> resolved (db_products s) (cart u)) in
  ∃ views,
    cv_item <$> views = cart u ∧
    get_cart uid s
    = (s, CartTotals views (round2 total_usd)
            (round2 (fmul total_usd (rate_or_one (preferred_currency u))))
            (preferred_currency u) (symbol_or_dollar (preferred_currency u))).
Proof.
  intros Huoid Hu Hwf total_usd. unfold get_cart.
  rewrite Huoid. simpl. rewrite Hu. simpl.
  destruct (cart_totals_resolved (db_products s) (cart u) (of_int 0) Hwf)
    as (views & -> & Hviews).
  simpl. by exists views.
Qed.

Lemma checkout_empty e uid data s uoid u :
  ObjectId uid = Some uoid → db_users s !! uoid = Some u → cart u = [] →
  checkout e uid data s = (s, Error 400 "Cart is empty").
Proof.
  intros Huoid Hu Hcart. unfold checkout.
  rewrite Huoid. simpl. rewrite Hu. simpl. by rewrite Hcart.
Qed.

(** [register] writes at most one document, the one [new_user] builds,
    under a fresh [_id]. *)
Lemma register_store e data s :
  (register e data s).1 = s ∨
  (db_users s !! inserted_id e = None ∧
   status (register e data s).2 = 201 ∧
   (register e data s).1
   = set_users (<[inserted_id e := new_user e data]> (db_users s)) s).
Proof.
  unfold register.
  destruct (truthy_str (rb_username data)); simpl; [|by left].
  destruct (truthy_str (rb_email data)); simpl; [|by left].
  destruct (truthy_str (rb_password data)); simpl; [|by left].
  destruct (email_registered _ s); simpl; [by left|].
  destruct (username_taken _ s); simpl; [by left|].
  case_bool_decide as Hfresh; simpl; [|by left].
  by right.
Qed.

Lemma register_created e data s :
  status (register e data s).2 = 201 →
  db_users s !! inserted_id e = None ∧
  (register e data s).1
  = set_users (<[inserted_id e := new_user e data]> (db_users s)) s.
Proof.
  unfold register.
  destruct (truthy_str (rb_username data)); simpl; [|done].
  destruct (truthy_str (rb_email data)); simpl; [|done].
  destruct (truthy_str (rb_password data)); simpl; [|done].
  destruct (email_registered _ s); simpl; [done|].
  destruct (username_taken _ s); simpl; [done|].
  case_bool_decide as Hfresh; simpl; done.
Qed.

(** An [add_to_cart] answered with 200 passed every check. *)
Lemma add_to_cart_ok_inv e uid data s :
  status (add_to_cart e uid data s).2 = 200 →
  ∃ pid qty poid p uoid u,
    data = CartBody (Some pid) (Some qty) ∧ pid ≠ "" ∧ qty ≠ 0 ∧
    ObjectId pid = Some poid ∧ db_products s !! poid = Some p ∧
    ObjectId uid = Some uoid ∧ db_users s !! uoid = Some u ∧
    int64 (new_quantity pid qty (cart u)) = true.
Proof.
  unfold add_to_cart.
  destruct data as [[pid|] [qty|]]; simpl; try done.
  2: { by rewrite andb_false_r. }
  destruct (String.eqb_spec pid "") as [->|Hpid]; simpl; [done|].
  destruct (Z.eqb_spec qty 0) as [->|Hqty]; simpl; [done|].
  destruct (ObjectId pid) as [poid|] eqn:Hpoid; simpl; [|done].
  destruct (db_products s !! poid) as [p|] eqn:Hp; simpl; [|done].
  destruct (ObjectId uid) as [uoid|] eqn:Huoid; simpl; [|done].
  destruct (db_users s !! uoid) as [u|] eqn:Hu; simpl; [|done].
  destruct (merge_line e pid qty (cart u)) as [new_cart now]. simpl.
  destruct (int64 (new_quantity pid qty (cart u))) eqn:Hfits; simpl; [|done].
  intros _. by exists pid, qty, poid, p, uoid, u.
Qed.



(** *** The resolved lines *)

Lemma resolved_sound ps cart :
  Forall (λ l, ObjectId (product_id l.1.1) = Some l.1.2 ∧ ps !! l.1.2 = Some l.2)
         (resolved ps cart).
Proof.
  induction cart as [|item rest IH]; simpl; [constructor|].
  destruct (ObjectId (product_id item)) as [oid|] eqn:Hoid; simpl; [|done].
  destruct (ps !! oid) as [prod|] eqn:Hp; simpl; [|done].
  by constructor.
Qed.

Lemma resolved_none ps cart :
  Forall (λ item, ∃ oid, ObjectId (product_id item) = Some oid ∧ ps !! oid = None)
         cart →
  resolved ps cart = [] ∧ well_formed cart.
Proof.
  induction 1 as [|item rest (oid & Hoid & Hp) _ [IH1 IH2]]; [by split; [|constructor]|].
  split; [|constructor; [by eexists|done]].
  simpl. rewrite Hoid. simpl. by rewrite Hp.
Qed.

(** [add_to_cart] writes at most the cart and [updated_at] of one user. *)
Lemma add_to_cart_store e uid data s :
  (add_to_cart e uid data s).1 = s ∨
  ∃ pid qty uoid u,
    ObjectId uid = Some uoid ∧ db_users s !! uoid = Some u ∧
    cb_product_id data = Some pid ∧
    status (add_to_cart e uid data s).2 = 200 ∧
    (add_to_cart e uid data s).1
    = set_users (<[uoid := set_cart (merge_line e pid qty (cart u)).1
                             (merge_line e pid qty (cart u)).2 u]> (db_users s)) s.
Proof.
  destruct data as [[pid|] [qty|]]; try (left; by rewrite add_to_cart_invalid).
  - destruct (decide (pid = "")) as [->|Hpid];
      [left; by rewrite add_to_cart_invalid|].
    destruct (decide (qty = 0)) as [->|Hqty];
      [left; rewrite add_to_cart_invalid; [done|]; simpl;
       apply andb_false_r|].
    destruct (add_to_cart_cases uid pid s)
      as [Hsame|(poid & p & uoid & u & _ & Hpoid & Hp & Huoid & Hu)].
    + left. by apply Hsame.
    + destruct (int64 (new_quantity pid qty (cart u))) eqn:Hfits.
      * right. exists pid, qty, uoid, u.
        by rewrite (add_to_cart_run e uid pid qty s poid p uoid u).
      * left. by rewrite (add_to_cart_overflow e uid pid qty s poid p uoid u).
  - left. rewrite add_to_cart_invalid; [done|]. simpl. apply andb_false_r.
Qed.

(** *** Carts hold well-formed ids *)

Lemma merge_line_well_formed e pid q cart :
  is_Some (ObjectId pid) → well_formed cart →
  well_formed (merge_line e pid q cart).1.
Proof.
  intros Hpid Hwf. unfold merge_line, well_formed in *.
  destruct (first_line pid cart) as [Habs|(l1 & item & l2 & -> & Hl1 & Hitem)].
  - rewrite bump_absent by done. simpl.
    apply Forall_app. split; [done|]. by constructor.
  - rewrite bump_present by done. simpl.
    apply Forall_app in Hwf as [H1 H2]. apply Forall_cons in H2 as [H2 H3].
    apply Forall_app. split; [done|]. by constructor.
Qed.

(** Every handler that writes a cart keeps the carts of the store
    well-formed: [register] stores an empty cart, [add_to_cart] a line
    whose id it has parsed, [remove_from_cart] a part of the cart it
    read, [checkout] an empty cart. *)
Lemma carts_well_formed_kept s :
  carts_well_formed s →
  (∀ e, carts_well_formed (MongoApi.seed_products e s)) ∧
  (∀ e data, carts_well_formed (register e data s).1) ∧
  (∀ e uid data, carts_well_formed (add_to_cart e uid data s).1) ∧
  (∀ e uid pid, carts_well_formed (remove_from_cart e uid pid s).1) ∧
  (∀ e uid data, carts_well_formed (checkout e uid data s).1).
Proof.
  intros Hwf. unfold carts_well_formed in *. split_and!.
  - intros e. unfold MongoApi.seed_products.
    destruct (if (size (db_products s) =? 0)%nat then _ else _) as [ps ok].
    destruct ok; simpl; [|done].
    case_bool_decide; [done|].
    destruct (db_users s !! MongoApi.seed_admin_id e); [done|]. simpl.
    apply map_Forall_insert_2; [constructor|done].
  - intros e data.
    destruct (register_store e data s) as [->|(_ & _ & ->)]; [done|].
    simpl. apply map_Forall_insert_2; [constructor|done].
  - intros e uid data.
    destruct (add_to_cart_store e uid data s)
      as [->|(pid & qty & uoid & u & Huoid & Hu & Hpid & Hst & ->)]; [done|].
    simpl. apply map_Forall_insert_2; [|done]. simpl.
    destruct (add_to_cart_ok_inv _ _ _ _ Hst)
      as (pid' & qty' & poid & p & _ & _ & -> & _ & _ & Hpoid & _).
    simpl in Hpid. injection Hpid as <-.
    apply merge_line_well_formed; [by eexists|]. by apply (Hwf uoid).
  - intros e uid pid. unfold remove_from_cart.
    destruct (ObjectId uid) as [uoid|]; simpl; [|done].
    destruct (db_users s !! uoid) as [u|] eqn:Hu; simpl; [|done].
    unfold update_user. rewrite (alter_present _ _ _ _ Hu). simpl.
    apply map_Forall_insert_2; [|done]. simpl.
    apply ListFacts.Forall_filtered. by apply (Hwf uoid).
  - intros e uid data.
    destruct (decide (status (checkout e uid data s).2 = 200)) as [Hst|Hst].
    + destruct (checkout_ok_inv e uid data s _ _ (surjective_pairing _) Hst)
        as (uoid & u & Huoid & Hu & Hne & Hcart & Hfresh).
      rewrite (checkout_run e uid data s uoid u) by done. simpl.
      apply map_Forall_insert_2; [constructor|done].
    + revert Hst. unfold checkout.
      destruct (ObjectId uid) as [uoid|]; simpl; [|done].
      destruct (db_users s !! uoid) as [u|]; simpl; [|done].
      destruct (negb _); simpl; [|done].
      destruct (price_cart _ _ _ _) as [[total its]|r]; simpl; [|done].
      by case_bool_decide.
Qed.

(** A cart none of whose lines resolves, in a store whose carts are
    well-formed. *)
Lemma resolved_nil_inv ps cart :
  well_formed cart → resolved ps cart = [] →
  Forall (λ item, ∃ oid, ObjectId (product_id item) = Some oid ∧ ps !! oid = None)
         cart.
Proof.
  induction 1 as [|item rest [oid Hoid] _ IH]; [constructor|].
  simpl. rewrite Hoid. simpl.
  destruct (ps !! oid) as [prod|] eqn:Hp; simpl; [done|].
  intros Hnil. constructor; [by exists oid|by apply IH].
Qed.

End Facts.
End MongoFacts.

(** * Facts about the relational edition *)

Module PostgresFacts.
Import Postgres.
Section Facts.
Context {F : Type} `{!PyFloat F} `{!Services}.
Implicit Types (s : db (F:=F)) (rows : list cart_item).
Implicit Types (ps : gmap Z (product (F:=F))).

Lemma resolved_cons_Some ps item rest prod :
  ps !! product_id item = Some prod →
  resolved ps (item :: rest) = (item, prod) :: resolved ps rest.
Proof. intros Hp. unfold resolved. simpl. by rewrite Hp. Qed.

(** When every line has its product row, nothing is dropped. *)
Lemma resolved_all ps rows :
  Forall (λ item, is_Some (ps !! product_id item)) rows →
  (resolved ps rows).*1 = rows.
Proof.
  induction 1 as [|item rest [prod Hp] _ IH]; [done|].
  rewrite (resolved_cons_Some _ _ _ _ Hp), fmap_cons. simpl. by rewrite IH.
Qed.

(** The pricing loop runs to its end exactly when every line has its
    product row, and then prices every line. *)
Lemma price_cart_all ps rows : ∀ total acc,
  Forall (λ item, is_Some (ps !! product_id item)) rows →
  price_cart ps rows total acc
  = Next (foldl fadd total (line_total <$> resolved ps rows),
          acc ++ (snapshot <$> resolved ps rows)).
Proof.
  induction rows as [|item rest IH]; intros total acc Hall.
  - simpl. by rewrite app_nil_r.
  - inversion Hall as [|? ? [prod Hp] Hrest]; subst.
    rewrite (resolved_cons_Some _ _ _ _ Hp). cbn [price_cart].
    unfold product_of. rewrite Hp. simpl.
    rewrite IH by done. by rewrite <- app_assoc.
Qed.

Lemma price_cart_missing ps rows : ∀ total acc,
  ¬ Forall (λ item, is_Some (ps !! product_id item)) rows →
  price_cart ps rows total acc = Reply (Raised AttributeError).
Proof.
  induction rows as [|item rest IH]; intros total acc Hsome; simpl.
  - destruct Hsome. constructor.
  - unfold product_of.
    destruct (ps !! product_id item) as [prod|] eqn:Hp; simpl; [|done].
    apply IH. intros Hrest. apply Hsome. constructor; [by eexists|done].
Qed.

Lemma cart_lines_all ps rows :
  Forall (λ item, is_Some (ps !! product_id item)) rows →
  cart_lines ps rows = Next (resolved ps rows).
Proof.
  induction 1 as [|item rest [prod Hp] _ IH]; [done|].
  rewrite (resolved_cons_Some _ _ _ _ Hp). cbn [cart_lines].
  unfold product_of. rewrite Hp. simpl. by rewrite IH.
Qed.

Lemma cart_lines_missing ps rows :
  ¬ Forall (λ item, is_Some (ps !! product_id item)) rows →
  cart_lines ps rows = Reply (Raised AttributeError).
Proof.
  induction rows as [|item rest IH]; intros Hsome; simpl.
  - destruct Hsome. constructor.
  - unfold product_of.
    destruct (ps !! product_id item) as [prod|] eqn:Hp; simpl; [|done].
    rewrite IH; [done|].
    intros Hrest. apply Hsome. constructor; [by eexists|done].
Qed.

Lemma nonempty_length {A} (l : list A) : l ≠ [] → (length l =? 0)%nat = false.
Proof. by destruct l. Qed.

Lemma sql_checkout_run e uid data s :
  cart_of uid s ≠ [] →
  Forall (λ item, is_Some (db_products s !! product_id item)) (cart_of uid s) →
  varchar 50 (default "card" (ck_payment_method data)) = true →
  Forall (λ o, order_id o ≠ order_code (uuid4 e)) (db_orders s) →
  is_Some (db_users s !! uid) →
  let rs := resolved (db_products s) (cart_of uid s) in
  let o := new_order e uid data (running_total (line_total <$> rs)) (snapshot <$> rs) s in
  checkout e uid data s
  = ({| db_users := db_users s;
        db_products := db_products s;
        db_cart_items := filter (λ r, ci_user_id r ≠ uid) (db_cart_items s);
        db_orders := db_orders s ++ [o] |},
     OrderCreated (order_id o) (total_usd o)).
Proof.
  intros Hne Hall Hfits Huniq Huser rs o. unfold checkout.
  rewrite nonempty_length by done. simpl.
  rewrite price_cart_all by done. simpl. rewrite Hfits. simpl.
  by rewrite !bool_decide_true.
Qed.

Lemma checkout_missing e uid data s :
  ¬ Forall (λ item, is_Some (db_products s !! product_id item)) (cart_of uid s) →
  checkout e uid data s = (s, Raised AttributeError).
Proof.
  intros Hsome. unfold checkout.
  rewrite nonempty_length; cycle 1.
  { intros Hnil. apply Hsome. rewrite Hnil. constructor. }
  simpl. by rewrite price_cart_missing.
Qed.

Lemma sql_checkout_ok_inv e uid data s s' r :
  checkout e uid data s = (s', r) → status r = 200 →
  cart_of uid s ≠ [] ∧
  Forall (λ item, is_Some (db_products s !! product_id item)) (cart_of uid s) ∧
  varchar 50 (default "card" (ck_payment_method data)) = true ∧
  Forall (λ o, order_id o ≠ order_code (uuid4 e)) (db_orders s) ∧
  is_Some (db_users s !! uid).
Proof.
  intros Hrun Hst.
  destruct (decide (Forall (λ item, is_Some (db_products s !! product_id item))
                           (cart_of uid s))) as [Hall|Hsome]; cycle 1.
  { rewrite checkout_missing in Hrun by done. by injection Hrun as <- <-. }
  revert Hrun. unfold checkout.
  destruct (decide (cart_of uid s = [])) as [->|Hne]; simpl.
  { intros [= <- <-]. done. }
  rewrite nonempty_length by done. simpl.
  rewrite price_cart_all by done. simpl.
  destruct (varchar 50 _) eqn:Hfits; simpl; [|by intros [= <- <-]].
  repeat case_bool_decide; simpl; try done; by intros [= <- <-].
Qed.

Lemma sql_checkout_empty e uid data s :
  cart_of uid s = [] → checkout e uid data s = (s, Error 400 "Cart is empty").
Proof. intros Hnil. unfold checkout. by rewrite Hnil. Qed.

Lemma get_cart_all uid s :
  Forall (λ item, is_Some (db_products s !! product_id item)) (cart_of uid s) →
  ∃ views,
    length views = length (cart_of uid s) ∧
    get_cart uid s
    = (s, CartTotals views
            (round2 (py_sum (line_total <$>
                             resolved (db_products s) (cart_of uid s))))).
Proof.
  intros Hall. unfold get_cart.
  rewrite cart_lines_all by done. simpl.
  eexists. split; [|done].
  rewrite length_fmap. by rewrite <- (resolved_all _ _ Hall) at 2; rewrite length_fmap.
Qed.

Lemma get_cart_ok_inv uid s :
  status (get_cart uid s).2 = 200 →
  Forall (λ item, is_Some (db_products s !! product_id item)) (cart_of uid s) ∧
  ∃ views,
    length views = length (cart_of uid s) ∧
    get_cart uid s
    = (s, CartTotals views
            (round2 (py_sum (line_total <$>
                             resolved (db_products s) (cart_of uid s))))).
Proof.
  destruct (decide (Forall (λ item, is_Some (db_products s !! product_id item))
                           (cart_of uid s))) as [Hall|Hsome].
  - intros _. split; [done|]. unfold get_cart.
    rewrite cart_lines_all by done. simpl.
    eexists. split; [|done].
    rewrite length_fmap. by rewrite <- (resolved_all _ _ Hall) at 2; rewrite length_fmap.
  - unfold get_cart. by rewrite cart_lines_missing.
Qed.

(** *** The row search of [add_to_cart] *)

Lemma sql_bump_absent uid pid q rows :
  Forall (λ r, ¬ (ci_user_id r = uid ∧ product_id r = pid)) rows →
  bump uid pid q rows = (rows, false).
Proof.
  induction 1 as [|r rest Hr _ IH]; simpl; [done|].
  rewrite IH. repeat case_bool_decide; simpl; [tauto|done..].
Qed.

Lemma sql_bump_present uid pid q l1 r l2 :
  Forall (λ r, ¬ (ci_user_id r = uid ∧ product_id r = pid)) l1 →
  ci_user_id r = uid → product_id r = pid →
  bump uid pid q (l1 ++ r :: l2)
  = (l1 ++ {| ci_id := ci_id r; ci_user_id := uid; product_id := pid;
              quantity := quantity r + q; added_at := added_at r |} :: l2, true).
Proof.
  intros Hl1 Hu Hp. induction Hl1 as [|x l1 Hx _ IH]; simpl.
  - rewrite !bool_decide_true by done. simpl. by rewrite Hu, Hp.
  - rewrite IH. repeat case_bool_decide; simpl; [tauto|done..].
Qed.

Lemma first_row uid pid rows :
  Forall (λ r, ¬ (ci_user_id r = uid ∧ product_id r = pid)) rows ∨
  ∃ l1 r l2, rows = l1 ++ r :: l2 ∧
    Forall (λ r, ¬ (ci_user_id r = uid ∧ product_id r = pid)) l1 ∧
    ci_user_id r = uid ∧ product_id r = pid.
Proof.
  induction rows as [|x rest IH]; [by left|].
  destruct (decide (ci_user_id x = uid ∧ product_id x = pid)) as [[Hu Hp]|Hne].
  - right. by exists [], x, rest.
  - destruct IH as [Habs|(l1 & r & l2 & -> & Hl1 & Hu & Hp)].
    + left. by constructor.
    + right. exists (x :: l1), r, l2. split_and!; [done| |done..].
      by constructor.
Qed.




(** *** [add_to_cart] and [signup] as store updates *)

Lemma bump_found uid pid q rows : (bump uid pid q rows).2 = has_row uid pid rows.
Proof.
  induction rows as [|r rest IH]; [done|]. simpl.
  destruct (bool_decide (ci_user_id r = uid) && bool_decide (product_id r = pid));
    [done|].
  destruct (bump uid pid q rest). simpl in *. done.
Qed.

Lemma has_row_absent uid pid rows :
  Forall (λ r, ¬ (ci_user_id r = uid ∧ product_id r = pid)) rows →
  has_row uid pid rows = false.
Proof. intros Habs. by rewrite <- (bump_found uid pid 0), sql_bump_absent. Qed.






Lemma sql_add_to_cart_run e uid pid q s p :
  db_products s !! pid = Some p →
  int32 (new_quantity uid pid q (db_cart_items s)) = true →
  has_row uid pid (db_cart_items s) = true ∨ is_Some (db_users s !! uid) →
  add_to_cart e uid (CartBody (Some pid) (Some q)) s
  = (set_cart_items (merge_row e uid pid q (db_cart_items s)) s,
     CartUpdated "Product added to cart").
Proof.
  intros Hp Hfits Huser. unfold add_to_cart. simpl. rewrite Hp. simpl.
  rewrite Hfits. simpl.
  destruct Huser as [->|Huser]; [done|].
  by rewrite (bool_decide_true _ Huser), orb_true_r.
Qed.

Lemma sql_add_to_cart_unfound e uid pid oq s :
  db_products s !! pid = None →
  add_to_cart e uid (CartBody (Some pid) oq) s = (s, Error 404 "Not Found").
Proof. intros Hp. unfold add_to_cart. simpl. by rewrite Hp. Qed.

(** An [add_to_cart] answered with 200 passed every check. *)
Lemma sql_add_to_cart_ok_inv e uid data s :
  status (add_to_cart e uid data s).2 = 200 →
  ∃ pid q p,
    data = CartBody (Some pid) (Some q) ∧ db_products s !! pid = Some p ∧
    int32 (new_quantity uid pid q (db_cart_items s)) = true ∧
    (has_row uid pid (db_cart_items s) = true ∨ is_Some (db_users s !! uid)).
Proof.
  unfold add_to_cart. destruct data as [[pid|] oq]; simpl; [|done].
  destruct (db_products s !! pid) as [p|] eqn:Hp; simpl; [|done].
  destruct oq as [q|]; simpl; [|done].
  destruct (int32 _) eqn:Hfits; simpl; [|done].
  destruct (has_row uid pid (db_cart_items s)) eqn:Hrow; simpl.
  { intros _. exists pid, q, p. by split_and!; [..|left]. }
  case_bool_decide as Huser; simpl; [|done].
  intros _. exists pid, q, p. by split_and!; [..|right].
Qed.

(** Whatever the outcome, [add_to_cart] leaves the store as it was or
    merges the line into the table. *)
Lemma sql_add_to_cart_store e uid data s :
  (add_to_cart e uid data s).1 = s ∨
  ∃ pid q,
    data = CartBody (Some pid) (Some q) ∧
    is_Some (db_products s !! pid) ∧
    int32 (new_quantity uid pid q (db_cart_items s)) = true ∧
    (has_row uid pid (db_cart_items s) = true ∨ is_Some (db_users s !! uid)) ∧
    (add_to_cart e uid data s).1
    = set_cart_items (merge_row e uid pid q (db_cart_items s)) s.
Proof.
  destruct (decide (status (add_to_cart e uid data s).2 = 200)) as [Hst|Hst].
  - right. destruct (sql_add_to_cart_ok_inv _ _ _ _ Hst)
      as (pid & q & p & -> & Hp & Hfits & Huser).
    exists pid, q. rewrite (sql_add_to_cart_run e uid pid q s p) by done.
    by split_and!.
  - left. revert Hst. unfold add_to_cart.
    destruct (cb_product_id data) as [pid|]; simpl; [|done].
    destruct (db_products s !! pid); simpl; [|done].
    destruct (cb_quantity data) as [q|]; simpl; [|done].
    destruct (int32 _); simpl; [|done].
    by destruct (_ || _).
Qed.



(** No path of [add_to_cart] writes to the users table. *)
Lemma add_to_cart_users e uid data s :
  db_users (add_to_cart e uid data s).1 = db_users s.
Proof.
  destruct (sql_add_to_cart_store e uid data s) as [->|(? & ? & _ & _ & _ & _ & ->)];
    done.
Qed.

(** A sequence hands out an id that no row of the table has. *)
Lemma nextval_above (ids : list Z) g x : x ∈ ids → x < nextval ids g.
Proof.
  unfold nextval. induction 1 as [x l|x y l _ IH]; simpl; lia.
Qed.

Lemma nextval_fresh (ids : list Z) g : nextval ids g ∉ ids.
Proof. intros Hin. apply (nextval_above _ g) in Hin. lia. Qed.

Lemma fresh_user_id s g :
  db_users s !! nextval (map_to_list (db_users s)).*1 g = None.
Proof.
  apply eq_None_not_Some. intros [u Hu].
  apply elem_of_map_to_list in Hu.
  apply (nextval_fresh (map_to_list (db_users s)).*1 g).
  apply list_elem_of_fmap. by eexists (_, u).
Qed.

(** [signup] writes at most one row, the one [new_user] builds, under a
    fresh primary key. *)
Lemma signup_store e data s :
  (signup e data s).1 = s ∨
  (status (signup e data s).2 = 201 ∧
   ∃ uid, db_users s !! uid = None ∧
     (signup e data s).1
     = {| db_users := <[uid := new_user e data]> (db_users s);
          db_products := db_products s;
          db_cart_items := db_cart_items s;
          db_orders := db_orders s |}).
Proof.
  unfold signup.
  destruct (_ && _); simpl; [|by left].
  destruct (email_registered _ s); simpl; [by left|].
  right. split; [done|]. eexists. split; [apply fresh_user_id|done].
Qed.

Lemma signup_created e data s :
  status (signup e data s).2 = 201 →
  ∃ uid, db_users s !! uid = None ∧
    (signup e data s).1
    = {| db_users := <[uid := new_user e data]> (db_users s);
         db_products := db_products s;
         db_cart_items := db_cart_items s;
         db_orders := db_orders s |}.
Proof.
  unfold signup.
  destruct (_ && _); simpl; [|done].
  destruct (email_registered _ s); simpl; [done|].
  intros _. eexists. split; [apply fresh_user_id|done].
Qed.

(** Deleting the rows of a user leaves that user no cart. *)
Lemma cart_deleted uid rows :
  filter (λ r, ci_user_id r = uid) (filter (λ r, ci_user_id r ≠ uid) rows) = [].
Proof.
  induction rows as [|r rest IH]; [done|].
  destruct (decide (ci_user_id r = uid)) as [Heq|Hne].
  - by rewrite (filter_cons_False (λ r, ci_user_id r ≠ uid)) by tauto.
  - rewrite (filter_cons_True (λ r, ci_user_id r ≠ uid)) by done.
    by rewrite filter_cons_False.
Qed.

(** *** The foreign keys *)

(** What the foreign keys of [cart_items] give: every row of a cart has
    its product and its user. *)
Lemma cart_resolves uid s :
  foreign_keys s →
  Forall (λ item, is_Some (db_products s !! product_id item)) (cart_of uid s).
Proof.
  intros [Hcart _]. unfold cart_of. apply ListFacts.Forall_filtered.
  eapply Forall_impl; [exact Hcart|]. by intros r [_ Hp].
Qed.

Lemma cart_owner uid s :
  foreign_keys s → cart_of uid s ≠ [] → is_Some (db_users s !! uid).
Proof.
  intros [Hcart _] Hne. unfold cart_of in Hne.
  destruct (filter _ _) as [|r rest] eqn:Hrows; [done|].
  assert (r ∈ filter (λ r, ci_user_id r = uid) (db_cart_items s)) as Hr
    by (rewrite Hrows; left).
  apply list_elem_of_filter in Hr as [<- Hr].
  rewrite Forall_forall in Hcart. by apply (Hcart r Hr).
Qed.

Lemma merge_row_in e uid pid q rows r :
  r ∈ merge_row e uid pid q rows →
  (ci_user_id r = uid ∧ product_id r = pid) ∨
  ∃ r', r' ∈ rows ∧ ci_user_id r' = ci_user_id r ∧ product_id r' = product_id r.
Proof.
  unfold merge_row.
  destruct (first_row uid pid rows) as [Habs|(l1 & x & l2 & -> & Hl1 & Hu & Hp)].
  - rewrite sql_bump_absent by done. rewrite elem_of_app.
    intros [Hr|Hr]; [right; by exists r|].
    apply list_elem_of_singleton in Hr as ->. by left.
  - rewrite sql_bump_present by done. rewrite !elem_of_app, !elem_of_cons.
    intros [Hr|[->|Hr]]; [right; exists r|by left|right; exists r];
      rewrite !elem_of_app, !elem_of_cons; tauto.
Qed.

(** The handlers that write keep the foreign keys. *)
Lemma foreign_keys_kept s :
  foreign_keys s →
  (∀ e, foreign_keys (PostgresApi.seed_data e s)) ∧
  (∀ reviewed pid,
     foreign_keys (PostgresApi.admin_delete_product reviewed pid s).1) ∧
  (∀ e data, foreign_keys (signup e data s).1) ∧
  (∀ e uid data, foreign_keys (add_to_cart e uid data s).1) ∧
  (∀ e uid data, foreign_keys (checkout e uid data s).1).
Proof.
  intros [Hcart Horders]. split_and!.
  - intros e. unfold PostgresApi.seed_data.
    assert (∀ k, is_Some (db_users s !! k) →
              is_Some ((if email_registered "admin@queenkoba.com" s
                        then db_users s
                        else <[nextval (map_to_list (db_users s)).*1
                                 (skipped e Users)
                               := PostgresApi.admin_user e
                                    (if (size (db_products s) =? 0)%nat
                                     then 12%nat else 0%nat)]> (db_users s))
                       !! k)) as Husers.
    { intros k [u Hu]. destruct (email_registered _ s); [by exists u|].
      exists u. rewrite lookup_insert_ne; [done|].
      intros <-. by rewrite fresh_user_id in Hu. }
    split; simpl.
    + eapply Forall_impl; [exact Hcart|]. intros r [Hu [p Hp]].
      split; [by apply Husers|].
      destruct (Nat.eqb_spec (size (db_products s)) 0) as [Hsize|_];
        [|by exists p].
      apply map_size_empty_inv in Hsize. by rewrite Hsize in Hp.
    + eapply Forall_impl; [exact Horders|]. intros o Hu. by apply Husers.
  - intros reviewed pid. unfold PostgresApi.admin_delete_product.
    destruct (db_products s !! pid); [|done].
    case_bool_decide as Hfree; simpl; [|done].
    destruct (bool_decide (pid ∉ reviewed)); simpl; [|done].
    split; [|done]. simpl. rewrite Forall_forall in Hcart, Hfree.
    apply Forall_forall. intros r Hr.
    destruct (Hcart r Hr) as [Hu Hp]. split; [done|].
    rewrite lookup_delete_ne; [done|]. intros Heq. by apply (Hfree r Hr).
  - intros e data.
    destruct (signup_store e data s) as [->|(_ & uid & Hfresh & ->)]; [done|].
    split; simpl.
    + eapply Forall_impl; [exact Hcart|]. intros r [[u Hu] Hp].
      split; [|done]. exists u. rewrite lookup_insert_ne; [done|]. congruence.
    + eapply Forall_impl; [exact Horders|]. intros o [u Hu].
      exists u. rewrite lookup_insert_ne; [done|]. congruence.
  - intros e uid data.
    destruct (sql_add_to_cart_store e uid data s)
      as [->|(pid & q & -> & Hp & _ & Huser & ->)]; [done|].
    split; [|done]. simpl. apply Forall_forall. intros r Hr.
    rewrite Forall_forall in Hcart.
    destruct (merge_row_in _ _ _ _ _ _ Hr) as [[-> ->]|(r' & Hr' & <- & <-)];
      [|by apply Hcart].
    split; [|done].
    destruct Huser as [Hrow|Huser]; [|done].
    destruct (first_row uid pid (db_cart_items s))
      as [Habs|(l1 & x & l2 & Hrows & _ & <- & _)].
    + by rewrite has_row_absent in Hrow.
    + apply (Hcart x). rewrite Hrows. apply elem_of_app. right. left.
  - intros e uid data.
    destruct (decide (status (checkout e uid data s).2 = 200)) as [Hst|Hst].
    + destruct (sql_checkout_ok_inv e uid data s _ _ (surjective_pairing _) Hst)
        as (Hne & Hall & Hfits & Huniq & Huser).
      rewrite sql_checkout_run by done. split; simpl.
      * apply ListFacts.Forall_filtered. exact Hcart.
      * apply Forall_app. split; [done|]. by constructor.
    + revert Hst. unfold checkout.
      destruct (negb _); simpl; [|done].
      destruct (price_cart _ _ _ _) as [[total its]|r]; simpl; [|done].
      destruct (varchar 50 _); simpl; [|done].
      by repeat case_bool_decide.
Qed.

End Facts.
End PostgresFacts.

(** * The specification's claims *)

Section Claims.
Context {F : Type} `{!PyFloat F} `{!Services}.

(** C2.  Pricing: for every base price [p] the table [calculate_prices p]
    has exactly the four currencies KES, UGX, BIF and CDF; the amount of
    each is [round(p * rate, 2)] with the rates 128.5, 3582.34, 2850.0
    and 2700.0, rounded by the one built-in [round]; symbol and country
    of a currency are constants, the same for every [p].  The function
    reads nothing but [p]. *)
Theorem calculate_prices_table (p : F) :
  calculate_prices p !! "KES"
    = Some (Price (round2 (fmul p (flit 1285 1))) "KSh" "Kenya") ∧
  calculate_prices p !! "UGX"
    = Some (Price (round2 (fmul p (flit 358234 2))) "USh" "Uganda") ∧
  calculate_prices p !! "BIF"
    = Some (Price (round2 (fmul p (flit 28500 1))) "FBu" "Burundi") ∧
  calculate_prices p !! "CDF"
    = Some (Price (round2 (fmul p (flit 27000 1))) "FC" "DRC Congo") ∧
  dom (calculate_prices p) = list_to_set [ "KES"; "UGX"; "BIF"; "CDF" ] ∧
  (∀ (q : F) (c : string),
     symbol <$> calculate_prices p !! c = symbol <$> calculate_prices q !! c ∧
     country <$> calculate_prices p !! c = country <$> calculate_prices q !! c).
Proof.
  split_and!; try reflexivity.
  intros q c. unfold calculate_prices. simpl.
  destruct (decide (c = "CDF")) as [->|?]; [done|].
  destruct (decide (c = "BIF")) as [->|?]; [done|].
  destruct (decide (c = "UGX")) as [->|?]; [done|].
  destruct (decide (c = "KES")) as [->|?]; [done|].
  by rewrite !lookup_insert_ne, lookup_empty.
Qed.

(** C1.  A checkout answered with success ran on a user with a
    non-empty cart, and it stored an order whose items are the snapshots
    (product id, name, quantity, unit price, line total) of the cart
    lines whose product resolves, in cart order, and whose [total_usd]
    is the sum of unit price times quantity over those lines; afterwards
    the user's cart is empty and the new order is among the user's
    orders.  And checkout is answered with success: in the document
    store for an existing user with a non-empty cart, when the driver's
    new [_id] is new; in the relational store, which meets its foreign
    keys, for a non-empty cart, when the payment method fits its column
    of 50 characters and the order code is new. *)
Theorem checkout_persists_order :
  (∀ e uid data (s : Mongo.db (F:=F)),
     Mongo.status (Mongo.checkout e uid data s).2 = 200 →
     let s' := (Mongo.checkout e uid data s).1 in
     ∃ uoid u o u',
       ObjectId uid = Some uoid ∧
       Mongo.db_users s !! uoid = Some u ∧ Mongo.cart u ≠ [] ∧
       let rs := Mongo.resolved (Mongo.db_products s) (Mongo.cart u) in
       Mongo.db_orders s !! Mongo.inserted_id e = None ∧
       Mongo.db_orders s' = <[Mongo.inserted_id e := o]> (Mongo.db_orders s) ∧
       Mongo.items o = Mongo.snapshot <$> rs ∧
       Mongo.total_usd o = running_total (Mongo.line_total <$> rs) ∧
       Mongo.db_users s' !! uoid = Some u' ∧
       Mongo.cart u' = [] ∧
       Mongo.inserted_id e ∈ Mongo.orders u' ∧
       (Mongo.checkout e uid data s).2
       = Mongo.OrderCreated (Mongo.order_id o) (Mongo.inserted_id e)
                            (Mongo.total_usd o) (length (Mongo.items o))) ∧
  (∀ e uid data (s : Mongo.db (F:=F)) uoid u,
     Mongo.carts_well_formed s →
     ObjectId uid = Some uoid →
     Mongo.db_users s !! uoid = Some u → Mongo.cart u ≠ [] →
     Mongo.db_orders s !! Mongo.inserted_id e = None →
     Mongo.status (Mongo.checkout e uid data s).2 = 200) ∧
  (∀ e uid data (s : Postgres.db (F:=F)),
     Postgres.status (Postgres.checkout e uid data s).2 = 200 →
     let s' := (Postgres.checkout e uid data s).1 in
     let rs := Postgres.resolved (Postgres.db_products s) (Postgres.cart_of uid s) in
     Postgres.cart_of uid s ≠ [] ∧
     rs.*1 = Postgres.cart_of uid s ∧
     ∃ o,
       Postgres.db_orders s' = Postgres.db_orders s ++ [o] ∧
       Postgres.o_user_id o = uid ∧
       Postgres.items o = Postgres.snapshot <$> rs ∧
       Postgres.total_usd o = running_total (Postgres.line_total <$> rs) ∧
       Postgres.cart_of uid s' = [] ∧
       o ∈ Postgres.orders_of uid s' ∧
       (Postgres.checkout e uid data s).2
       = Postgres.OrderCreated (Postgres.order_id o) (Postgres.total_usd o)) ∧
  (∀ e uid data (s : Postgres.db (F:=F)),
     Postgres.foreign_keys s →
     Postgres.cart_of uid s ≠ [] →
     varchar 50 (default "card" (Postgres.ck_payment_method data)) = true →
     Forall (λ o, Postgres.order_id o ≠ order_code (Postgres.uuid4 e))
            (Postgres.db_orders s) →
     Postgres.status (Postgres.checkout e uid data s).2 = 200).
Proof.
  split_and!.
  - intros e uid data s Hst s'.
    destruct (MongoFacts.checkout_ok_inv e uid data s _ _ (surjective_pairing _) Hst)
      as (uoid & u & Huoid & Hu & Hne & Hwf & Hfresh).
    subst s'. rewrite (MongoFacts.checkout_run e uid data s uoid u) by done.
    eexists uoid, u, _, _. simpl.
    split_and!; try done.
    + apply lookup_insert_eq.
    + done.
    + simpl. apply elem_of_app. right. left.
  - intros e uid data s uoid u Hwf Huoid Hu Hne Hfresh.
    rewrite (MongoFacts.checkout_run e uid data s uoid u); [done..| |done].
    by apply (Hwf uoid).
  - intros e uid data s Hst s' rs.
    destruct (PostgresFacts.sql_checkout_ok_inv e uid data s _ _ (surjective_pairing _) Hst)
      as (Hne & Hall & Hfits & Huniq & Huser).
    split; [done|]. split; [by apply PostgresFacts.resolved_all|].
    subst s'. rewrite PostgresFacts.sql_checkout_run by done.
    eexists. simpl. split_and!; try done.
    + apply PostgresFacts.cart_deleted.
    + unfold Postgres.orders_of. simpl. apply list_elem_of_filter.
      split; [done|]. apply elem_of_app. right. left.
  - intros e uid data s Hfk Hne Hfits Huniq.
    rewrite PostgresFacts.sql_checkout_run;
      [done|done|by apply PostgresFacts.cart_resolves|done|done
      |by apply PostgresFacts.cart_owner].
Qed.

(** C3.  Checkout on a cart with no line is answered 400 "Cart is empty"
    and returns the store it was given: no order, and the user record
    as it was.  In both editions. *)
Theorem checkout_empty_cart_rejected :
  (∀ e uid data (s : Mongo.db (F:=F)) uoid u,
     ObjectId uid = Some uoid →
     Mongo.db_users s !! uoid = Some u →
     Mongo.cart u = [] →
     Mongo.checkout e uid data s = (s, Mongo.Error 400 "Cart is empty")) ∧
  (∀ e uid data (s : Postgres.db (F:=F)),
     Postgres.cart_of uid s = [] →
     Postgres.checkout e uid data s = (s, Postgres.Error 400 "Cart is empty")).
Proof.
  split.
  - intros. by eapply MongoFacts.checkout_empty.
  - intros. by apply PostgresFacts.sql_checkout_empty.
Qed.

(** C4.  Document store: on a non-empty cart checkout succeeds and
    prices exactly the lines whose product is found, passing over the
    others; [get_cart] lists every line and totals the same lines.
    Relational store: the foreign key of [cart_items] leaves no line
    without its product, so the lines whose product is found are all the
    lines of the cart; checkout succeeds (given a payment method that
    fits its column and a new order code) and prices them, and
    [get_cart] lists and totals them.  The carts of the document store hold
    well-formed ids and the relational store meets its foreign keys:
    the handlers that write keep both. *)
Theorem unresolved_lines :
  (∀ e uid data (s : Mongo.db (F:=F)) uoid u,
     Mongo.carts_well_formed s →
     ObjectId uid = Some uoid →
     Mongo.db_users s !! uoid = Some u →
     Mongo.cart u ≠ [] →
     Mongo.db_orders s !! Mongo.inserted_id e = None →
     let rs := Mongo.resolved (Mongo.db_products s) (Mongo.cart u) in
     Forall (λ l, ObjectId (Mongo.product_id l.1.1) = Some l.1.2 ∧
                  Mongo.db_products s !! l.1.2 = Some l.2) rs ∧
     Mongo.status (Mongo.checkout e uid data s).2 = 200 ∧
     (∃ o, Mongo.db_orders (Mongo.checkout e uid data s).1 !! Mongo.inserted_id e
           = Some o ∧
           Mongo.items o = Mongo.snapshot <$> rs ∧
           Mongo.total_usd o = running_total (Mongo.line_total <$> rs)) ∧
     (∃ views, Mongo.cv_item <$> views = Mongo.cart u ∧
        Mongo.get_cart uid s
        = (s, Mongo.CartTotals views
                (round2 (running_total (Mongo.line_total <$> rs)))
                (round2 (fmul (running_total (Mongo.line_total <$> rs))
                              (rate_or_one (Mongo.preferred_currency u))))
                (Mongo.preferred_currency u)
                (symbol_or_dollar (Mongo.preferred_currency u))))) ∧
  (∀ e uid data (s : Postgres.db (F:=F)),
     Postgres.foreign_keys s →
     Postgres.cart_of uid s ≠ [] →
     varchar 50 (default "card" (Postgres.ck_payment_method data)) = true →
     Forall (λ o, Postgres.order_id o ≠ order_code (Postgres.uuid4 e))
            (Postgres.db_orders s) →
     let rs := Postgres.resolved (Postgres.db_products s) (Postgres.cart_of uid s) in
     rs.*1 = Postgres.cart_of uid s ∧
     Postgres.status (Postgres.checkout e uid data s).2 = 200 ∧
     (∃ o, Postgres.db_orders (Postgres.checkout e uid data s).1
           = Postgres.db_orders s ++ [o] ∧
           Postgres.items o = Postgres.snapshot <$> rs ∧
           Postgres.total_usd o = running_total (Postgres.line_total <$> rs)) ∧
     (∃ views,
        length views = length (Postgres.cart_of uid s) ∧
        Postgres.get_cart uid s
        = (s, Postgres.CartTotals views
                (round2 (py_sum (Postgres.line_total <$> rs)))))) ∧
  (∀ s : Mongo.db (F:=F),
     Mongo.carts_well_formed s →
     (∀ e, Mongo.carts_well_formed (MongoApi.seed_products e s)) ∧
     (∀ e data, Mongo.carts_well_formed (Mongo.register e data s).1) ∧
     (∀ e uid data, Mongo.carts_well_formed (Mongo.add_to_cart e uid data s).1) ∧
     (∀ e uid pid, Mongo.carts_well_formed (Mongo.remove_from_cart e uid pid s).1) ∧
     (∀ e uid data, Mongo.carts_well_formed (Mongo.checkout e uid data s).1)) ∧
  (∀ s : Postgres.db (F:=F),
     Postgres.foreign_keys s →
     (∀ e, Postgres.foreign_keys (PostgresApi.seed_data e s)) ∧
     (∀ reviewed pid,
        Postgres.foreign_keys
          (PostgresApi.admin_delete_product reviewed pid s).1) ∧
     (∀ e data, Postgres.foreign_keys (Postgres.signup e data s).1) ∧
     (∀ e uid data, Postgres.foreign_keys (Postgres.add_to_cart e uid data s).1) ∧
     (∀ e uid data, Postgres.foreign_keys (Postgres.checkout e uid data s).1)).
Proof.
  split_and!.
  - intros e uid data s uoid u Hwf Huoid Hu Hne Hfresh rs.
    assert (Mongo.well_formed (Mongo.cart u)) as Hcart by by apply (Hwf uoid).
    split; [apply MongoFacts.resolved_sound|].
    rewrite (MongoFacts.checkout_run e uid data s uoid u) by done. simpl.
    split; [done|]. split.
    + eexists. split; [apply lookup_insert_eq|done].
    + by apply (MongoFacts.get_cart_run uid s uoid u).
  - intros e uid data s Hfk Hne Hfits Huniq rs.
    pose proof (PostgresFacts.cart_resolves uid s Hfk) as Hall.
    pose proof (PostgresFacts.cart_owner uid s Hfk Hne) as Huser.
    split; [by apply PostgresFacts.resolved_all|].
    rewrite PostgresFacts.sql_checkout_run by done. simpl.
    split; [done|]. split; [by eexists|].
    destruct (PostgresFacts.get_cart_all uid s Hall) as (views & Hlen & Hrun).
    by exists views.
  - apply MongoFacts.carts_well_formed_kept.
  - apply PostgresFacts.foreign_keys_kept.
Qed.

(** C5, as the code has it.  Document store: a request whose product id
    or quantity is missing or falsy (the empty id, the quantity 0) is
    answered 400; a well-formed id of no product, with a non-zero
    quantity, is answered 404; with an existing product and user a
    non-zero quantity, negative ones too, is accepted when the quantity
    the line ends up with fits eight bytes, and answered 500 otherwise.
    Relational store: an id of no product is answered 404; with an
    existing product a quantity, zero and negative ones too, is accepted
    for a caller with a users row when the quantity the row ends up with
    fits the [INTEGER] column; it is answered 500 when that quantity
    does not fit, and when the caller has neither a users row nor a row
    for the product.  A rejected request leaves the store as it was. *)
Theorem add_to_cart_outcomes :
  (∀ e uid data (s : Mongo.db (F:=F)),
     truthy_str (Mongo.cb_product_id data) && truthy_int (Mongo.cb_quantity data)
     = false →
     Mongo.add_to_cart e uid data s
     = (s, Mongo.Error 400 "Product ID and quantity required")) ∧
  (∀ e uid pid qty (s : Mongo.db (F:=F)) poid,
     pid ≠ "" → qty ≠ 0 → ObjectId pid = Some poid →
     Mongo.db_products s !! poid = None →
     Mongo.add_to_cart e uid (Mongo.CartBody (Some pid) (Some qty)) s
     = (s, Mongo.Error 404 "Product not found")) ∧
  (∀ e uid pid qty (s : Mongo.db (F:=F)) poid uoid u,
     pid ≠ "" → qty ≠ 0 → ObjectId pid = Some poid →
     is_Some (Mongo.db_products s !! poid) →
     ObjectId uid = Some uoid → Mongo.db_users s !! uoid = Some u →
     let added := Mongo.add_to_cart e uid (Mongo.CartBody (Some pid) (Some qty)) s in
     let left := Mongo.new_quantity pid qty (Mongo.cart u) in
     (int64 left = true → Mongo.status added.2 = 200) ∧
     (int64 left = false → added = (s, Mongo.Raised OverflowError))) ∧
  (∀ e uid pid oq (s : Postgres.db (F:=F)),
     Postgres.db_products s !! pid = None →
     Postgres.add_to_cart e uid (Postgres.CartBody (Some pid) oq) s
     = (s, Postgres.Error 404 "Not Found")) ∧
  (∀ e uid pid qty (s : Postgres.db (F:=F)),
     is_Some (Postgres.db_products s !! pid) →
     let added :=
       Postgres.add_to_cart e uid (Postgres.CartBody (Some pid) (Some qty)) s in
     let left := Postgres.new_quantity uid pid qty (Postgres.db_cart_items s) in
     (int32 left = true → is_Some (Postgres.db_users s !! uid) →
      Postgres.status added.2 = 200) ∧
     (int32 left = false → added = (s, Postgres.Raised DataError)) ∧
     (int32 left = true → Postgres.db_users s !! uid = None →
      Postgres.has_row uid pid (Postgres.db_cart_items s) = false →
      added = (s, Postgres.Raised IntegrityError))).
Proof.
  split_and!.
  - intros. by apply MongoFacts.add_to_cart_invalid.
  - intros. by eapply MongoFacts.add_to_cart_unfound.
  - intros e uid pid qty s poid uoid u Hpid Hqty Hpoid [p Hp] Huoid Hu added left.
    subst added left. split; intros Hfits.
    + by rewrite (MongoFacts.add_to_cart_run e uid pid qty s poid p uoid u).
    + by apply (MongoFacts.add_to_cart_overflow e uid pid qty s poid p uoid u).
  - intros. by apply PostgresFacts.sql_add_to_cart_unfound.
  - intros e uid pid qty s [p Hp] added left. subst added left. split_and!.
    + intros Hfits Huser.
      rewrite (PostgresFacts.sql_add_to_cart_run e uid pid qty s p); [done..|].
      by right.
    + intros Hfits. unfold Postgres.add_to_cart. simpl. rewrite Hp. simpl.
      by rewrite Hfits.
    + intros Hfits Huser Hrow. unfold Postgres.add_to_cart. simpl.
      rewrite Hp. simpl. by rewrite Hfits, Hrow, Huser.
Qed.


(** C7.  Document store, for an existing user: [remove_from_cart]
    succeeds whether or not the product has a line; it leaves the other
    lines, in order, and no line for the product; when the product had
    no line the cart is as before; and removing the same product once
    more succeeds and leaves every cart as the first removal left it. *)
Theorem remove_from_cart_idempotent e1 e2 uid pid (s : Mongo.db (F:=F)) uoid u :
  ObjectId uid = Some uoid →
  Mongo.db_users s !! uoid = Some u →
  let once := Mongo.remove_from_cart e1 uid pid s in
  let twice := Mongo.remove_from_cart e2 uid pid once.1 in
  Mongo.status once.2 = 200 ∧
  Mongo.status twice.2 = 200 ∧
  Mongo.cart <$> Mongo.db_users once.1 !! uoid
    = Some (filter (λ item, Mongo.product_id item ≠ pid) (Mongo.cart u)) ∧
  (pid ∉ Mongo.product_id <$> Mongo.cart u →
   Mongo.cart <$> Mongo.db_users once.1 !! uoid = Some (Mongo.cart u)) ∧
  (∀ k, Mongo.cart <$> Mongo.db_users twice.1 !! k
        = Mongo.cart <$> Mongo.db_users once.1 !! k).
Proof.
  intros Huoid Hu once twice. subst twice once.
  rewrite (MongoFacts.remove_from_cart_run e1 uid pid s uoid u) by done.
  simpl.
  rewrite (MongoFacts.remove_from_cart_run e2 uid pid _ uoid _ Huoid
             (lookup_insert_eq _ _ _)).
  simpl. split_and!; try done.
  - by rewrite lookup_insert_eq.
  - intros Habs. rewrite lookup_insert_eq. simpl.
    by rewrite MongoFacts.filter_absent.
  - intros k. rewrite insert_insert_eq.
    destruct (decide (uoid = k)) as [->|Hne].
    + rewrite !lookup_insert_eq. simpl. f_equal.
      apply MongoFacts.filter_absent, MongoFacts.filter_removes.
    + by rewrite !lookup_insert_ne.
Qed.

(** C8, as the code has it.  Document store: a successful [add_to_cart]
    or [remove_from_cart] sets the caller's [updated_at] to the clock as
    the request reads it (for an add that appends a line, the reading
    after the one stored in [added_at]).  Relational store:
    [add_to_cart] leaves the users table, [updated_at] included, as it
    was. *)
Theorem cart_mutation_timestamps :
  (∀ e uid data (s : Mongo.db (F:=F)),
     Mongo.status (Mongo.add_to_cart e uid data s).2 = 200 →
     ∃ uoid u',
       ObjectId uid = Some uoid ∧
       Mongo.db_users (Mongo.add_to_cart e uid data s).1 !! uoid = Some u' ∧
       (Mongo.updated_at u' = Mongo.clock e 0 ∨
        Mongo.updated_at u' = Mongo.clock e 1)) ∧
  (∀ e uid pid (s : Mongo.db (F:=F)),
     Mongo.status (Mongo.remove_from_cart e uid pid s).2 = 200 →
     ∃ uoid u',
       ObjectId uid = Some uoid ∧
       Mongo.db_users (Mongo.remove_from_cart e uid pid s).1 !! uoid = Some u' ∧
       Mongo.updated_at u' = Mongo.clock e 0) ∧
  (∀ e uid data (s : Postgres.db (F:=F)),
     Postgres.db_users (Postgres.add_to_cart e uid data s).1
     = Postgres.db_users s).
Proof.
  split_and!.
  - intros e uid data s Hst.
    destruct (MongoFacts.add_to_cart_ok_inv _ _ _ _ Hst)
      as (pid & qty & poid & p & uoid & u & -> & Hpid & Hq & Hpoid & Hp
          & Huoid & Hu & Hfits).
    rewrite (MongoFacts.add_to_cart_run e uid pid qty s poid p uoid u) by done.
    simpl. eexists uoid, _. split; [done|].
    split; [apply lookup_insert_eq|]. simpl.
    unfold Mongo.merge_line.
    destruct (Mongo.bump pid qty (Mongo.cart u)) as [bumped [|]]; simpl; auto.
  - intros e uid pid s. unfold Mongo.remove_from_cart.
    destruct (ObjectId uid) as [uoid|] eqn:Huoid; simpl; [|done].
    destruct (Mongo.db_users s !! uoid) as [u|] eqn:Hu; simpl; [|done].
    intros _. eexists uoid, _. split; [done|].
    unfold Mongo.update_user. simpl. rewrite lookup_alter_eq, Hu. done.
  - intros. apply PostgresFacts.add_to_cart_users.
Qed.

(** C9.  Document store: on a non-empty cart none of whose lines
    resolves, checkout succeeds; it stores an order with no item and
    total 0, empties the cart, appends the order's id to the user's
    orders and answers with [items_count] 0.  The store is one whose
    carts hold well-formed ids, which every store of the application
    is: a store without users is one, and the handlers that write
    users keep them such. *)
Theorem checkout_nothing_resolves :
  (∀ e uid data (s : Mongo.db (F:=F)) uoid u,
     Mongo.carts_well_formed s →
     ObjectId uid = Some uoid →
     Mongo.db_users s !! uoid = Some u →
     Mongo.cart u ≠ [] →
     Mongo.resolved (Mongo.db_products s) (Mongo.cart u) = [] →
     Mongo.db_orders s !! Mongo.inserted_id e = None →
     let s' := (Mongo.checkout e uid data s).1 in
     (Mongo.checkout e uid data s).2
       = Mongo.OrderCreated (order_code (Mongo.uuid4 e)) (Mongo.inserted_id e)
                            (of_int 0) 0 ∧
     Mongo.status (Mongo.checkout e uid data s).2 = 200 ∧
     (∃ o, Mongo.db_orders s' !! Mongo.inserted_id e = Some o ∧
           Mongo.items o = [] ∧ Mongo.total_usd o = of_int 0) ∧
     (∃ u', Mongo.db_users s' !! uoid = Some u' ∧
            Mongo.cart u' = [] ∧
            Mongo.orders u' = Mongo.orders u ++ [Mongo.inserted_id e])) ∧
  (∀ s : Mongo.db (F:=F),
     Mongo.db_users s = ∅ → Mongo.carts_well_formed s) ∧
  (∀ s : Mongo.db (F:=F),
     Mongo.carts_well_formed s →
     (∀ e, Mongo.carts_well_formed (MongoApi.seed_products e s)) ∧
     (∀ e data, Mongo.carts_well_formed (Mongo.register e data s).1) ∧
     (∀ e uid data, Mongo.carts_well_formed (Mongo.add_to_cart e uid data s).1) ∧
     (∀ e uid pid, Mongo.carts_well_formed (Mongo.remove_from_cart e uid pid s).1) ∧
     (∀ e uid data, Mongo.carts_well_formed (Mongo.checkout e uid data s).1)).
Proof.
  split_and!.
  - intros e uid data s uoid u Hwf Huoid Hu Hne Hnone Hfresh s'. subst s'.
    assert (Mongo.well_formed (Mongo.cart u)) as Hcart by by apply (Hwf uoid).
    rewrite (MongoFacts.checkout_run e uid data s uoid u) by done.
    rewrite Hnone. simpl. split_and!; try done.
    + eexists. split; [apply lookup_insert_eq|done].
    + eexists. split; [apply lookup_insert_eq|done].
  - intros s Hempty. unfold Mongo.carts_well_formed. rewrite Hempty.
    apply map_Forall_empty.
  - apply MongoFacts.carts_well_formed_kept.
Qed.

(** C10.  Registration never writes a role other than ['customer']:
    whatever the body, every user of the store after [register]
    (respectively [signup]) was there before, unchanged, or has the role
    ['customer']; a successful call stores a customer; and the [role]
    field of the body is not read. *)
Theorem registration_role_customer :
  (∀ e data (s : Mongo.db (F:=F)),
     let s' := (Mongo.register e data s).1 in
     (∀ k u, Mongo.db_users s' !! k = Some u →
        Mongo.db_users s !! k = Some u ∨ Mongo.role u = "customer") ∧
     (Mongo.status (Mongo.register e data s).2 = 201 →
      ∃ u, Mongo.db_users s' !! Mongo.inserted_id e = Some u ∧
           Mongo.db_users s !! Mongo.inserted_id e = None ∧
           Mongo.role u = "customer") ∧
     (∀ rl, Mongo.register e
              (Mongo.RegisterBody (Mongo.rb_username data) (Mongo.rb_email data)
                 (Mongo.rb_password data) (Mongo.rb_country data)
                 (Mongo.rb_preferred_currency data) rl) s
            = Mongo.register e data s)) ∧
  (∀ e data (s : Postgres.db (F:=F)),
     let s' := (Postgres.signup e data s).1 in
     (∀ k u, Postgres.db_users s' !! k = Some u →
        Postgres.db_users s !! k = Some u ∨ Postgres.role u = "customer") ∧
     (Postgres.status (Postgres.signup e data s).2 = 201 →
      ∃ k u, Postgres.db_users s' !! k = Some u ∧
             Postgres.db_users s !! k = None ∧
             Postgres.role u = "customer") ∧
     (∀ rl, Postgres.signup e
              (Postgres.SignupBody (Postgres.sb_email data)
                 (Postgres.sb_password data) (Postgres.sb_name data)
                 (Postgres.sb_phone data) rl) s
            = Postgres.signup e data s)).
Proof.
  split.
  - intros e data s s'. subst s'. split_and!.
    + intros k u Hk.
      destruct (MongoFacts.register_store e data s) as [Hsame|(_ & _ & Hs')].
      { left. by rewrite Hsame in Hk. }
      rewrite Hs' in Hk. simpl in Hk.
      apply lookup_insert_Some in Hk as [[_ <-]|[_ Hk]]; [by right|by left].
    + intros Hst.
      destruct (MongoFacts.register_created e data s Hst) as [Hfresh Hs'].
      rewrite Hs'. simpl. eexists. split; [apply lookup_insert_eq|done].
    + by intros rl.
  - intros e data s s'. subst s'. split_and!.
    + intros k u Hk.
      destruct (PostgresFacts.signup_store e data s)
        as [Hsame|(_ & uid & _ & Hs')].
      { left. by rewrite Hsame in Hk. }
      rewrite Hs' in Hk. simpl in Hk.
      apply lookup_insert_Some in Hk as [[_ <-]|[_ Hk]]; [by right|by left].
    + intros Hst.
      destruct (PostgresFacts.signup_created e data s Hst)
        as (uid & Hfresh & Hs').
      rewrite Hs'. simpl. exists uid. eexists.
      split; [apply lookup_insert_eq|done].
    + by intros rl.
Qed.

End Claims.

(** * The claims on the concrete stores *)

Module Runs.
Import Exact Sample Fixtures.
#[local] Existing Instance services.

Lemma checkout_persists_order_witness :
  Mongo.status
    (Mongo.checkout (m_env 100) ann_id m_checkout (m_store mixed_cart)).2 = 200 ∧
  (∃ o, Mongo.db_orders
          (Mongo.checkout (m_env 100) ann_id m_checkout (m_store mixed_cart)).1
        = <[new_id := o]> ∅ ∧
        Mongo.total_usd o = 25 # 1 ∧ length (Mongo.items o) = 2%nat) ∧
  Postgres.status
    (Postgres.checkout (p_env 100) 1 p_checkout (p_store p_cart)).2 = 200 ∧
  (∃ o, Postgres.db_orders
          (Postgres.checkout (p_env 100) 1 p_checkout (p_store p_cart)).1 = [o] ∧
        Postgres.o_user_id o = 1 ∧
        Postgres.total_usd o = 25 # 1 ∧ length (Postgres.items o) = 2%nat) ∧
  Postgres.cart_of 1
    (Postgres.checkout (p_env 100) 1 p_checkout (p_store p_cart)).1 = [].
Proof.
  destruct (checkout_persists_order (F:=Q)) as (Hdoc & Hdoc_ok & Hsql & Hsql_ok).
  assert (Mongo.carts_well_formed (m_store mixed_cart)) as Hwf
    by (apply map_Forall_singleton; decided).
  assert (ObjectId ann_id = Some ann_id) as Hid by (vm_compute; reflexivity).
  assert (Mongo.db_users (m_store mixed_cart) !! ann_id = Some (ann mixed_cart))
    as Hann by (vm_compute; reflexivity).
  assert (Mongo.cart (ann mixed_cart) ≠ []) as Hne by discriminate.
  assert (Mongo.db_orders (m_store mixed_cart) !! Mongo.inserted_id (m_env 100)
          = None) as Hnew by (vm_compute; reflexivity).
  pose proof (Hdoc_ok (m_env 100) ann_id m_checkout (m_store mixed_cart) ann_id
                (ann mixed_cart) Hwf Hid Hann Hne Hnew) as Hst.
  split; [exact Hst|].
  destruct (Hdoc (m_env 100) ann_id m_checkout (m_store mixed_cart) Hst)
    as (uoid & u & o & u' & Huoid & Hu & _ & _ & Horders & Hitems & Htotal & _).
  assert (uoid = ann_id) as -> by congruence.
  assert (u = ann mixed_cart) as -> by congruence.
  split.
  { exists o. split; [exact Horders|].
    rewrite Htotal, Hitems. split; vm_compute; reflexivity. }
  assert (Postgres.foreign_keys (p_store p_cart)) as Hfk by (split; decided).
  assert (Postgres.cart_of 1 (p_store p_cart) ≠ []) as Hrows by discriminate.
  assert (Forall (λ o, Postgres.order_id o ≠ order_code (Postgres.uuid4 (p_env 100)))
                 (Postgres.db_orders (p_store p_cart))) as Hcode by constructor.
  assert (varchar 50 (default "card" (Postgres.ck_payment_method p_checkout))
          = true) as Hfits by reflexivity.
  pose proof (Hsql_ok (p_env 100) 1 p_checkout (p_store p_cart) Hfk Hrows Hfits
                Hcode)
    as Hst'.
  split; [exact Hst'|].
  destruct (Hsql (p_env 100) 1 p_checkout (p_store p_cart) Hst')
    as (_ & _ & o' & Horders' & Hown & Hitems' & Htotal' & Hcart & _).
  split; [|exact Hcart].
  exists o'. split; [exact Horders'|]. split; [exact Hown|].
  rewrite Htotal', Hitems'. split; vm_compute; reflexivity.
Defined.

(** The specification's scenario: product A at 10.00 USD, quantity 2, and
    product B at 5.00 USD, quantity 1, total 25.00 USD, which the pricing
    table renders as 3212.50 KES. *)
Example scenario_total :
  (Postgres.checkout (p_env 100) 1 p_checkout (p_store p_cart)).2
    = Postgres.OrderCreated "3F2A9C1E" (25 # 1) ∧
  amount <$> calculate_prices (25 # 1) !! "KES" = Some (6425 # 2).
Proof. split; vm_compute; reflexivity. Qed.

(** The specification's scenario: product X added with quantity 1 and
    again with quantity 3 is one line with quantity 4. *)
Example scenario_merge :
  Mongo.cart <$>
    Mongo.db_users
      (Mongo.add_to_cart (m_env 200) ann_id
         (Mongo.CartBody (Some cream_id) (Some 3))
         (Mongo.add_to_cart (m_env 100) ann_id
            (Mongo.CartBody (Some cream_id) (Some 1)) (m_store [])).1).1
    !! ann_id
  = Some [ Mongo.CartItem cream_id 4 100 ].
Proof. vm_compute. reflexivity. Qed.

Lemma checkout_empty_cart_rejected_witness :
  Mongo.checkout (m_env 100) ann_id m_checkout (m_store [])
    = (m_store [], Mongo.Error 400 "Cart is empty") ∧
  Postgres.checkout (p_env 100) 1 p_checkout (p_store [])
    = (p_store [], Postgres.Error 400 "Cart is empty").
Proof.
  split.
  - assert (ObjectId ann_id = Some ann_id) as Hid by (vm_compute; reflexivity).
    assert (Mongo.db_users (m_store []) !! ann_id = Some (ann [])) as Hann
      by (vm_compute; reflexivity).
    assert (Mongo.cart (ann []) = []) as Hnil by reflexivity.
    exact (proj1 checkout_empty_cart_rejected (m_env 100) ann_id m_checkout
             (m_store []) ann_id (ann []) Hid Hann Hnil).
  - assert (Postgres.cart_of 1 (p_store []) = []) as Hnil by reflexivity.
    exact (proj2 checkout_empty_cart_rejected (p_env 100) 1 p_checkout
             (p_store []) Hnil).
Defined.

Lemma unresolved_lines_witness :
  (∃ o, Mongo.db_orders
          (Mongo.checkout (m_env 100) ann_id m_checkout (m_store mixed_cart)).1
        !! new_id = Some o ∧
        Mongo.oi_product_id <$> Mongo.items o = [cream_id; toner_id] ∧
        Mongo.total_usd o = 25 # 1) ∧
  Postgres.status
    (Postgres.checkout (p_env 100) 1 p_checkout (p_store p_cart)).2 = 200 ∧
  (∃ o, Postgres.db_orders
          (Postgres.checkout (p_env 100) 1 p_checkout (p_store p_cart)).1 = [o] ∧
        Postgres.oi_product_id <$> Postgres.items o = ["1"; "2"] ∧
        Postgres.total_usd o = 25 # 1) ∧
  Mongo.carts_well_formed
    (Mongo.remove_from_cart (m_env 200) ann_id cream_id (m_store mixed_cart)).1 ∧
  Postgres.foreign_keys
    (PostgresApi.admin_delete_product [] 1 (p_store p_cart)).1.
Proof.
  destruct (unresolved_lines (F:=Q)) as (Hdoc & Hsql & Hdoc_kept & Hsql_kept).
  assert (Mongo.carts_well_formed (m_store mixed_cart)) as Hwf
    by (apply map_Forall_singleton; decided).
  assert (Postgres.foreign_keys (p_store p_cart)) as Hfk by (split; decided).
  split.
  { assert (ObjectId ann_id = Some ann_id) as Hid by (vm_compute; reflexivity).
    assert (Mongo.db_users (m_store mixed_cart) !! ann_id = Some (ann mixed_cart))
      as Hann by (vm_compute; reflexivity).
    assert (Mongo.cart (ann mixed_cart) ≠ []) as Hne by discriminate.
    assert (Mongo.db_orders (m_store mixed_cart) !! Mongo.inserted_id (m_env 100)
            = None) as Hnew by (vm_compute; reflexivity).
    destruct (Hdoc (m_env 100) ann_id m_checkout (m_store mixed_cart) ann_id
                (ann mixed_cart) Hwf Hid Hann Hne Hnew)
      as (_ & _ & (o & Ho & Hitems & Htotal) & _).
    exists o. rewrite Hitems, Htotal. split; [exact Ho|].
    split; vm_compute; reflexivity. }
  assert (Postgres.cart_of 1 (p_store p_cart) ≠ []) as Hrows by discriminate.
  assert (Forall (λ o, Postgres.order_id o
                       ≠ order_code (Postgres.uuid4 (p_env 100)))
                 (Postgres.db_orders (p_store p_cart))) as Hcode by constructor.
  assert (varchar 50 (default "card" (Postgres.ck_payment_method p_checkout))
          = true) as Hfits by reflexivity.
  destruct (Hsql (p_env 100) 1 p_checkout (p_store p_cart) Hfk Hrows Hfits Hcode)
    as (_ & Hst & (o & Ho & Hitems & Htotal) & _).
  split; [exact Hst|]. split.
  { exists o. rewrite Hitems, Htotal. split; [exact Ho|].
    split; vm_compute; reflexivity. }
  split.
  - exact (proj1 (proj2 (proj2 (proj2 (Hdoc_kept (m_store mixed_cart) Hwf))))
             (m_env 200) ann_id cream_id).
  - exact (proj1 (proj2 (Hsql_kept (p_store p_cart) Hfk)) [] 1).
Defined.

(** The relational store keeps a product that a cart row names: the
    DELETE of product 1, which is in Ann's cart, is refused and leaves
    the store as it was. *)
Example product_of_a_cart_is_kept :
  PostgresApi.admin_delete_product [] 1 (p_store p_cart)
  = (p_store p_cart, PostgresApi.DeleteRaised IntegrityError).
Proof. vm_compute. reflexivity. Qed.

(** A payment method of 51 characters does not fit its column: the
    relational checkout is answered 500 and stores nothing. *)
Example long_payment_method_refused :
  Postgres.checkout (p_env 100) 1
    (Postgres.CheckoutBody None
       (Some "123456789012345678901234567890123456789012345678901"))
    (p_store p_cart)
  = (p_store p_cart, Postgres.Raised DataError).
Proof. vm_compute. reflexivity. Qed.

(** [add_to_cart] with a quantity that is not positive: the document
    store takes -1, the relational store takes 0, and each stores the
    line. *)
Lemma add_to_cart_takes_nonpositive_quantity :
  Mongo.add_to_cart (m_env 100) ann_id
      (Mongo.CartBody (Some cream_id) (Some (-1))) (m_store [])
    = (Mongo.set_users
         {[ ann_id := Mongo.set_cart [ Mongo.CartItem cream_id (-1) 100 ] 101
                        (ann []) ]} (m_store []),
       Mongo.CartUpdated "Product added to cart" 1) ∧
  Mongo.status
    (Mongo.add_to_cart (m_env 100) ann_id
       (Mongo.CartBody (Some cream_id) (Some (-1))) (m_store [])).2 = 200 ∧
  Postgres.add_to_cart (p_env 100) 1 (Postgres.CartBody (Some 1) (Some 0))
      (p_store [])
    = (p_store [ Postgres.CartItem 1 1 1 0 100 ],
       Postgres.CartUpdated "Product added to cart") ∧
  Postgres.status
    (Postgres.add_to_cart (p_env 100) 1 (Postgres.CartBody (Some 1) (Some 0))
       (p_store [])).2 = 200.
Proof. split_and!; vm_compute; reflexivity. Qed.

Lemma add_to_cart_outcomes_witness :
  Mongo.add_to_cart (m_env 100) ann_id
      (Mongo.CartBody (Some cream_id) (Some 0)) (m_store [])
    = (m_store [], Mongo.Error 400 "Product ID and quantity required") ∧
  Mongo.add_to_cart (m_env 100) ann_id
      (Mongo.CartBody (Some gone_id) (Some 1)) (m_store [])
    = (m_store [], Mongo.Error 404 "Product not found") ∧
  Mongo.status
    (Mongo.add_to_cart (m_env 100) ann_id
       (Mongo.CartBody (Some cream_id) (Some (-1))) (m_store [])).2 = 200 ∧
  Mongo.add_to_cart (m_env 100) ann_id
      (Mongo.CartBody (Some cream_id) (Some (2 ^ 63))) (m_store [])
    = (m_store [], Mongo.Raised OverflowError) ∧
  Postgres.add_to_cart (p_env 100) 1 (Postgres.CartBody (Some 7) (Some 1))
      (p_store [])
    = (p_store [], Postgres.Error 404 "Not Found") ∧
  Postgres.status
    (Postgres.add_to_cart (p_env 100) 1 (Postgres.CartBody (Some 1) (Some 0))
       (p_store [])).2 = 200 ∧
  Postgres.add_to_cart (p_env 100) 1 (Postgres.CartBody (Some 1) (Some (2 ^ 31)))
      (p_store [])
    = (p_store [], Postgres.Raised DataError) ∧
  Postgres.add_to_cart (p_env 100) 5 (Postgres.CartBody (Some 1) (Some 1))
      (p_store [])
    = (p_store [], Postgres.Raised IntegrityError).
Proof.
  destruct (add_to_cart_outcomes (F:=Q)) as (H400 & H404 & Hdoc & P404 & Hsql).
  assert (cream_id ≠ "") as Hcream by discriminate.
  assert (ObjectId cream_id = Some cream_id) as Hparse by (vm_compute; reflexivity).
  assert (is_Some (Mongo.db_products (m_store []) !! cream_id)) as Hfound
    by (vm_compute; eexists; reflexivity).
  assert (ObjectId ann_id = Some ann_id) as Hid by (vm_compute; reflexivity).
  assert (Mongo.db_users (m_store []) !! ann_id = Some (ann [])) as Hann
    by (vm_compute; reflexivity).
  assert (is_Some (Postgres.db_products (p_store []) !! 1)) as Hrow
    by (vm_compute; eexists; reflexivity).
  split_and!.
  - assert (truthy_str (Some cream_id) && truthy_int (Some 0) = false) as Hzero
      by reflexivity.
    exact (H400 (m_env 100) ann_id (Mongo.CartBody (Some cream_id) (Some 0))
             (m_store []) Hzero).
  - assert (gone_id ≠ "") as Hgone by discriminate.
    assert (1 ≠ 0) as Hone by lia.
    assert (ObjectId gone_id = Some gone_id) as Hparse'
      by (vm_compute; reflexivity).
    assert (Mongo.db_products (m_store []) !! gone_id = None) as Hnone
      by (vm_compute; reflexivity).
    exact (H404 (m_env 100) ann_id gone_id 1 (m_store []) gone_id Hgone Hone
             Hparse' Hnone).
  - assert (-1 ≠ 0) as Hminus by lia.
    assert (int64 (Mongo.new_quantity cream_id (-1) (Mongo.cart (ann []))) = true)
      as Hfits by reflexivity.
    exact (proj1 (Hdoc (m_env 100) ann_id cream_id (-1) (m_store []) cream_id
                    ann_id (ann []) Hcream Hminus Hparse Hfound Hid Hann) Hfits).
  - assert (2 ^ 63 ≠ 0) as Hbig by lia.
    assert (int64 (Mongo.new_quantity cream_id (2 ^ 63) (Mongo.cart (ann [])))
            = false) as Hfits by reflexivity.
    exact (proj2 (Hdoc (m_env 100) ann_id cream_id (2 ^ 63) (m_store []) cream_id
                    ann_id (ann []) Hcream Hbig Hparse Hfound Hid Hann) Hfits).
  - assert (Postgres.db_products (p_store []) !! 7 = None) as Hnone
      by (vm_compute; reflexivity).
    exact (P404 (p_env 100) 1 7 (Some 1) (p_store []) Hnone).
  - assert (int32 (Postgres.new_quantity 1 1 0 (Postgres.db_cart_items (p_store [])))
            = true) as Hfits by reflexivity.
    assert (is_Some (Postgres.db_users (p_store []) !! 1)) as Huser
      by (vm_compute; eexists; reflexivity).
    exact (proj1 (Hsql (p_env 100) 1 1 0 (p_store []) Hrow) Hfits Huser).
  - assert (int32 (Postgres.new_quantity 1 1 (2 ^ 31)
                     (Postgres.db_cart_items (p_store []))) = false) as Hfits
      by reflexivity.
    exact (proj1 (proj2 (Hsql (p_env 100) 1 1 (2 ^ 31) (p_store []) Hrow)) Hfits).
  - assert (int32 (Postgres.new_quantity 5 1 1 (Postgres.db_cart_items (p_store [])))
            = true) as Hfits by reflexivity.
    assert (Postgres.db_users (p_store []) !! 5 = None) as Hnone
      by (vm_compute; reflexivity).
    assert (Postgres.has_row 5 1 (Postgres.db_cart_items (p_store [])) = false)
      as Hnorow by reflexivity.
    exact (proj2 (proj2 (Hsql (p_env 100) 5 1 1 (p_store []) Hrow))
             Hfits Hnone Hnorow).
Defined.


(** Two adds against the add of their sum, at the width of a stored
    integer: 2^62 and 2^62 again leave a line of 2^62, the second
    request answered 500; 2^63 at once is answered 500 and leaves no
    line. *)
Example sum_beyond_eight_bytes :
  Mongo.cart <$>
    Mongo.db_users
      (Mongo.add_to_cart (m_env 200) ann_id
         (Mongo.CartBody (Some cream_id) (Some (2 ^ 62)))
         (Mongo.add_to_cart (m_env 100) ann_id
            (Mongo.CartBody (Some cream_id) (Some (2 ^ 62))) (m_store [])).1).1
    !! ann_id
  = Some [ Mongo.CartItem cream_id (2 ^ 62) 100 ] ∧
  Mongo.cart <$>
    Mongo.db_users
      (Mongo.add_to_cart (m_env 100) ann_id
         (Mongo.CartBody (Some cream_id) (Some (2 ^ 62 + 2 ^ 62))) (m_store [])).1
    !! ann_id
  = Some [].
Proof. split; vm_compute; reflexivity. Qed.


Lemma remove_from_cart_idempotent_witness :
  Mongo.cart <$>
    Mongo.db_users
      (Mongo.remove_from_cart (m_env 100) ann_id gone_id (m_store mixed_cart)).1
    !! ann_id
  = Some [ Mongo.CartItem cream_id 2 1; Mongo.CartItem toner_id 1 3 ] ∧
  Mongo.cart <$>
    Mongo.db_users
      (Mongo.remove_from_cart (m_env 200) ann_id gone_id
         (Mongo.remove_from_cart (m_env 100) ann_id gone_id
            (m_store mixed_cart)).1).1
    !! ann_id
  = Some [ Mongo.CartItem cream_id 2 1; Mongo.CartItem toner_id 1 3 ] ∧
  Mongo.status
    (Mongo.remove_from_cart (m_env 200) ann_id gone_id
       (Mongo.remove_from_cart (m_env 100) ann_id gone_id
          (m_store mixed_cart)).1).2 = 200.
Proof.
  assert (ObjectId ann_id = Some ann_id) as Hid by (vm_compute; reflexivity).
  assert (Mongo.db_users (m_store mixed_cart) !! ann_id = Some (ann mixed_cart))
    as Hann by (vm_compute; reflexivity).
  destruct (remove_from_cart_idempotent (m_env 100) (m_env 200) ann_id gone_id
              (m_store mixed_cart) ann_id (ann mixed_cart) Hid Hann)
    as (_ & Hst & Honce & _ & Htwice).
  split_and!.
  - rewrite Honce. vm_compute. reflexivity.
  - rewrite Htwice, Honce. vm_compute. reflexivity.
  - exact Hst.
Defined.

(** The relational [add_to_cart] at time 100, for a user last updated at
    time 0: the request succeeds, and [updated_at] is still 0. *)
Lemma relational_add_keeps_updated_at :
  Postgres.status
    (Postgres.add_to_cart (p_env 100) 1 (Postgres.CartBody (Some 1) (Some 2))
       (p_store [])).2 = 200 ∧
  Postgres.updated_at <$>
    Postgres.db_users
      (Postgres.add_to_cart (p_env 100) 1 (Postgres.CartBody (Some 1) (Some 2))
         (p_store [])).1 !! 1
  = Some 0 ∧
  ∀ k, Postgres.clock (p_env 100) k ≠ 0.
Proof. split_and!; [vm_compute; reflexivity..|]. intros k. simpl. lia. Qed.

Lemma cart_mutation_timestamps_witness :
  Mongo.updated_at <$>
    Mongo.db_users
      (Mongo.add_to_cart (m_env 100) ann_id
         (Mongo.CartBody (Some cream_id) (Some 1)) (m_store mixed_cart)).1
    !! ann_id
  = Some 100 ∧
  Mongo.updated_at <$>
    Mongo.db_users
      (Mongo.remove_from_cart (m_env 100) ann_id cream_id (m_store mixed_cart)).1
    !! ann_id
  = Some 100.
Proof.
  destruct (cart_mutation_timestamps (F:=Q)) as (Hadd & Hremove & _).
  assert (ObjectId ann_id = Some ann_id) as Hid by (vm_compute; reflexivity).
  split.
  - assert (Mongo.status
              (Mongo.add_to_cart (m_env 100) ann_id
                 (Mongo.CartBody (Some cream_id) (Some 1)) (m_store mixed_cart)).2
            = 200) as Hst by (vm_compute; reflexivity).
    destruct (Hadd (m_env 100) ann_id (Mongo.CartBody (Some cream_id) (Some 1))
                (m_store mixed_cart) Hst) as (uoid & u' & Huoid & Hu' & _).
    assert (uoid = ann_id) as -> by congruence.
    rewrite Hu'. vm_compute in Hu'. injection Hu' as <-. reflexivity.
  - assert (Mongo.status
              (Mongo.remove_from_cart (m_env 100) ann_id cream_id
                 (m_store mixed_cart)).2 = 200) as Hst by (vm_compute; reflexivity).
    destruct (Hremove (m_env 100) ann_id cream_id (m_store mixed_cart) Hst)
      as (uoid & u' & Huoid & Hu' & Ht).
    assert (uoid = ann_id) as -> by congruence.
    rewrite Hu'. simpl. rewrite Ht. reflexivity.
Defined.

Lemma checkout_nothing_resolves_witness :
  (Mongo.checkout (m_env 100) ann_id m_checkout (m_store gone_cart)).2
    = Mongo.OrderCreated "3F2A9C1E" new_id (0 # 1) 0 ∧
  Mongo.cart <$>
    Mongo.db_users
      (Mongo.checkout (m_env 100) ann_id m_checkout (m_store gone_cart)).1
    !! ann_id
  = Some [] ∧
  Mongo.carts_well_formed
    (Mongo.add_to_cart (m_env 200) ann_id
       (Mongo.CartBody (Some cream_upper) (Some 1)) (m_store gone_cart)).1.
Proof.
  destruct (checkout_nothing_resolves (F:=Q)) as (Hruns & _ & Hkept).
  assert (Mongo.carts_well_formed (m_store gone_cart)) as Hwf
    by (apply map_Forall_singleton; decided).
  assert (ObjectId ann_id = Some ann_id) as Hid by (vm_compute; reflexivity).
  assert (Mongo.db_users (m_store gone_cart) !! ann_id = Some (ann gone_cart))
    as Hann by (vm_compute; reflexivity).
  assert (Mongo.cart (ann gone_cart) ≠ []) as Hne by discriminate.
  assert (Mongo.resolved (Mongo.db_products (m_store gone_cart))
                         (Mongo.cart (ann gone_cart)) = []) as Hnone
    by (vm_compute; reflexivity).
  assert (Mongo.db_orders (m_store gone_cart) !! Mongo.inserted_id (m_env 100)
          = None) as Hnew by (vm_compute; reflexivity).
  destruct (Hruns (m_env 100) ann_id m_checkout (m_store gone_cart) ann_id
              (ann gone_cart) Hwf Hid Hann Hne Hnone Hnew)
    as (Hreply & _ & _ & (u' & Hu' & Hcart & _)).
  split_and!.
  - exact Hreply.
  - rewrite Hu'. simpl. rewrite Hcart. reflexivity.
  - exact (proj1 (proj2 (proj2 (Hkept (m_store gone_cart) Hwf))) (m_env 200)
             ann_id (Mongo.CartBody (Some cream_upper) (Some 1))).
Defined.

Lemma registration_role_customer_witness :
  Mongo.role <$>
    Mongo.db_users
      (Mongo.register (m_env 100) (m_register (Some "admin")) (m_store [])).1
    !! new_id
  = Some "customer" ∧
  Postgres.role <$>
    Postgres.db_users
      (Postgres.signup (p_env 100) (p_signup (Some "admin")) (p_store [])).1
    !! 2
  = Some "customer".
Proof.
  destruct (registration_role_customer (F:=Q)) as (Hdoc & Hsql).
  split.
  - destruct (Hdoc (m_env 100) (m_register (Some "admin")) (m_store []))
      as (_ & Hnew & _).
    assert (Mongo.status
              (Mongo.register (m_env 100) (m_register (Some "admin"))
                 (m_store [])).2 = 201) as Hst by (vm_compute; reflexivity).
    destruct (Hnew Hst) as (u & Hu & _ & Hrole).
    change (Mongo.inserted_id (m_env 100)) with new_id in Hu.
    rewrite Hu. simpl. rewrite Hrole. reflexivity.
  - destruct (Hsql (p_env 100) (p_signup (Some "admin")) (p_store []))
      as (Hall & _ & _).
    assert (Postgres.db_users
              (Postgres.signup (p_env 100) (p_signup (Some "admin"))
                 (p_store [])).1 !! 2
            = Some (Postgres.new_user (p_env 100) (p_signup (Some "admin"))))
      as Hbob by (vm_compute; reflexivity).
    destruct (Hall 2 _ Hbob) as [Hold|Hrole].
    + vm_compute in Hold. discriminate Hold.
    + rewrite Hbob. exact (f_equal Some Hrole).
Defined.

End Runs.

(** * Facts about the remaining routes *)

Module ApiFacts.
Section Generic.
Context {A : Type} (P : A → Prop) `{∀ x, Decision (P x)}.

Lemma first_match_Some l x : first_match P l = Some x → x ∈ l ∧ P x.
Proof.
  unfold first_match. intros Hhead. apply head_Some_elem_of in Hhead.
  apply list_elem_of_filter in Hhead. tauto.
Qed.

Lemma first_match_None l x : first_match P l = None → x ∈ l → ¬ P x.
Proof.
  unfold first_match. intros Hhead Hin HP.
  apply head_None in Hhead.
  assert (x ∈ filter P l) as Hx by (by apply list_elem_of_filter).
  rewrite Hhead in Hx. by apply elem_of_nil in Hx.
Qed.

Lemma first_match_is_Some l x : x ∈ l → P x → is_Some (first_match P l).
Proof.
  intros Hin HP. destruct (first_match P l) eqn:Hm; [by eexists|].
  by destruct (first_match_None l x Hm Hin).
Qed.

(** When one candidate only matches, it is the one returned. *)
Lemma first_match_unique l x :
  x ∈ l → P x → (∀ y, y ∈ l → P y → y = x) → first_match P l = Some x.
Proof.
  intros Hin HP Honly.
  destruct (first_match_is_Some l x Hin HP) as [y Hy].
  destruct (first_match_Some l y Hy) as [Hyin HyP].
  by rewrite Hy, (Honly y Hyin HyP).
Qed.

End Generic.
End ApiFacts.

Module MongoAuthFacts.
Import Mongo MongoApi.
Section Facts.
Context {F : Type} `{!PyFloat F} `{!Services} `{!Bcrypt}.
Implicit Types (s : db (F:=F)) (u : user).

Lemma truthy_str_inv o : truthy_str o = true → ∃ x, o = Some x ∧ x ≠ "".
Proof.
  destruct o as [x|]; simpl; [|done].
  destruct (String.eqb_spec x ""); [done|]. by exists x.
Qed.

(** A [register] answered with 201 passed every check. *)
Lemma register_ok_inv e data s :
  status (register e data s).2 = 201 →
  ∃ uname mail pw,
    rb_username data = Some uname ∧ uname ≠ "" ∧
    rb_email data = Some mail ∧ mail ≠ "" ∧
    rb_password data = Some pw ∧ pw ≠ "" ∧
    email_registered mail s = false ∧ username_taken uname s = false ∧
    db_users s !! inserted_id e = None.
Proof.
  unfold register.
  destruct (truthy_str (rb_username data)) eqn:Hn; simpl; [|done].
  destruct (truthy_str (rb_email data)) eqn:Hm; simpl; [|done].
  destruct (truthy_str (rb_password data)) eqn:Hp; simpl; [|done].
  apply truthy_str_inv in Hn as (uname & Hn & ?).
  apply truthy_str_inv in Hm as (mail & Hm & ?).
  apply truthy_str_inv in Hp as (pw & Hp & ?).
  rewrite Hn, Hm. simpl.
  destruct (email_registered mail s) eqn:He; simpl; [done|].
  destruct (username_taken uname s) eqn:Hu; simpl; [done|].
  case_bool_decide as Hfresh; simpl; [|done].
  intros _. by exists uname, mail, pw.
Qed.

Lemma find_by_email_Some mail s uid u :
  find_by_email mail s = Some (uid, u) →
  db_users s !! uid = Some u ∧ email u = mail.
Proof.
  intros Hfind. apply ApiFacts.first_match_Some in Hfind as [Hin Hmail].
  by apply elem_of_map_to_list in Hin.
Qed.

Lemma find_by_email_None mail s :
  find_by_email mail s = None → email_registered mail s = false.
Proof.
  intros Hfind. unfold email_registered. apply bool_decide_eq_false.
  intros (k & u & Hk & Hmail).
  apply (ApiFacts.first_match_None _ _ (k, u) Hfind); [|done].
  by apply elem_of_map_to_list.
Qed.

(** The one user with an address is the one found. *)
Lemma find_by_email_unique mail s uid u :
  db_users s !! uid = Some u → email u = mail →
  (∀ k u', db_users s !! k = Some u' → email u' = mail → k = uid) →
  find_by_email mail s = Some (uid, u).
Proof.
  intros Hu Hmail Honly. apply ApiFacts.first_match_unique.
  - by apply elem_of_map_to_list.
  - done.
  - intros [k u'] Hin Hmail'. apply elem_of_map_to_list in Hin.
    simpl in *. pose proof (Honly k u' Hin Hmail') as ->.
    by rewrite Hu in Hin; injection Hin as <-.
Qed.

Lemma not_registered mail s k u :
  email_registered mail s = false → db_users s !! k = Some u → email u ≠ mail.
Proof.
  unfold email_registered. intros Hreg Hk Hmail.
  apply bool_decide_eq_false in Hreg. apply Hreg. by exists k, u.
Qed.

(** A [login] answered with 200 found a user whose hash verifies. *)
Lemma login_ok_inv e data s :
  auth_status (login e data s) = 200 →
  ∃ mail pw uid u,
    lb_email data = Some mail ∧ lb_password data = Some pw ∧
    db_users s !! uid = Some u ∧ email u = mail ∧
    checkpw pw (password_hash u) = true ∧
    login e data s
    = LoggedIn (create_access_token uid (clock e 0) (uuid4 e)) uid
               (username u) (email u)
               (user_country u) (preferred_currency u) (role u).
Proof.
  unfold login.
  destruct (truthy_str (lb_email data)) eqn:Hm; simpl; [|done].
  destruct (truthy_str (lb_password data)) eqn:Hp; simpl; [|done].
  apply truthy_str_inv in Hm as (mail & Hm & ?).
  apply truthy_str_inv in Hp as (pw & Hp & ?).
  rewrite Hm, Hp. simpl.
  destruct (find_by_email mail s) as [[uid u]|] eqn:Hfind; [|done].
  apply find_by_email_Some in Hfind as [Hu Hmail].
  destruct (checkpw pw (password_hash u)) eqn:Hpw; simpl; [|done].
  intros _. by exists mail, pw, uid, u.
Qed.

Lemma admin_login_ok_inv e data s :
  auth_status (admin_login e data s) = 200 →
  ∃ mail pw uid u,
    lb_email data = Some mail ∧ lb_password data = Some pw ∧
    db_users s !! uid = Some u ∧ email u = mail ∧ role u = "admin" ∧
    checkpw pw (password_hash u) = true ∧
    admin_login e data s
    = AdminLoggedIn (create_access_token uid (clock e 0) (uuid4 e)) uid
                    (email u) (username u) "super_admin" ["*"].
Proof.
  unfold admin_login.
  destruct (truthy_str (lb_email data)) eqn:Hm; simpl; [|done].
  destruct (truthy_str (lb_password data)) eqn:Hp; simpl; [|done].
  apply truthy_str_inv in Hm as (mail & Hm & ?).
  apply truthy_str_inv in Hp as (pw & Hp & ?).
  rewrite Hm, Hp. simpl.
  destruct (find_by_email mail s) as [[uid u]|] eqn:Hfind; [|done].
  apply find_by_email_Some in Hfind as [Hu Hmail].
  destruct (String.eqb_spec (role u) "admin") as [Hrole|]; simpl; [|done].
  destruct (checkpw pw (password_hash u)) eqn:Hpw; simpl; [|done].
  intros _. by exists mail, pw, uid, u.
Qed.

End Facts.
End MongoAuthFacts.

Module PostgresAuthFacts.
Import Postgres PostgresApi.
Section Facts.
Context {F : Type} `{!PyFloat F} `{!Services} `{!Bcrypt} `{!PyStr}.
Implicit Types (s : db (F:=F)) (u : user).

Lemma find_customer_Some mail s uid u :
  find_customer mail s = Some (uid, u) →
  db_users s !! uid = Some u ∧ email u = mail ∧ role u = "customer".
Proof.
  intros Hfind. apply ApiFacts.first_match_Some in Hfind as [Hin [Hmail Hrole]].
  by apply elem_of_map_to_list in Hin.
Qed.

Lemma find_customer_unique mail s uid u :
  db_users s !! uid = Some u → email u = mail → role u = "customer" →
  (∀ k u', db_users s !! k = Some u' → email u' = mail → k = uid) →
  find_customer mail s = Some (uid, u).
Proof.
  intros Hu Hmail Hrole Honly. apply ApiFacts.first_match_unique.
  - by apply elem_of_map_to_list.
  - done.
  - intros [k u'] Hin [Hmail' _]. apply elem_of_map_to_list in Hin.
    simpl in *. pose proof (Honly k u' Hin Hmail') as ->.
    by rewrite Hu in Hin; injection Hin as <-.
Qed.

Lemma sql_find_by_email_Some mail s uid u :
  find_by_email mail s = Some (uid, u) →
  db_users s !! uid = Some u ∧ email u = mail.
Proof.
  intros Hfind. apply ApiFacts.first_match_Some in Hfind as [Hin Hmail].
  by apply elem_of_map_to_list in Hin.
Qed.

Lemma sql_find_by_email_unique mail s uid u :
  db_users s !! uid = Some u → email u = mail →
  (∀ k u', db_users s !! k = Some u' → email u' = mail → k = uid) →
  find_by_email mail s = Some (uid, u).
Proof.
  intros Hu Hmail Honly. apply ApiFacts.first_match_unique.
  - by apply elem_of_map_to_list.
  - done.
  - intros [k u'] Hin Hmail'. apply elem_of_map_to_list in Hin.
    simpl in *. pose proof (Honly k u' Hin Hmail') as ->.
    by rewrite Hu in Hin; injection Hin as <-.
Qed.

Lemma sql_not_registered mail s k u :
  email_registered mail s = false → db_users s !! k = Some u → email u ≠ mail.
Proof.
  unfold email_registered. intros Hreg Hk Hmail.
  apply bool_decide_eq_false in Hreg. apply Hreg. by exists k, u.
Qed.

(** A [signup] answered with 201 had its four keys and a new address. *)
Lemma signup_ok_inv e data s :
  status (signup e data s).2 = 201 →
  ∃ mail pw nm ph,
    sb_email data = Some mail ∧ sb_password data = Some pw ∧
    sb_name data = Some nm ∧ sb_phone data = Some ph ∧
    email_registered mail s = false.
Proof.
  unfold signup.
  destruct (sb_email data) as [mail|], (sb_password data) as [pw|],
    (sb_name data) as [nm|], (sb_phone data) as [ph|]; simpl; try done.
  destruct (email_registered mail s) eqn:Hreg; simpl; [done|].
  intros _. by exists mail, pw, nm, ph.
Qed.

Lemma sql_login_ok_inv e data s :
  auth_status (login e data s) = 200 →
  ∃ mail pw uid u,
    lb_email data = Some mail ∧ lb_password data = Some pw ∧
    db_users s !! uid = Some u ∧ email u = mail ∧ role u = "customer" ∧
    checkpw pw (password_hash u) = true.
Proof.
  unfold login.
  destruct (truthy_str (lb_email data)) eqn:Hm; simpl; [|done].
  destruct (truthy_str (lb_password data)) eqn:Hp; simpl; [|done].
  apply MongoAuthFacts.truthy_str_inv in Hm as (mail & Hm & ?).
  apply MongoAuthFacts.truthy_str_inv in Hp as (pw & Hp & ?).
  rewrite Hm, Hp. simpl.
  destruct (find_customer mail s) as [[uid u]|] eqn:Hfind; [|done].
  apply find_customer_Some in Hfind as (Hu & Hmail & Hrole).
  destruct (checkpw pw (password_hash u)) eqn:Hpw; simpl; [|done].
  intros _. by exists mail, pw, uid, u.
Qed.

Lemma sql_admin_login_ok_inv e data s :
  auth_status (admin_login e data s) = 200 →
  ∃ mail pw uid u,
    lb_email data = Some mail ∧ lb_password data = Some pw ∧
    db_users s !! uid = Some u ∧ email u = mail ∧
    (role u = "admin" ∨ role u = "super_admin") ∧
    checkpw pw (password_hash u) = true.
Proof.
  unfold admin_login.
  destruct (lb_email data) as [mail|]; [|done].
  destruct (find_by_email mail s) as [[uid u]|] eqn:Hfind; [|done].
  apply sql_find_by_email_Some in Hfind as [Hu Hmail].
  case_bool_decide as Hrole; simpl; [|done].
  destruct (lb_password data) as [pw|]; [|done].
  destruct (checkpw pw (password_hash u)) eqn:Hpw; simpl; [|done].
  intros _. exists mail, pw, uid, u. split_and!; try done.
  apply elem_of_cons in Hrole as [Hrole|Hrole]; [by left|].
  apply list_elem_of_singleton in Hrole. by right.
Qed.

End Facts.
End PostgresAuthFacts.

(** * Properties of the remaining routes *)

Section AuthProperties.
Context {F : Type} `{!PyFloat F} `{!Services} `{!Bcrypt} `{!PyStr}.

(** X1.  Document store: after a registration answered 201, logging in
    with the same address and password succeeds, provided the stored
    hash verifies the password, and returns the new user's id and the
    role ['customer'], with a token issued for that id at the time of the
    login. *)
Theorem register_then_login e e' data (s : Mongo.db (F:=F)) :
  Mongo.status (Mongo.register e data s).2 = 201 →
  checkpw (default "" (Mongo.rb_password data))
          (hashpw (default "" (Mongo.rb_password data)) (Mongo.salt e)) = true →
  MongoApi.login e'
    (MongoApi.LoginBody (Mongo.rb_email data) (Mongo.rb_password data))
    (Mongo.register e data s).1
  = MongoApi.LoggedIn
      (create_access_token (Mongo.inserted_id e) (Mongo.clock e' 0)
         (Mongo.uuid4 e'))
      (Mongo.inserted_id e)
      (default "" (Mongo.rb_username data)) (default "" (Mongo.rb_email data))
      (default "Kenya" (Mongo.rb_country data))
      (default "KES" (Mongo.rb_preferred_currency data)) "customer".
Proof.
  intros Hst Hpw.
  destruct (MongoAuthFacts.register_ok_inv e data s Hst)
    as (uname & mail & pw & Hn & ? & Hm & ? & Hp & ? & Hreg & _ & Hfresh).
  destruct (MongoFacts.register_created e data s Hst) as [_ ->].
  unfold MongoApi.login. cbn [MongoApi.lb_email MongoApi.lb_password].
  rewrite Hm, Hp, !MongoFacts.truthy_str_true by done. simpl.
  rewrite (MongoAuthFacts.find_by_email_unique mail _ (Mongo.inserted_id e)
             (Mongo.new_user e data)).
  - rewrite Hp in Hpw. simpl in Hpw. unfold Mongo.new_user. simpl.
    rewrite ?Hp. simpl. rewrite Hpw. simpl. by rewrite ?Hn, ?Hm.
  - apply lookup_insert_eq.
  - simpl. by rewrite Hm.
  - simpl. intros k u' Hk Hmail.
    apply lookup_insert_Some in Hk as [[<- _]|[_ Hk]]; [done|].
    by destruct (MongoAuthFacts.not_registered mail s k u' Hreg Hk).
Qed.

(** X2.  Relational store: after a signup answered 201 whose address and
    password are not empty, logging in with them succeeds, provided the
    stored hash verifies the password.  The reply has the id, the
    address and the phone the signup returned, and a token of its own,
    issued for that id at the time of the login; the name is the one the
    signup returned unless that is empty, and then it is null
    ([user.name or user.username], with no username stored).  (Signup
    tests the keys for presence only; login answers 400 to an empty
    address or password.) *)
Theorem signup_then_login e e' data (s : Postgres.db (F:=F)) tok uid nm mail ph :
  (Postgres.signup e data s).2 = Postgres.SignedUp tok uid nm mail ph →
  mail ≠ "" → Postgres.sb_password data ≠ Some "" →
  checkpw (default "" (Postgres.sb_password data))
          (hashpw (default "" (Postgres.sb_password data)) (Postgres.salt e)) = true →
  PostgresApi.login e'
    (PostgresApi.LoginBody (Postgres.sb_email data) (Postgres.sb_password data))
    (Postgres.signup e data s).1
  = PostgresApi.LoggedIn
      (create_access_token uid (Postgres.clock e' 0) (Postgres.uuid4 e'))
      uid (if String.eqb nm "" then None else Some nm) mail ph.
Proof.
  intros Hreply Hmail Hpw Hverify.
  assert (Postgres.status (Postgres.signup e data s).2 = 201) as Hst
    by (by rewrite Hreply).
  destruct (PostgresAuthFacts.signup_ok_inv e data s Hst)
    as (mail' & pw & nm' & ph' & Hm & Hp & Hn & Hph & Hreg).
  revert Hreply. unfold Postgres.signup. rewrite Hm, Hp, Hn, Hph. simpl.
  rewrite Hreg. simpl. intros [= <- <- <- <- <-].
  assert (mail' ≠ "") by (by rewrite Hm in Hmail).
  assert (pw ≠ "") by congruence.
  unfold PostgresApi.login. cbn [PostgresApi.lb_email PostgresApi.lb_password].
  rewrite ?Hm, ?Hp, !MongoFacts.truthy_str_true by done. simpl.
  rewrite (PostgresAuthFacts.find_customer_unique mail' _
             (Postgres.nextval (map_to_list (Postgres.db_users s)).*1
                (Postgres.skipped e Postgres.Users))
             (Postgres.new_user e data)).
  - rewrite Hp in Hverify. simpl in Hverify. unfold Postgres.new_user. simpl.
    rewrite ?Hp. simpl. rewrite Hverify. simpl.
    rewrite ?Hm, ?Hn, ?Hph. simpl. f_equal.
    + unfold or_else. simpl. by destruct (String.eqb_spec nm' "").
    + unfold or_else. simpl. by destruct (String.eqb_spec ph' "").
  - apply lookup_insert_eq.
  - simpl. by rewrite Hm.
  - done.
  - simpl. intros k u' Hk Hmail'.
    apply lookup_insert_Some in Hk as [[<- _]|[_ Hk]]; [done|].
    by destruct (PostgresAuthFacts.sql_not_registered mail' s k u' Hreg Hk).
Qed.

(** X3.  Document store: [login] answers 400 when the address or the
    password is missing or empty, 401 when no user has the address, and
    200 only for a stored user with that address whose hash verifies the
    password; the id, name, address, country, currency and role in the
    reply are that user's. *)
Theorem login_outcomes :
  (∀ e data (s : Mongo.db (F:=F)),
     truthy_str (MongoApi.lb_email data) && truthy_str (MongoApi.lb_password data)
     = false →
     MongoApi.login e data s
     = MongoApi.AuthError 400 "Email and password required") ∧
  (∀ e mail pw (s : Mongo.db (F:=F)),
     mail ≠ "" → pw ≠ "" → Mongo.email_registered mail s = false →
     MongoApi.login e (MongoApi.LoginBody (Some mail) (Some pw)) s
     = MongoApi.AuthError 401 "Invalid credentials") ∧
  (∀ e data (s : Mongo.db (F:=F)),
     MongoApi.auth_status (MongoApi.login e data s) = 200 →
     ∃ mail pw uid u,
       MongoApi.lb_email data = Some mail ∧ MongoApi.lb_password data = Some pw ∧
       Mongo.db_users s !! uid = Some u ∧ Mongo.email u = mail ∧
       checkpw pw (Mongo.password_hash u) = true ∧
       MongoApi.login e data s
       = MongoApi.LoggedIn
           (create_access_token uid (Mongo.clock e 0) (Mongo.uuid4 e)) uid
           (Mongo.username u)
           (Mongo.email u) (Mongo.user_country u) (Mongo.preferred_currency u)
           (Mongo.role u)).
Proof.
  split_and!.
  - intros e data s Hfalsy. unfold MongoApi.login.
    apply andb_false_iff in Hfalsy as [-> | ->]; simpl; [done|].
    by rewrite orb_true_r.
  - intros e mail pw s Hmail Hpw Hreg. unfold MongoApi.login.
    cbn [MongoApi.lb_email MongoApi.lb_password].
    rewrite !MongoFacts.truthy_str_true by done. simpl.
    destruct (MongoApi.find_by_email mail s) as [[uid u]|] eqn:Hfind; [|done].
    apply MongoAuthFacts.find_by_email_Some in Hfind as [Hu Hm].
    by destruct (MongoAuthFacts.not_registered mail s uid u Hreg Hu).
  - apply MongoAuthFacts.login_ok_inv.
Qed.

(** X4.  Relational store: [login] succeeds only for a user whose role is
    ['customer'] and [admin_login] only for a role ['admin'] or
    ['super_admin']; so, addresses being unique, no address passes
    both. *)
Theorem login_roles_disjoint (s : Postgres.db (F:=F)) :
  (∀ e data, PostgresApi.auth_status (PostgresApi.login e data s) = 200 →
     ∃ mail uid u, PostgresApi.lb_email data = Some mail ∧
       Postgres.db_users s !! uid = Some u ∧ Postgres.email u = mail ∧
       Postgres.role u = "customer") ∧
  (∀ e data, PostgresApi.auth_status (PostgresApi.admin_login e data s) = 200 →
     ∃ mail uid u, PostgresApi.lb_email data = Some mail ∧
       Postgres.db_users s !! uid = Some u ∧ Postgres.email u = mail ∧
       (Postgres.role u = "admin" ∨ Postgres.role u = "super_admin")) ∧
  ((∀ k k' u u', Postgres.db_users s !! k = Some u →
      Postgres.db_users s !! k' = Some u' →
      Postgres.email u = Postgres.email u' → k = k') →
   ∀ e1 e2 d1 d2, PostgresApi.lb_email d1 = PostgresApi.lb_email d2 →
     PostgresApi.auth_status (PostgresApi.login e1 d1 s) = 200 →
     PostgresApi.auth_status (PostgresApi.admin_login e2 d2 s) ≠ 200).
Proof.
  split_and!.
  - intros e data Hst.
    destruct (PostgresAuthFacts.sql_login_ok_inv e data s Hst)
      as (mail & pw & uid & u & ? & ? & ? & ? & ? & ?).
    by exists mail, uid, u.
  - intros e data Hst.
    destruct (PostgresAuthFacts.sql_admin_login_ok_inv e data s Hst)
      as (mail & pw & uid & u & ? & ? & ? & ? & ? & ?).
    by exists mail, uid, u.
  - intros Huniq e1 e2 d1 d2 Hsame Hst1 Hst2.
    destruct (PostgresAuthFacts.sql_login_ok_inv e1 d1 s Hst1)
      as (mail & pw & uid & u & Hm & _ & Hu & Hmail & Hrole & _).
    destruct (PostgresAuthFacts.sql_admin_login_ok_inv e2 d2 s Hst2)
      as (mail' & pw' & uid' & u' & Hm' & _ & Hu' & Hmail' & Hrole' & _).
    assert (mail' = mail) as -> by congruence.
    assert (uid' = uid) as -> by (apply (Huniq _ _ _ _ Hu' Hu); congruence).
    assert (u' = u) as -> by congruence.
    rewrite Hrole in Hrole'. by destruct Hrole'.
Qed.

(** X5.  Document store: [admin_login] succeeds only for a stored user
    whose role is ['admin'], and its reply always carries the role
    ['super_admin'] and the permissions [['*']]; [login] has no test on
    the role, so the same admin, with the same credentials, also logs in
    as a user. *)
Theorem admin_login_requires_admin e e' data (s : Mongo.db (F:=F)) :
  MongoApi.auth_status (MongoApi.admin_login e data s) = 200 →
  ∃ uid u,
    Mongo.db_users s !! uid = Some u ∧ Mongo.role u = "admin" ∧
    MongoApi.lb_email data = Some (Mongo.email u) ∧
    MongoApi.admin_login e data s
    = MongoApi.AdminLoggedIn
        (create_access_token uid (Mongo.clock e 0) (Mongo.uuid4 e)) uid
        (Mongo.email u) (Mongo.username u) "super_admin" ["*"] ∧
    MongoApi.login e' data s
    = MongoApi.LoggedIn
        (create_access_token uid (Mongo.clock e' 0) (Mongo.uuid4 e')) uid
        (Mongo.username u)
        (Mongo.email u) (Mongo.user_country u) (Mongo.preferred_currency u) "admin".
Proof.
  intros Hst.
  destruct (MongoAuthFacts.admin_login_ok_inv e data s Hst)
    as (mail & pw & uid & u & Hm & Hp & Hu & Hmail & Hrole & Hpw & Hreply).
  exists uid, u. split_and!; try done; [congruence|].
  revert Hst. unfold MongoApi.admin_login, MongoApi.login.
  destruct (negb (truthy_str (MongoApi.lb_email data))
            || negb (truthy_str (MongoApi.lb_password data))); [done|].
  rewrite Hm, Hp. simpl.
  destruct (MongoApi.find_by_email mail s) as [[uid' u']|] eqn:Hfind; [|done].
  revert Hreply. unfold MongoApi.admin_login.
  destruct (negb (truthy_str (MongoApi.lb_email data))
            || negb (truthy_str (MongoApi.lb_password data))); [done|].
  rewrite Hm, Hp. simpl. rewrite Hfind.
  destruct (String.eqb_spec (Mongo.role u') "admin") as [Hrole'|]; simpl; [|done].
  destruct (checkpw pw (Mongo.password_hash u')) eqn:Hpw'; simpl; [|done].
  intros Heq _.
  apply MongoAuthFacts.find_by_email_Some in Hfind as [Hu' _].
  injection Heq as Htok -> _ _.
  assert (u' = u) as -> by congruence.
  by rewrite Hrole.
Qed.

End AuthProperties.

Module OrderFacts.
Section Facts.
Context {F : Type} `{!PyFloat F} `{!Services}.

#[local] Instance mongo_newer_total : Total (MongoApi.newer (F:=F)).
Proof. intros a b. unfold MongoApi.newer. lia. Qed.

#[local] Instance mongo_newer_trans : Transitive (MongoApi.newer (F:=F)).
Proof. intros a b c. unfold MongoApi.newer. lia. Qed.

#[local] Instance sql_newer_total : Total (PostgresApi.newer (F:=F)).
Proof. intros a b. unfold PostgresApi.newer. lia. Qed.

#[local] Instance sql_newer_trans : Transitive (PostgresApi.newer (F:=F)).
Proof. intros a b c. unfold PostgresApi.newer. lia. Qed.

Lemma mongo_orders_sorted uid (s : Mongo.db (F:=F)) :
  StronglySorted MongoApi.newer (MongoApi.get_orders uid s).
Proof. apply StronglySorted_merge_sort; apply _. Qed.

Lemma sql_orders_sorted uid (s : Postgres.db (F:=F)) :
  StronglySorted PostgresApi.newer (PostgresApi.get_orders uid s).
Proof. apply StronglySorted_merge_sort; apply _. Qed.


End Facts.
End OrderFacts.

Section OrderProperties.
Context {F : Type} `{!PyFloat F} `{!Services}.


(** X7.  Document store: the order a successful checkout stores can be
    fetched at once by the user who checked out, under the
    [order_number] of the reply (an id the driver generated parses back
    to itself), with a local total in the user's currency; to any other
    user the same request is answered 404. *)
Theorem checkout_then_get_order e uid data (s : Mongo.db (F:=F)) :
  Mongo.status (Mongo.checkout e uid data s).2 = 200 →
  ObjectId (Mongo.inserted_id e) = Some (Mongo.inserted_id e) →
  let s' := (Mongo.checkout e uid data s).1 in
  ∃ o uoid u,
    ObjectId uid = Some uoid ∧ Mongo.db_users s !! uoid = Some u ∧
    Mongo.db_orders s' !! Mongo.inserted_id e = Some o ∧
    (Mongo.checkout e uid data s).2
    = Mongo.OrderCreated (Mongo.order_id o) (Mongo.inserted_id e)
                         (Mongo.total_usd o) (length (Mongo.items o)) ∧
    MongoApi.get_order uid (Mongo.inserted_id e) s'
    = MongoApi.OrderFound (Mongo.inserted_id e) o
        (fmul (Mongo.total_usd o) (rate_or_one (Mongo.preferred_currency u)))
        (Mongo.preferred_currency u)
        (symbol_or_dollar (Mongo.preferred_currency u)) ∧
    ∀ other, other ≠ uid →
      MongoApi.get_order other (Mongo.inserted_id e) s'
      = MongoApi.OrderError 404 "Order not found".
Proof.
  intros Hst Hid s'. subst s'.
  destruct (MongoFacts.checkout_ok_inv e uid data s _ _ (surjective_pairing _) Hst)
    as (uoid & u & Huoid & Hu & Hne & Hwf & Hfresh).
  rewrite (MongoFacts.checkout_run e uid data s uoid u) by done.
  eexists _, uoid, u. simpl. split_and!; try done.
  - apply lookup_insert_eq.
  - reflexivity.
  - unfold MongoApi.get_order. rewrite Hid. simpl.
    rewrite lookup_insert_eq. simpl. rewrite decide_True by done.
    rewrite Huoid. simpl. by rewrite lookup_insert_eq.
  - intros other Hother. unfold MongoApi.get_order. rewrite Hid. simpl.
    rewrite lookup_insert_eq. simpl. by rewrite decide_False.
Qed.

(** X8.  [get_orders] lists exactly the orders that carry the caller's
    id, each once, newest first.  In both editions. *)
Theorem get_orders_own_newest_first :
  (∀ uid (s : Mongo.db (F:=F)),
     (∀ k o, (k, o) ∈ MongoApi.get_orders uid s ↔
             Mongo.db_orders s !! k = Some o ∧ Mongo.o_user_id o = uid) ∧
     NoDup (MongoApi.get_orders uid s) ∧
     StronglySorted (λ a b, Mongo.o_created_at b.2 ≤ Mongo.o_created_at a.2)
                    (MongoApi.get_orders uid s)) ∧
  (∀ uid (s : Postgres.db (F:=F)),
     PostgresApi.get_orders uid s
       ≡ₚ filter (λ o, Postgres.o_user_id o = uid) (Postgres.db_orders s) ∧
     StronglySorted (λ a b, Postgres.o_created_at b ≤ Postgres.o_created_at a)
                    (PostgresApi.get_orders uid s)).
Proof.
  split.
  - intros uid s. split_and!.
    + intros k o. unfold MongoApi.get_orders.
      rewrite merge_sort_Permutation, list_elem_of_filter, elem_of_map_to_list.
      simpl. tauto.
    + unfold MongoApi.get_orders. rewrite merge_sort_Permutation.
      apply NoDup_filter, NoDup_map_to_list.
    + apply OrderFacts.mongo_orders_sorted.
  - intros uid s. split.
    + unfold PostgresApi.get_orders. apply merge_sort_Permutation.
    + apply OrderFacts.sql_orders_sorted.
Qed.

End OrderProperties.

Module FrameFacts.
Section Facts.
Context {F : Type} `{!PyFloat F} `{!Services}.

(** [checkout] either leaves the store as it was or writes the order and
    the caller's document. *)
Lemma checkout_store e uid data (s : Mongo.db (F:=F)) :
  (Mongo.checkout e uid data s).1 = s ∨
  ∃ uoid u o,
    ObjectId uid = Some uoid ∧ Mongo.db_users s !! uoid = Some u ∧
    (Mongo.checkout e uid data s).1
    = {| Mongo.db_users :=
           <[uoid := Mongo.set_user_orders (Mongo.orders u ++ [Mongo.inserted_id e])
                       (Mongo.set_cart [] (Mongo.clock e 2) u)]> (Mongo.db_users s);
         Mongo.db_products := Mongo.db_products s;
         Mongo.db_orders := <[Mongo.inserted_id e := o]> (Mongo.db_orders s) |}.
Proof.
  destruct (decide (Mongo.status (Mongo.checkout e uid data s).2 = 200))
    as [Hst|Hst].
  - right.
    destruct (MongoFacts.checkout_ok_inv e uid data s _ _ (surjective_pairing _) Hst)
      as (uoid & u & Huoid & Hu & Hne & Hwf & Hfresh).
    rewrite (MongoFacts.checkout_run e uid data s uoid u) by done.
    by eexists uoid, u, _.
  - left. revert Hst. unfold Mongo.checkout.
    destruct (ObjectId uid) as [uoid|]; simpl; [|done].
    destruct (Mongo.db_users s !! uoid) as [u|]; simpl; [|done].
    destruct (negb _); simpl; [|done].
    destruct (Mongo.price_cart _ _ _ _) as [[total its]|r]; simpl; [|done].
    by case_bool_decide.
Qed.

Lemma remove_from_cart_store e uid pid (s : Mongo.db (F:=F)) :
  (Mongo.remove_from_cart e uid pid s).1 = s ∨
  ∃ uoid u,
    ObjectId uid = Some uoid ∧ Mongo.db_users s !! uoid = Some u ∧
    (Mongo.remove_from_cart e uid pid s).1
    = Mongo.set_users
        (<[uoid := Mongo.set_cart
                     (filter (λ item, Mongo.product_id item ≠ pid) (Mongo.cart u))
                     (Mongo.clock e 0) u]> (Mongo.db_users s)) s.
Proof.
  destruct (ObjectId uid) as [uoid|] eqn:Huoid.
  - destruct (Mongo.db_users s !! uoid) as [u|] eqn:Hu.
    + right. exists uoid, u.
      by rewrite (MongoFacts.remove_from_cart_run e uid pid s uoid u).
    + left. unfold Mongo.remove_from_cart. rewrite Huoid. simpl. by rewrite Hu.
  - left. unfold Mongo.remove_from_cart. by rewrite Huoid.
Qed.

(** The merge of [add_to_cart] leaves the rows of other users alone. *)
Lemma merge_row_other e uid pid q rows other :
  other ≠ uid →
  filter (λ r, Postgres.ci_user_id r = other) (Postgres.merge_row e uid pid q rows)
  = filter (λ r, Postgres.ci_user_id r = other) rows.
Proof.
  intros Hother. unfold Postgres.merge_row.
  destruct (PostgresFacts.first_row uid pid rows)
    as [Habs|(l1 & r & l2 & -> & Hl1 & Hu & Hp)].
  - rewrite PostgresFacts.sql_bump_absent by done.
    rewrite filter_app, filter_cons_False, filter_nil, app_nil_r; [done|].
    simpl. congruence.
  - rewrite PostgresFacts.sql_bump_present by done.
    rewrite !filter_app, !filter_cons_False; [done|simpl; congruence..].
Qed.

Lemma delete_rows_other uid (rows : list Postgres.cart_item) other :
  other ≠ uid →
  filter (λ r, Postgres.ci_user_id r = other)
         (filter (λ r, Postgres.ci_user_id r ≠ uid) rows)
  = filter (λ r, Postgres.ci_user_id r = other) rows.
Proof.
  intros Hother. induction rows as [|r rest IH]; [done|].
  destruct (decide (Postgres.ci_user_id r = uid)) as [Heq|Hne].
  - rewrite (filter_cons_False (λ r, Postgres.ci_user_id r ≠ uid)) by tauto.
    rewrite (filter_cons_False (λ r, Postgres.ci_user_id r = other)) by congruence.
    done.
  - rewrite (filter_cons_True (λ r, Postgres.ci_user_id r ≠ uid)) by done.
    destruct (decide (Postgres.ci_user_id r = other)).
    + rewrite !(filter_cons_True (λ r, Postgres.ci_user_id r = other)) by done.
      by rewrite IH.
    + rewrite !(filter_cons_False (λ r, Postgres.ci_user_id r = other)) by done.
      done.
Qed.

(** The relational [checkout] either leaves the store as it was or
    appends an order and deletes the caller's cart rows. *)
Lemma sql_checkout_store e uid data (s : Postgres.db (F:=F)) :
  (Postgres.checkout e uid data s).1 = s ∨
  ∃ o, (Postgres.checkout e uid data s).1
       = {| Postgres.db_users := Postgres.db_users s;
            Postgres.db_products := Postgres.db_products s;
            Postgres.db_cart_items :=
              filter (λ r, Postgres.ci_user_id r ≠ uid) (Postgres.db_cart_items s);
            Postgres.db_orders := Postgres.db_orders s ++ [o] |}.
Proof.
  unfold Postgres.checkout.
  destruct (negb _); simpl; [|by left].
  destruct (Postgres.price_cart _ _ _ _) as [[total its]|r]; simpl; [|by left].
  destruct (varchar 50 _); simpl; [|by left].
  destruct (bool_decide (Forall _ _)); simpl; [|by left].
  destruct (bool_decide (is_Some _)); simpl; [|by left].
  right. by eexists.
Qed.

Lemma sql_checkout_failed e uid data (s : Postgres.db (F:=F)) :
  Postgres.status (Postgres.checkout e uid data s).2 ≠ 200 →
  (Postgres.checkout e uid data s).1 = s.
Proof.
  unfold Postgres.checkout.
  destruct (negb _); simpl; [|done].
  destruct (Postgres.price_cart _ _ _ _) as [[total its]|r]; simpl; [|done].
  destruct (varchar 50 _); simpl; [|done].
  destruct (bool_decide (Forall _ _)); simpl; [|done].
  by destruct (bool_decide (is_Some _)).
Qed.

End Facts.
End FrameFacts.

Section CartProperties.
Context {F : Type} `{!PyFloat F} `{!Services}.

(** X9.  Document store: [get_product] answers 400 to a malformed id and
    404 to a well-formed id of no product; every product that
    [get_products] lists is returned by [get_product] under the id it is
    listed with (an id of the store parses back to itself), and the
    [count] of the listing is the number of products. *)
Theorem get_product_outcomes :
  (∀ pid (s : Mongo.db (F:=F)),
     ObjectId pid = None →
     MongoApi.get_product pid s = MongoApi.ProductError 400 "Invalid product ID") ∧
  (∀ pid oid (s : Mongo.db (F:=F)),
     ObjectId pid = Some oid → Mongo.db_products s !! oid = None →
     MongoApi.get_product pid s = MongoApi.ProductError 404 "Product not found") ∧
  (∀ (s : Mongo.db (F:=F)) n listing k p,
     MongoApi.get_products s = MongoApi.ProductList n listing →
     n = size (Mongo.db_products s) ∧
     ((k, p) ∈ listing → ObjectId k = Some k →
      MongoApi.get_product k s = MongoApi.ProductFound k p)).
Proof.
  split_and!.
  - intros pid s Hbad. unfold MongoApi.get_product. by rewrite Hbad.
  - intros pid oid s Hoid Hp. unfold MongoApi.get_product. by rewrite Hoid, Hp.
  - intros s n listing k p [= <- <-]. split.
    + by rewrite length_map_to_list.
    + intros Hin Hk. apply elem_of_map_to_list in Hin.
      unfold MongoApi.get_product. by rewrite Hk, Hin.
Qed.

(** X10.  A checkout made right after a successful one, by the same
    user, is answered 400 "Cart is empty" and stores nothing: no second
    order.  In both editions. *)
Theorem second_checkout_rejected :
  (∀ e1 e2 uid d1 d2 (s : Mongo.db (F:=F)),
     Mongo.status (Mongo.checkout e1 uid d1 s).2 = 200 →
     Mongo.checkout e2 uid d2 (Mongo.checkout e1 uid d1 s).1
     = ((Mongo.checkout e1 uid d1 s).1, Mongo.Error 400 "Cart is empty")) ∧
  (∀ e1 e2 uid d1 d2 (s : Postgres.db (F:=F)),
     Postgres.status (Postgres.checkout e1 uid d1 s).2 = 200 →
     Postgres.checkout e2 uid d2 (Postgres.checkout e1 uid d1 s).1
     = ((Postgres.checkout e1 uid d1 s).1, Postgres.Error 400 "Cart is empty")).
Proof.
  split.
  - intros e1 e2 uid d1 d2 s Hst.
    destruct (MongoFacts.checkout_ok_inv e1 uid d1 s _ _ (surjective_pairing _) Hst)
      as (uoid & u & Huoid & Hu & Hne & Hwf & Hfresh).
    rewrite (MongoFacts.checkout_run e1 uid d1 s uoid u) by done. simpl.
    eapply MongoFacts.checkout_empty; [done|apply lookup_insert_eq|done].
  - intros e1 e2 uid d1 d2 s Hst.
    destruct (PostgresFacts.sql_checkout_ok_inv e1 uid d1 s _ _
                (surjective_pairing _) Hst) as (Hne & Hall & Hfits & Huniq & Huser).
    apply PostgresFacts.sql_checkout_empty.
    rewrite PostgresFacts.sql_checkout_run by done.
    apply PostgresFacts.cart_deleted.
Qed.

(** X11.  Document store: the USD total that [get_cart] shows is the
    total a checkout of the same store charges, rounded to two places:
    whenever checkout succeeds, [get_cart] on the store before it
    succeeds too and shows [round(total, 2)] for the [total] of the
    checkout reply; both add the line totals with [+=], in cart order.
    Relational store: whenever checkout succeeds, [get_cart] succeeds
    too, and the two replies are computed from the same line totals, in
    the same order, not with the same summation: the checkout charges
    their running total ([+=]), [get_cart] shows [round(sum(...), 2)]. *)
Theorem cart_total_is_order_total :
  (∀ e uid data (s : Mongo.db (F:=F)),
     Mongo.status (Mongo.checkout e uid data s).2 = 200 →
     ∃ code number total n views local currency sym,
       (Mongo.checkout e uid data s).2 = Mongo.OrderCreated code number total n ∧
       Mongo.get_cart uid s
       = (s, Mongo.CartTotals views (round2 total) local currency sym)) ∧
  (∀ e uid data (s : Postgres.db (F:=F)),
     Postgres.status (Postgres.checkout e uid data s).2 = 200 →
     let totals :=
       Postgres.line_total
         <$> Postgres.resolved (Postgres.db_products s) (Postgres.cart_of uid s) in
     length totals = length (Postgres.cart_of uid s) ∧
     ∃ code views,
       (Postgres.checkout e uid data s).2
       = Postgres.OrderCreated code (running_total totals) ∧
       Postgres.get_cart uid s
       = (s, Postgres.CartTotals views (round2 (py_sum totals)))).
Proof.
  split.
  - intros e uid data s Hst.
    destruct (MongoFacts.checkout_ok_inv e uid data s _ _ (surjective_pairing _) Hst)
      as (uoid & u & Huoid & Hu & Hne & Hwf & Hfresh).
    rewrite (MongoFacts.checkout_run e uid data s uoid u) by done.
    destruct (MongoFacts.get_cart_run uid s uoid u Huoid Hu Hwf)
      as (views & _ & ->).
    simpl. by eexists _, _, _, _, _, _, _, _.
  - intros e uid data s Hst totals. subst totals.
    destruct (PostgresFacts.sql_checkout_ok_inv e uid data s _ _
                (surjective_pairing _) Hst) as (Hne & Hall & Hfits & Huniq & Huser).
    rewrite PostgresFacts.sql_checkout_run by done.
    split.
    { rewrite length_fmap.
      by rewrite <- (PostgresFacts.resolved_all _ _ Hall) at 2;
        rewrite length_fmap. }
    destruct (PostgresFacts.get_cart_all uid s Hall) as (views & _ & ->).
    simpl. by eexists _, _.
Qed.

(** X12.  Document store: removing an id right after adding it leaves
    the cart without any line stored under that id, and every line
    stored under another id as it was; so the cart is back to what it
    was when no line had the id before the add, and a line that had it
    is gone with the added quantity.  Both routes compare the id of a
    line with the id of the request as strings: a line that names the
    same product in another spelling of its id is one of the lines that
    stay. *)
Theorem add_then_remove e1 e2 uid pid q (s : Mongo.db (F:=F)) uoid u :
  Mongo.status
    (Mongo.add_to_cart e1 uid (Mongo.CartBody (Some pid) (Some q)) s).2 = 200 →
  ObjectId uid = Some uoid →
  Mongo.db_users s !! uoid = Some u →
  let s1 := (Mongo.add_to_cart e1 uid (Mongo.CartBody (Some pid) (Some q)) s).1 in
  let s2 := (Mongo.remove_from_cart e2 uid pid s1).1 in
  Mongo.cart <$> Mongo.db_users s2 !! uoid
    = Some (filter (λ item, Mongo.product_id item ≠ pid) (Mongo.cart u)) ∧
  (pid ∉ Mongo.product_id <$> Mongo.cart u →
   Mongo.cart <$> Mongo.db_users s2 !! uoid = Some (Mongo.cart u)).
Proof.
  intros Hst Huoid Hu s1 s2. subst s1 s2.
  destruct (MongoFacts.add_to_cart_ok_inv _ _ _ _ Hst)
    as (? & ? & poid & p & uoid' & u' & [= <- <-] & Hpid & Hq & Hpoid & Hp
        & Huoid' & Hu' & Hfits).
  assert (uoid' = uoid) as -> by congruence.
  assert (u' = u) as -> by congruence.
  rewrite (MongoFacts.add_to_cart_run e1 uid pid q s poid p uoid u) by done.
  simpl.
  rewrite (MongoFacts.remove_from_cart_run e2 uid pid _ uoid _ Huoid
             (lookup_insert_eq _ _ _)).
  simpl. rewrite lookup_insert_eq. simpl.
  assert (filter (λ item, Mongo.product_id item ≠ pid)
                 (Mongo.merge_line e1 pid q (Mongo.cart u)).1
          = filter (λ item, Mongo.product_id item ≠ pid) (Mongo.cart u)) as ->.
  { destruct (MongoFacts.first_line pid (Mongo.cart u))
      as [Habs|(l1 & item & l2 & -> & Hl1 & Hitem)].
    - rewrite MongoFacts.merge_line_absent by done. simpl.
      rewrite filter_app, filter_cons_False, filter_nil, app_nil_r; [done|].
      simpl. tauto.
    - rewrite MongoFacts.merge_line_present by done. simpl.
      rewrite !filter_app, !filter_cons_False; [done|simpl; tauto..]. }
  split; [done|]. intros Habs. by rewrite MongoFacts.filter_absent.
Qed.

(** X13.  A cart request touches the caller only.  Document store:
    [add_to_cart], [remove_from_cart] and [checkout] leave every other
    user's document, and the products, as they were.  Relational store:
    [add_to_cart] and [checkout] leave every other user's cart rows, in
    order, and the users and products as they were. *)
Theorem cart_requests_touch_caller_only :
  (∀ e uid pid data ck (s : Mongo.db (F:=F)) k,
     ObjectId uid ≠ Some k →
     Mongo.db_users (Mongo.add_to_cart e uid data s).1 !! k
       = Mongo.db_users s !! k ∧
     Mongo.db_users (Mongo.remove_from_cart e uid pid s).1 !! k
       = Mongo.db_users s !! k ∧
     Mongo.db_users (Mongo.checkout e uid ck s).1 !! k = Mongo.db_users s !! k) ∧
  (∀ e uid pid data ck (s : Mongo.db (F:=F)),
     Mongo.db_products (Mongo.add_to_cart e uid data s).1 = Mongo.db_products s ∧
     Mongo.db_products (Mongo.remove_from_cart e uid pid s).1 = Mongo.db_products s ∧
     Mongo.db_products (Mongo.checkout e uid ck s).1 = Mongo.db_products s) ∧
  (∀ e uid data ck (s : Postgres.db (F:=F)) other,
     other ≠ uid →
     Postgres.cart_of other (Postgres.add_to_cart e uid data s).1
       = Postgres.cart_of other s ∧
     Postgres.cart_of other (Postgres.checkout e uid ck s).1
       = Postgres.cart_of other s) ∧
  (∀ e uid ck (s : Postgres.db (F:=F)),
     Postgres.db_users (Postgres.checkout e uid ck s).1 = Postgres.db_users s ∧
     Postgres.db_products (Postgres.checkout e uid ck s).1 = Postgres.db_products s).
Proof.
  split_and!.
  - intros e uid pid data ck s k Hother. split_and!.
    + destruct (MongoFacts.add_to_cart_store e uid data s)
        as [->|(? & ? & uoid & u & Huoid & _ & _ & _ & ->)]; [done|].
      simpl. apply lookup_insert_ne. congruence.
    + destruct (FrameFacts.remove_from_cart_store e uid pid s)
        as [->|(uoid & u & Huoid & _ & ->)]; [done|].
      simpl. apply lookup_insert_ne. congruence.
    + destruct (FrameFacts.checkout_store e uid ck s)
        as [->|(uoid & u & o & Huoid & _ & ->)]; [done|].
      simpl. apply lookup_insert_ne. congruence.
  - intros e uid pid data ck s. split_and!.
    + by destruct (MongoFacts.add_to_cart_store e uid data s)
        as [->|(? & ? & uoid & u & _ & _ & _ & _ & ->)].
    + by destruct (FrameFacts.remove_from_cart_store e uid pid s)
        as [->|(uoid & u & _ & _ & ->)].
    + by destruct (FrameFacts.checkout_store e uid ck s)
        as [->|(uoid & u & o & _ & _ & ->)].
  - intros e uid data ck s other Hother. split.
    + destruct (PostgresFacts.sql_add_to_cart_store e uid data s)
        as [->|(pid & q & _ & _ & _ & _ & ->)]; [done|].
      unfold Postgres.cart_of. simpl. by apply FrameFacts.merge_row_other.
    + destruct (FrameFacts.sql_checkout_store e uid ck s) as [->|[o ->]]; [done|].
      unfold Postgres.cart_of. simpl. by apply FrameFacts.delete_rows_other.
  - intros e uid ck s.
    by destruct (FrameFacts.sql_checkout_store e uid ck s) as [->|[o ->]].
Qed.

End CartProperties.

Section AccountProperties.
Context {F : Type} `{!PyFloat F} `{!Services} `{!Bcrypt} `{!PyStr}.

(** X14.  Registration keeps addresses apart.  Document store: if no two
    users share an address (a user name) before [register], none do
    after it; and a second registration under the address of a
    successful one is answered 400 and stores nothing.  Relational
    store: the same for [signup] and addresses. *)
Theorem registration_keeps_addresses_unique :
  (∀ e data (s : Mongo.db (F:=F)),
     let s' := (Mongo.register e data s).1 in
     ((∀ k k' u u', Mongo.db_users s !! k = Some u → Mongo.db_users s !! k' = Some u' →
         Mongo.email u = Mongo.email u' → k = k') →
      ∀ k k' u u', Mongo.db_users s' !! k = Some u → Mongo.db_users s' !! k' = Some u' →
         Mongo.email u = Mongo.email u' → k = k') ∧
     ((∀ k k' u u', Mongo.db_users s !! k = Some u → Mongo.db_users s !! k' = Some u' →
         Mongo.username u = Mongo.username u' → k = k') →
      ∀ k k' u u', Mongo.db_users s' !! k = Some u → Mongo.db_users s' !! k' = Some u' →
         Mongo.username u = Mongo.username u' → k = k')) ∧
  (∀ e1 e2 d1 d2 (s : Mongo.db (F:=F)),
     Mongo.status (Mongo.register e1 d1 s).2 = 201 →
     Mongo.rb_email d2 = Mongo.rb_email d1 →
     (Mongo.register e2 d2 (Mongo.register e1 d1 s).1).1 = (Mongo.register e1 d1 s).1 ∧
     Mongo.status (Mongo.register e2 d2 (Mongo.register e1 d1 s).1).2 = 400) ∧
  (∀ e data (s : Postgres.db (F:=F)),
     let s' := (Postgres.signup e data s).1 in
     (∀ k k' u u', Postgres.db_users s !! k = Some u →
        Postgres.db_users s !! k' = Some u' →
        Postgres.email u = Postgres.email u' → k = k') →
     ∀ k k' u u', Postgres.db_users s' !! k = Some u →
        Postgres.db_users s' !! k' = Some u' →
        Postgres.email u = Postgres.email u' → k = k') ∧
  (∀ e1 e2 d1 d2 (s : Postgres.db (F:=F)),
     Postgres.status (Postgres.signup e1 d1 s).2 = 201 →
     Postgres.sb_email d2 = Postgres.sb_email d1 →
     (Postgres.signup e2 d2 (Postgres.signup e1 d1 s).1).1
       = (Postgres.signup e1 d1 s).1 ∧
     Postgres.status (Postgres.signup e2 d2 (Postgres.signup e1 d1 s).1).2 = 400).
Proof.
  split_and!.
  - intros e data s s'. subst s'.
    destruct (MongoFacts.register_store e data s) as [->|(_ & Hst & ->)]; [done|].
    destruct (MongoAuthFacts.register_ok_inv e data s Hst)
      as (uname & mail & pw & Hn & _ & Hm & _ & _ & _ & Hreg & Htaken & _).
    assert (∀ k u, Mongo.db_users s !! k = Some u →
                   Mongo.email u ≠ Mongo.email (Mongo.new_user e data)) as Hnew.
    { intros k u Hk. simpl. rewrite Hm. simpl.
      by apply (MongoAuthFacts.not_registered mail s k u). }
    assert (∀ k u, Mongo.db_users s !! k = Some u →
                   Mongo.username u ≠ Mongo.username (Mongo.new_user e data)) as Hnewn.
    { intros k u Hk Heq. simpl in Heq. rewrite Hn in Heq. simpl in Heq.
      unfold Mongo.username_taken in Htaken.
      apply bool_decide_eq_false in Htaken. apply Htaken. by exists k, u. }
    simpl. split; intros Huniq k k' u u' Hk Hk' Heq;
      apply lookup_insert_Some in Hk as [[<- <-]|[? Hk]];
      apply lookup_insert_Some in Hk' as [[<- <-]|[? Hk']]; try done.
    + by destruct (Hnew _ _ Hk').
    + by destruct (Hnew _ _ Hk).
    + by apply (Huniq _ _ _ _ Hk Hk').
    + by destruct (Hnewn _ _ Hk').
    + by destruct (Hnewn _ _ Hk).
    + by apply (Huniq _ _ _ _ Hk Hk').
  - intros e1 e2 d1 d2 s Hst Hsame.
    destruct (MongoAuthFacts.register_ok_inv e1 d1 s Hst)
      as (uname & mail & pw & _ & _ & Hm & _ & _ & _ & _ & _ & _).
    destruct (MongoFacts.register_created e1 d1 s Hst) as [Hfresh Hs'].
    rewrite Hs'.
    assert (Mongo.email_registered mail
              (Mongo.set_users (<[Mongo.inserted_id e1 := Mongo.new_user e1 d1]>
                                  (Mongo.db_users s)) s) = true) as Hreg.
    { unfold Mongo.email_registered. apply bool_decide_eq_true.
      exists (Mongo.inserted_id e1), (Mongo.new_user e1 d1).
      split; [apply lookup_insert_eq|]. simpl. by rewrite Hm. }
    unfold Mongo.register.
    destruct (truthy_str (Mongo.rb_username d2)); simpl; [|done].
    destruct (truthy_str (Mongo.rb_email d2)); simpl; [|done].
    destruct (truthy_str (Mongo.rb_password d2)); simpl; [|done].
    rewrite Hsame, Hm. simpl. by rewrite Hreg.
  - intros e data s s' Huniq. subst s'.
    destruct (PostgresFacts.signup_store e data s) as [->|(Hst & uid & _ & ->)];
      [done|].
    destruct (PostgresAuthFacts.signup_ok_inv e data s Hst)
      as (mail & pw & nm & ph & Hm & _ & _ & _ & Hreg).
    assert (∀ k u, Postgres.db_users s !! k = Some u →
                   Postgres.email u ≠ Postgres.email (Postgres.new_user e data))
      as Hnew.
    { intros k u Hk. simpl. rewrite Hm. simpl.
      by apply (PostgresAuthFacts.sql_not_registered mail s k u). }
    simpl. intros k k' u u' Hk Hk' Heq.
    apply lookup_insert_Some in Hk as [[<- <-]|[? Hk]];
      apply lookup_insert_Some in Hk' as [[<- <-]|[? Hk']]; try done.
    + by destruct (Hnew _ _ Hk').
    + by destruct (Hnew _ _ Hk).
    + by apply (Huniq _ _ _ _ Hk Hk').
  - intros e1 e2 d1 d2 s Hst Hsame.
    destruct (PostgresAuthFacts.signup_ok_inv e1 d1 s Hst)
      as (mail & pw & nm & ph & Hm & _ & _ & _ & _).
    destruct (PostgresFacts.signup_created e1 d1 s Hst) as (uid & Hfresh & Hs').
    rewrite Hs'.
    match goal with |- context [Postgres.signup e2 d2 ?st] =>
      assert (Postgres.email_registered mail st = true) as Hreg end.
    { unfold Postgres.email_registered. apply bool_decide_eq_true.
      exists uid, (Postgres.new_user e1 d1).
      split; [apply lookup_insert_eq|]. simpl. by rewrite Hm. }
    unfold Postgres.signup.
    destruct (_ && _); simpl; [|done].
    rewrite Hsame, Hm. simpl. by rewrite Hreg.
Qed.

(** X15.  Relational store, [admin_change_password]: an unknown user is
    answered 404 and a current password that does not verify 401, the
    store as it was; a success stores the hash of the new password for
    the caller and changes no other user, no role nor address; and once
    it has succeeded for a user with an admin role, that user's
    [admin_login] with the new password succeeds (addresses being unique
    and the new hash verifying the new password). *)
Theorem change_password_outcomes :
  (∀ e uid data (s : Postgres.db (F:=F)),
     Postgres.db_users s !! uid = None →
     PostgresApi.admin_change_password e uid data s
     = (s, PostgresApi.AuthError 404 "Not Found")) ∧
  (∀ e uid current new (s : Postgres.db (F:=F)) u,
     Postgres.db_users s !! uid = Some u →
     checkpw current (Postgres.password_hash u) = false →
     PostgresApi.admin_change_password e uid
       (PostgresApi.PasswordBody (Some current) new) s
     = (s, PostgresApi.AuthError 401 "Current password is incorrect")) ∧
  (∀ e uid data (s : Postgres.db (F:=F)),
     PostgresApi.auth_status (PostgresApi.admin_change_password e uid data s).2 = 200 →
     let s' := (PostgresApi.admin_change_password e uid data s).1 in
     ∃ u u' new,
       Postgres.db_users s !! uid = Some u ∧
       PostgresApi.pb_new_password data = Some new ∧
       Postgres.db_users s' !! uid = Some u' ∧
       Postgres.password_hash u' = hashpw new (Postgres.salt e) ∧
       Postgres.role u' = Postgres.role u ∧
       Postgres.email u' = Postgres.email u ∧
       (∀ k, k ≠ uid → Postgres.db_users s' !! k = Postgres.db_users s !! k) ∧
       Postgres.db_cart_items s' = Postgres.db_cart_items s ∧
       Postgres.db_orders s' = Postgres.db_orders s ∧
       ((∀ k k' v v', Postgres.db_users s !! k = Some v →
           Postgres.db_users s !! k' = Some v' →
           Postgres.email v = Postgres.email v' → k = k') →
        Postgres.role u ∈ ["admin"; "super_admin"] →
        checkpw new (hashpw new (Postgres.salt e)) = true →
        ∀ e', PostgresApi.auth_status
          (PostgresApi.admin_login e'
             (PostgresApi.LoginBody (Some (Postgres.email u)) (Some new)) s') = 200)).
Proof.
  split_and!.
  - intros e uid data s Hu. unfold PostgresApi.admin_change_password.
    by rewrite Hu.
  - intros e uid current new s u Hu Hbad.
    unfold PostgresApi.admin_change_password. rewrite Hu. simpl.
    by rewrite Hbad.
  - intros e uid data s. unfold PostgresApi.admin_change_password.
    destruct (Postgres.db_users s !! uid) as [u|] eqn:Hu; [|done].
    destruct (PostgresApi.pb_current_password data) as [current|]; [|done].
    destruct (checkpw current (Postgres.password_hash u)); simpl; [|done].
    destruct (PostgresApi.pb_new_password data) as [new|]; [|done].
    simpl. intros _.
    set (u' := if decide (hashpw new (Postgres.salt e) = Postgres.password_hash u)
               then u
               else PostgresApi.set_password (hashpw new (Postgres.salt e))
                      (Postgres.clock e 0) u).
    assert (Postgres.password_hash u' = hashpw new (Postgres.salt e)) as Hhash
      by (subst u'; by case_decide).
    assert (Postgres.role u' = Postgres.role u) as Hrole'
      by (subst u'; by case_decide).
    assert (Postgres.email u' = Postgres.email u) as Hmail'
      by (subst u'; by case_decide).
    exists u, u', new. split_and!; try done.
    + apply lookup_insert_eq.
    + intros k Hk. by apply lookup_insert_ne.
    + intros Huniq Hrole Hverify e'. unfold PostgresApi.admin_login. simpl.
      rewrite (PostgresAuthFacts.sql_find_by_email_unique _ _ uid u').
      * rewrite Hrole', bool_decide_true by done. simpl.
        by rewrite Hhash, Hverify.
      * apply lookup_insert_eq.
      * done.
      * simpl. intros k v Hk Hmail.
        apply lookup_insert_Some in Hk as [[<- _]|[Hne Hk]]; [done|].
        apply (Huniq _ _ _ _ Hk Hu). by rewrite Hmail.
Qed.

End AccountProperties.

Section PromotionProperties.
Context {F : Type} `{!PyFloat F} `{!PyStr}.
Implicit Types (promotions : list (PostgresApi.promotion (F:=F))).

(** X16.  [validate_promo_code] accepts a code only for a stored
    promotion that carries the upper-cased code, is active, has not
    expired and has uses left, a limit of 0 or none counting as no limit;
    the reply carries that promotion's discount and type.  Without an
    active promotion under the code the answer is 404. *)
Theorem validate_promo_code_sound :
  (∀ now code promotions,
     PostgresApi.promo_status (PostgresApi.validate_promo_code now code promotions)
     = 200 →
     ∃ p, p ∈ promotions ∧
       PostgresApi.pr_code p = str_upper (default "" code) ∧
       PostgresApi.pr_status p = "active" ∧
       (∀ t, PostgresApi.pr_expires p = Some t → now ≤ t) ∧
       (∀ l, PostgresApi.pr_limit p = Some l → l = 0 ∨ PostgresApi.pr_uses p < l) ∧
       PostgresApi.validate_promo_code now code promotions
       = PostgresApi.PromoValid (PostgresApi.pr_code p) (PostgresApi.pr_discount p)
                                (PostgresApi.pr_type p)) ∧
  (∀ now code promotions,
     Forall (λ p, ¬ (PostgresApi.pr_code p = str_upper (default "" code) ∧
                     PostgresApi.pr_status p = "active")) promotions →
     PostgresApi.validate_promo_code now code promotions
     = PostgresApi.PromoError 404 "Invalid promo code").
Proof.
  split.
  - intros now code promotions. unfold PostgresApi.validate_promo_code.
    destruct (first_match _ promotions) as [p|] eqn:Hfind; [|done].
    apply ApiFacts.first_match_Some in Hfind as [Hin [Hcode Hactive]].
    destruct (PostgresApi.expired now p) eqn:Hexp; [done|].
    destruct (PostgresApi.limit_reached p) eqn:Hlim; [done|].
    intros _. exists p. split_and!; try done.
    + intros t Ht. unfold PostgresApi.expired in Hexp. rewrite Ht in Hexp. lia.
    + intros l Hl. unfold PostgresApi.limit_reached in Hlim. rewrite Hl in Hlim.
      destruct (Z.eqb_spec l 0); [by left|]. simpl in Hlim. right. lia.
  - intros now code promotions Hnone. unfold PostgresApi.validate_promo_code.
    destruct (first_match _ promotions) as [p|] eqn:Hfind; [|done].
    apply ApiFacts.first_match_Some in Hfind as [Hin HP].
    rewrite Forall_forall in Hnone. by destruct (Hnone p Hin).
Qed.

(** X17.  A promotion created through [admin_promotions] validates at
    once under any spelling that upper-cases to the stored code, with the
    discount and type it was created with, provided it has not expired
    and its limit is not negative; with a negative limit it is answered
    400 "Promo code limit reached" from the start.  Creating a second
    promotion under the same code fails and stores nothing. *)
Theorem create_then_validate g now data promotions spelling :
  (PostgresApi.create_promotion g data promotions).2 = PostgresApi.PromoCreated →
  str_upper spelling = str_upper (default "" (PostgresApi.pm_code data)) →
  (∀ t, PostgresApi.pm_expires data = Some t → now ≤ t) →
  let stored := (PostgresApi.create_promotion g data promotions).1 in
  ((∀ l, PostgresApi.pm_limit data = Some l → 0 ≤ l) →
   PostgresApi.validate_promo_code now (Some spelling) stored
   = PostgresApi.PromoValid (str_upper (default "" (PostgresApi.pm_code data)))
       (default (of_int 0) (PostgresApi.pm_discount data))
       (default "percentage" (PostgresApi.pm_type data))) ∧
  (∀ l, PostgresApi.pm_limit data = Some l → l < 0 →
   PostgresApi.validate_promo_code now (Some spelling) stored
   = PostgresApi.PromoError 400 "Promo code limit reached") ∧
  (∀ g' data', str_upper (default "" (PostgresApi.pm_code data'))
               = str_upper (default "" (PostgresApi.pm_code data)) →
   PostgresApi.create_promotion g' data' stored
   = (stored, PostgresApi.PromoRaised IntegrityError)).
Proof.
  intros Hcreated Hspell Hexp stored. subst stored.
  revert Hcreated. unfold PostgresApi.create_promotion.
  case_bool_decide as Hfresh; simpl; [|done]. intros _.
  set (promo := {| PostgresApi.pr_id := _ |}).
  assert (first_match
            (λ p, PostgresApi.pr_code p = str_upper (default "" (Some spelling)) ∧
                  PostgresApi.pr_status p = "active")
            (promotions ++ [promo]) = Some promo) as Hfind.
  { apply ApiFacts.first_match_unique.
    - apply elem_of_app. right. by apply list_elem_of_singleton.
    - done.
    - intros y Hin [Hcode _].
      apply elem_of_app in Hin as [Hin|Hin];
        [|by apply list_elem_of_singleton in Hin].
      rewrite Forall_forall in Hfresh. destruct (Hfresh y Hin).
      simpl in *. congruence. }
  assert (PostgresApi.expired now promo = false) as Hnot.
  { unfold PostgresApi.expired. simpl.
    destruct (PostgresApi.pm_expires data) as [t|] eqn:Ht; [|done].
    specialize (Hexp t eq_refl). lia. }
  split_and!.
  - intros Hlimit. unfold PostgresApi.validate_promo_code.
    rewrite Hfind, Hnot.
    assert (PostgresApi.limit_reached promo = false) as ->; [|done].
    unfold PostgresApi.limit_reached. simpl.
    destruct (PostgresApi.pm_limit data) as [l|] eqn:Hl; [|done].
    specialize (Hlimit l eq_refl).
    destruct (Z.eqb_spec l 0); simpl; [done|]. lia.
  - intros l Hl Hneg. unfold PostgresApi.validate_promo_code.
    rewrite Hfind, Hnot.
    assert (PostgresApi.limit_reached promo = true) as ->; [|done].
    unfold PostgresApi.limit_reached. simpl. rewrite Hl.
    destruct (Z.eqb_spec l 0); simpl; lia.
  - intros g' data' Hsame. rewrite bool_decide_false; [done|].
    rewrite Forall_app, Forall_singleton. intros [_ Hne]. simpl in Hne.
    by rewrite Hsame in Hne.
Qed.

(** X18.  A support ticket is stored with the status ['open'], the
    priority of the request or ['medium'] when it names none, and an id
    no other ticket has, which is the [ticket_id] of the reply; the
    admin list shows the stored tickets, each as often as it is stored,
    newest first, the new one among them. *)
Theorem ticket_round_trip g now data (tickets : list PostgresApi.ticket) :
  let stored := (PostgresApi.create_support_ticket g now data tickets).1 in
  ∃ t, stored = tickets ++ [t] ∧
    (PostgresApi.create_support_ticket g now data tickets).2
      = pretty (PostgresApi.t_id t) ∧
    Forall (λ t', PostgresApi.t_id t' ≠ PostgresApi.t_id t) tickets ∧
    PostgresApi.t_status t = "open" ∧
    PostgresApi.t_priority t = default "medium" (PostgresApi.tb_priority data) ∧
    PostgresApi.t_created_at t = now ∧
    t ∈ PostgresApi.admin_get_support_tickets stored ∧
    PostgresApi.admin_get_support_tickets stored ≡ₚ stored ∧
    StronglySorted (λ a b, PostgresApi.t_created_at b ≤ PostgresApi.t_created_at a)
                   (PostgresApi.admin_get_support_tickets stored).
Proof.
  intros stored. subst stored. unfold PostgresApi.create_support_ticket. simpl.
  eexists. split_and!; try done.
  - simpl. apply Forall_forall. intros t' Hin Heq.
    assert (PostgresApi.t_id t' ∈ PostgresApi.t_id <$> tickets) as Hid
      by (apply list_elem_of_fmap; by exists t').
    apply (PostgresFacts.nextval_above _ g) in Hid. lia.
  - unfold PostgresApi.admin_get_support_tickets.
    rewrite merge_sort_Permutation. apply elem_of_app. right.
    by apply list_elem_of_singleton.
  - apply merge_sort_Permutation.
  - apply StronglySorted_merge_sort.
    + intros a b c. unfold PostgresApi.later_ticket. lia.
    + intros a b. unfold PostgresApi.later_ticket. lia.
Qed.

End PromotionProperties.

Module ContentFacts.
Import PostgresApi.
Section Facts.
Implicit Types (rows : list site_content) (d : gmap (option string) (option string)).

Lemma dict_app d rows1 rows2 :
  foldl (λ d c, <[sc_key c := sc_value c]> d) d (rows1 ++ rows2)
  = foldl (λ d c, <[sc_key c := sc_value c]> d)
          (foldl (λ d c, <[sc_key c := sc_value c]> d) d rows1) rows2.
Proof. apply foldl_app. Qed.

(** What the dict holds under a key depends on the rows and on what it
    held under that key. *)
Lemma dict_lookup_ext rows : ∀ d d' k,
  d !! k = d' !! k →
  foldl (λ d c, <[sc_key c := sc_value c]> d) d rows !! k
  = foldl (λ d c, <[sc_key c := sc_value c]> d) d' rows !! k.
Proof.
  induction rows as [|c rest IH]; intros d d' k Hk; [done|].
  simpl. apply IH.
  destruct (decide (sc_key c = k)) as [->|Hne].
  - by rewrite !lookup_insert_eq.
  - by rewrite !lookup_insert_ne.
Qed.

Lemma dict_lookup_absent rows : ∀ d k,
  k ∉ sc_key <$> rows →
  foldl (λ d c, <[sc_key c := sc_value c]> d) d rows !! k = d !! k.
Proof.
  induction rows as [|c rest IH]; intros d k Habs; [done|].
  simpl in *. apply not_elem_of_cons in Habs as [Hne Habs].
  rewrite IH by done. by apply lookup_insert_ne.
Qed.

(** The last row with a key decides. *)
Lemma dict_lookup_last d l1 c l2 :
  sc_key c ∉ sc_key <$> l2 →
  foldl (λ d c, <[sc_key c := sc_value c]> d) d (l1 ++ c :: l2) !! sc_key c
  = Some (sc_value c).
Proof.
  intros Habs. rewrite dict_app. simpl.
  rewrite dict_lookup_absent by done. apply lookup_insert_eq.
Qed.

Lemma first_content section rows :
  (section ∉ sc_key <$> rows) ∨
  ∃ l1 c l2, rows = l1 ++ c :: l2 ∧ (section ∉ sc_key <$> l1) ∧ sc_key c = section.
Proof.
  induction rows as [|x rest IH]; [left; apply not_elem_of_nil|].
  destruct (decide (sc_key x = section)) as [Heq|Hne].
  - right. exists [], x, rest. split_and!; [done|apply not_elem_of_nil|done].
  - destruct IH as [Habs|(l1 & c & l2 & -> & Hl1 & Hc)].
    + left. simpl. rewrite not_elem_of_cons. split; [congruence|done].
    + right. exists (x :: l1), c, l2. split_and!; [done| |done].
      simpl. rewrite not_elem_of_cons. split; [congruence|done].
Qed.

Lemma set_content_absent section value now rows :
  section ∉ sc_key <$> rows → set_content section value now rows = (rows, false).
Proof.
  induction rows as [|c rest IH]; [done|]. simpl.
  rewrite not_elem_of_cons. intros [Hne Habs].
  rewrite decide_False by congruence. by rewrite IH.
Qed.

Lemma set_content_present section value now l1 c l2 :
  section ∉ sc_key <$> l1 → sc_key c = section →
  set_content section value now (l1 ++ c :: l2)
  = (l1 ++ {| sc_id := sc_id c; sc_key := section; sc_value := value;
              sc_updated_at := now |} :: l2, true).
Proof.
  intros Hl1 Hc. induction l1 as [|x l1 IH]; simpl.
  - rewrite decide_True by done. by rewrite Hc.
  - simpl in Hl1. apply not_elem_of_cons in Hl1 as [Hne Hl1].
    rewrite decide_False by congruence. by rewrite IH.
Qed.

Lemma put_content_keys g now section value rows :
  NoDup (sc_key <$> rows) → NoDup (sc_key <$> put_content g now section value rows).
Proof.
  intros Hnd. unfold put_content.
  destruct (first_content section rows) as [Habs|(l1 & c & l2 & -> & Hl1 & Hc)].
  - rewrite set_content_absent by done. rewrite fmap_app. simpl.
    apply NoDup_app. split_and!; [done| |apply NoDup_singleton].
    intros x Hx Hx'. apply list_elem_of_singleton in Hx'. by subst.
  - rewrite set_content_present by done.
    rewrite fmap_app in *. simpl in *. by rewrite Hc in Hnd.
Qed.

(** After a PUT the dict holds the value under the section, whatever it
    was, and what it held under every other key. *)
Lemma put_content_lookup g now section value rows k :
  NoDup (sc_key <$> rows) →
  content_dict (put_content g now section value rows) !! k
  = if decide (k = section) then Some value else content_dict rows !! k.
Proof.
  intros Hnd. unfold put_content, content_dict.
  destruct (first_content section rows) as [Habs|(l1 & c & l2 & -> & Hl1 & Hc)].
  - rewrite set_content_absent by done. rewrite dict_app. simpl.
    case_decide as Hk.
    + subst k. apply lookup_insert_eq.
    + by rewrite lookup_insert_ne.
  - rewrite set_content_present by done.
    rewrite fmap_app in Hnd. simpl in Hnd.
    apply NoDup_app in Hnd as (_ & _ & Hnd). apply NoDup_cons in Hnd as [Hl2 _].
    rewrite Hc in Hl2.
    case_decide as Hk.
    + subst k.
      by rewrite (dict_lookup_last _ l1
                    {| sc_id := sc_id c; sc_key := section; sc_value := value;
                       sc_updated_at := now |} l2).
    + rewrite !dict_app. simpl. apply dict_lookup_ext.
      rewrite Hc. by rewrite !lookup_insert_ne.
Qed.

End Facts.
End ContentFacts.

Section ContentProperties.

(** X19.  Site content.  With no row stored, GET shows the nine default
    texts.  A PUT keeps one row per section, and GET after a PUT of a
    known section shows the value that was put, [None] when the request
    carried none (not the default), and every other section as GET
    showed it before. *)
Theorem content_round_trip :
  PostgresApi.get_content []
    = (λ kd, (kd.1, Some kd.2)) <$> PostgresApi.content_defaults ∧
  (∀ g now section value rows,
     NoDup (PostgresApi.sc_key <$> rows) →
     NoDup (PostgresApi.sc_key
              <$> PostgresApi.put_content g now section value rows)) ∧
  (∀ g now section value rows dflt,
     NoDup (PostgresApi.sc_key <$> rows) →
     (section, dflt) ∈ PostgresApi.content_defaults →
     (section, value)
       ∈ PostgresApi.get_content
           (PostgresApi.put_content g now (Some section) value rows)) ∧
  (∀ g now section value rows other shown,
     NoDup (PostgresApi.sc_key <$> rows) →
     Some other ≠ section →
     (other, shown)
       ∈ PostgresApi.get_content (PostgresApi.put_content g now section value rows)
     ↔ (other, shown) ∈ PostgresApi.get_content rows).
Proof.
  split_and!.
  - reflexivity.
  - apply ContentFacts.put_content_keys.
  - intros g now section value rows dflt Hnd Hin. unfold PostgresApi.get_content.
    apply list_elem_of_fmap. exists (section, dflt). split; [|done].
    unfold PostgresApi.content_get.
    rewrite ContentFacts.put_content_lookup by done.
    by rewrite decide_True.
  - intros g now section value rows other shown Hnd Hother.
    unfold PostgresApi.get_content. rewrite !list_elem_of_fmap.
    split; intros ([k dflt] & Heq & Hin); exists (k, dflt); (split; [|done]);
      injection Heq as -> ->; f_equal; unfold PostgresApi.content_get;
      rewrite ContentFacts.put_content_lookup by done;
      by rewrite decide_False.
Qed.

End ContentProperties.

Module SeedFacts.
Section Facts.
Context {F : Type} `{!PyFloat F} `{!Services}.

Lemma top_permutation (l1 l2 : list Z) :
  l1 ≡ₚ l2 → foldr Z.max 0 l1 = foldr Z.max 0 l2.
Proof. induction 1; simpl; lia. Qed.

(** The sequence after an insert under the id it gave. *)
Lemma nextval_insert {A} (m : gmap Z A) g x :
  let n := Postgres.nextval (map_to_list m).*1 g in
  Postgres.nextval (map_to_list (<[n := x]> m)).*1 0 = 1 + n.
Proof.
  intros n.
  assert (m !! n = None) as Hnew.
  { apply eq_None_not_Some. intros [y Hy]. apply elem_of_map_to_list in Hy.
    apply (PostgresFacts.nextval_fresh (map_to_list m).*1 g).
    apply list_elem_of_fmap. by eexists (_, y). }
  unfold Postgres.nextval at 1.
  rewrite (top_permutation _ (n :: (map_to_list m).*1)).
  - subst n. unfold Postgres.nextval. simpl. lia.
  - by rewrite map_to_list_insert.
Qed.

(** [add_products] stores the rows under consecutive ids, from the one
    the sequence gives first. *)
Lemma add_products_keys (new : list (Postgres.product (F:=F))) : ∀ g ps,
  PostgresApi.add_products g ps new
  = list_to_map
      (imap (λ i p, (Postgres.nextval (map_to_list ps).*1 g + Z.of_nat i, p)) new)
    ∪ ps.
Proof.
  induction new as [|p rest IH]; intros g ps.
  { simpl. by rewrite (left_id_L ∅ (∪)). }
  cbn [PostgresApi.add_products]. rewrite IH, nextval_insert.
  set (n := Postgres.nextval (map_to_list ps).*1 g).
  cbn [imap]. rewrite Z.add_0_r, list_to_map_cons.
  rewrite <- insert_union_l, insert_union_r.
  - f_equal. f_equal. apply imap_ext. intros i x _. simpl. f_equal. lia.
  - apply not_elem_of_list_to_map_1. intros Hin.
    apply list_elem_of_fmap in Hin as ([k x] & Hk & Hin). simpl in Hk. subst k.
    apply elem_of_lookup_imap_1 in Hin as (i & y & Heq & _).
    injection Heq as Heq _. lia.
Qed.

Lemma seeded_nonempty g (ps : gmap Z (Postgres.product (F:=F))) :
  (size (PostgresApi.add_products g ps PostgresApi.products_to_seed) =? 0)%nat
  = false.
Proof.
  apply Nat.eqb_neq. apply map_size_ne_0_lookup.
  rewrite add_products_keys.
  unfold PostgresApi.products_to_seed. cbn [fmap list_fmap imap].
  rewrite list_to_map_cons.
  eexists. unfold is_Some. eexists.
  apply lookup_union_Some_l. apply lookup_insert_eq.
Qed.

Lemma sql_admin_registered e k (us : gmap Z Postgres.user) uid
    (ps : gmap Z (Postgres.product (F:=F))) rows os :
  Postgres.email_registered (F:=F) "admin@queenkoba.com"
    {| Postgres.db_users := <[uid := PostgresApi.admin_user e k]> us;
       Postgres.db_products := ps; Postgres.db_cart_items := rows;
       Postgres.db_orders := os |} = true.
Proof.
  unfold Postgres.email_registered. apply bool_decide_eq_true.
  exists uid, (PostgresApi.admin_user e k). split; [apply lookup_insert_eq|done].
Qed.

(** Ordered [insert_many] of documents with distinct new ids stores them
    all. *)
Lemma insert_many_all {A} (docs : list (string * A)) : ∀ m,
  NoDup docs.*1 → Forall (λ k, m !! k = None) docs.*1 →
  MongoApi.insert_many docs m = (list_to_map docs ∪ m, true).
Proof.
  induction docs as [|[k d] rest IH]; intros m Hnd Hnew.
  { simpl. by rewrite (left_id_L ∅ (∪)). }
  simpl in *. apply NoDup_cons in Hnd as [Hk Hnd].
  apply Forall_cons in Hnew as [Hmk Hnew]. rewrite Hmk.
  rewrite IH; [|done|].
  - f_equal. rewrite <- insert_union_l.
    by rewrite insert_union_r by by apply not_elem_of_list_to_map_1.
  - apply Forall_forall. intros k' Hk'. rewrite Forall_forall in Hnew.
    rewrite lookup_insert_ne; [by apply Hnew|]. by intros ->.
Qed.

End Facts.
End SeedFacts.

Section SeedProperties.
Context {F : Type} `{!PyFloat F} `{!Services}.

(** X20.  Relational store: [seed_data] is idempotent, a second run
    changes nothing.  A run on a store without products stores the six
    products, in the order of the seed, under the six consecutive keys
    that follow the last value of the products sequence (the keys 1 to 6
    when the sequence has given none, not after rows were deleted), each
    with [prices] equal to [calculate_prices] of its base price; a run
    on a store with products leaves them as they are.  After a run some
    user has the address [admin@queenkoba.com]. *)
Theorem seed_data_idempotent :
  (∀ e1 e2 (s : Postgres.db (F:=F)),
     PostgresApi.seed_data e2 (PostgresApi.seed_data e1 s)
     = PostgresApi.seed_data e1 s) ∧
  (∀ e (s : Postgres.db (F:=F)),
     Postgres.db_products s = ∅ →
     Postgres.db_products (PostgresApi.seed_data e s)
       = list_to_map
           (imap (λ i p, (Z.of_nat (Postgres.skipped e Postgres.Products)
                          + Z.of_nat (S i), p))
                 PostgresApi.products_to_seed) ∧
     size (Postgres.db_products (PostgresApi.seed_data e s)) = 6%nat ∧
     ∀ k p, Postgres.db_products (PostgresApi.seed_data e s) !! k = Some p →
            Postgres.prices p = calculate_prices (Postgres.base_price_usd p)) ∧
  (∀ e (s : Postgres.db (F:=F)),
     Postgres.db_products s ≠ ∅ →
     Postgres.db_products (PostgresApi.seed_data e s) = Postgres.db_products s) ∧
  (∀ e (s : Postgres.db (F:=F)),
     Postgres.email_registered "admin@queenkoba.com" (PostgresApi.seed_data e s)
     = true).
Proof.
  assert (∀ e (s : Postgres.db (F:=F)),
     Postgres.email_registered "admin@queenkoba.com" (PostgresApi.seed_data e s)
     = true) as Hadmin.
  { intros e s. unfold PostgresApi.seed_data.
    destruct (Postgres.email_registered "admin@queenkoba.com" s) eqn:Hreg.
    - exact Hreg.
    - apply SeedFacts.sql_admin_registered. }
  split_and!; [| | |done].
  - intros e1 e2 s. unfold PostgresApi.seed_data at 1.
    rewrite Hadmin.
    assert ((size (Postgres.db_products (PostgresApi.seed_data e1 s)) =? 0)%nat
            = false) as ->.
    { unfold PostgresApi.seed_data. simpl.
      destruct (size (Postgres.db_products s) =? 0)%nat eqn:Hsize; [|done].
      apply SeedFacts.seeded_nonempty. }
    by destruct (PostgresApi.seed_data e1 s).
  - intros e s Hempty.
    set (g := Z.of_nat (Postgres.skipped e Postgres.Products)).
    assert (Postgres.db_products (PostgresApi.seed_data e s)
            = list_to_map (imap (λ i p, (g + Z.of_nat (S i), p))
                             PostgresApi.products_to_seed)) as Hps.
    { unfold PostgresApi.seed_data. cbn [Postgres.db_products].
      rewrite Hempty.
      change (size (∅ : gmap Z (Postgres.product (F:=F))) =? 0)%nat with true.
      cbv iota. rewrite SeedFacts.add_products_keys, (right_id_L ∅ (∪)).
      rewrite map_to_list_empty. f_equal. apply imap_ext. intros i p _.
      simpl. f_equal. unfold Postgres.nextval. simpl. lia. }
    split; [done|]. rewrite Hps. split.
    + rewrite map_size_list_to_map; [done|].
      unfold PostgresApi.products_to_seed. simpl.
      repeat (apply NoDup_cons; split;
              [rewrite ?elem_of_cons, elem_of_nil; lia|]).
      apply NoDup_nil_2.
    + intros k p Hk. apply elem_of_list_to_map_2 in Hk.
      unfold PostgresApi.products_to_seed in Hk. simpl in Hk.
      repeat (apply elem_of_cons in Hk as [Heq|Hk]; [by simplify_eq|]).
      by apply elem_of_nil in Hk.
  - intros e s Hne. unfold PostgresApi.seed_data. simpl.
    apply map_size_non_empty_iff in Hne.
    by destruct (Nat.eqb_spec (size (Postgres.db_products s)) 0).
Qed.

(** X21.  Document store: [seed_products] looks for the admin under the
    address [admin@queenkoba.com] and stores it under
    [info@queenkoba.com].  So on a store that has products and no user
    with the first address, every run (with a new id) adds one more user
    with role ['admin'] and the second address, and the store after the
    run is again such a store: two runs leave two admins. *)
Theorem seed_products_adds_admin e (s : Mongo.db (F:=F)) :
  Mongo.db_products s ≠ ∅ →
  Mongo.email_registered "admin@queenkoba.com" s = false →
  Mongo.db_users s !! MongoApi.seed_admin_id e = None →
  let s' := MongoApi.seed_products e s in
  Mongo.db_users s'
    = <[MongoApi.seed_admin_id e := MongoApi.admin_user e 0]> (Mongo.db_users s) ∧
  Mongo.role (MongoApi.admin_user e 0) = "admin" ∧
  Mongo.email (MongoApi.admin_user e 0) = "info@queenkoba.com" ∧
  size (Mongo.db_users s') = S (size (Mongo.db_users s)) ∧
  Mongo.db_products s' = Mongo.db_products s ∧
  Mongo.db_orders s' = Mongo.db_orders s ∧
  Mongo.db_products s' ≠ ∅ ∧
  Mongo.email_registered "admin@queenkoba.com" s' = false.
Proof.
  intros Hne Hreg Hfresh s'. subst s'. unfold MongoApi.seed_products.
  apply map_size_non_empty_iff in Hne as Hsize.
  destruct (Nat.eqb_spec (size (Mongo.db_products s)) 0) as [|_]; [done|].
  simpl. unfold Mongo.email_registered in Hreg. rewrite Hreg, Hfresh. simpl.
  split_and!; try done.
  - by apply map_size_insert_None.
  - unfold Mongo.email_registered. simpl.
    apply bool_decide_eq_false. apply bool_decide_eq_false in Hreg.
    intros (k & u & Hk & Hmail). apply Hreg.
    apply lookup_insert_Some in Hk as [[_ <-]|[_ Hk]]; [done|].
    by exists k, u.
Qed.

(** X22.  Document store: [seed_products] on a store without products,
    with six distinct generated ids, stores the six products, each with
    [prices] equal to [calculate_prices] of its base price, under those
    ids. *)
Theorem seed_products_prices e (s : Mongo.db (F:=F)) :
  Mongo.db_products s = ∅ →
  NoDup (MongoApi.seed_product_id e <$> seq 0 6) →
  let s' := MongoApi.seed_products e s in
  (∀ i p, MongoApi.products_to_seed !! i = Some p →
          Mongo.db_products s' !! MongoApi.seed_product_id e i = Some p) ∧
  size (Mongo.db_products s') = 6%nat ∧
  ∀ k p, Mongo.db_products s' !! k = Some p →
         Mongo.prices p = calculate_prices (Mongo.base_price_usd p).
Proof.
  intros Hempty Hnd s'.
  set (docs := imap (λ i p, (MongoApi.seed_product_id e i, p))
                 (MongoApi.products_to_seed (F:=F))).
  assert (docs.*1 = MongoApi.seed_product_id e <$> seq 0 6) as Hkeys by done.
  assert (NoDup docs.*1) as Hnd' by by rewrite Hkeys.
  assert (Mongo.db_products s' = list_to_map docs) as Hps.
  { subst s'. unfold MongoApi.seed_products. rewrite Hempty.
    change (size (∅ : gmap string (Mongo.product (F:=F))) =? 0)%nat with true.
    cbv iota. fold docs.
    rewrite (SeedFacts.insert_many_all docs ∅); [|done|by apply Forall_forall].
    rewrite (right_id_L ∅ (∪)). cbn.
    by repeat case_match. }
  rewrite Hps. split_and!.
  - intros i p Hi. apply elem_of_list_to_map_1; [done|].
    by apply (elem_of_lookup_imap_2 (λ i p, (MongoApi.seed_product_id e i, p))).
  - by rewrite map_size_list_to_map.
  - intros k p Hk. apply elem_of_list_to_map_2 in Hk.
    subst docs. unfold MongoApi.products_to_seed in Hk. simpl in Hk.
    repeat (apply elem_of_cons in Hk as [Heq|Hk]; [by simplify_eq|]).
    by apply elem_of_nil in Hk.
Qed.

End SeedProperties.

Module CodeFacts.

Lemma upper_ascii_idemp c : upper_ascii (upper_ascii c) = upper_ascii c.
Proof. by destruct c as [[] [] [] [] [] [] [] []]. Qed.

Lemma upper_idemp s : upper (upper s) = upper s.
Proof.
  induction s as [|c s IH]; [done|].
  cbn [upper]. by rewrite upper_ascii_idemp, IH.
Qed.

Lemma upper_length s : String.length (upper s) = String.length s.
Proof. induction s as [|c s IH]; [done|]. cbn [upper String.length]. by rewrite IH. Qed.

Lemma prefix_length n : ∀ s,
  String.length (substring 0 n s) = Nat.min n (String.length s).
Proof.
  induction n as [|n IH]; intros [|c s]; try done.
  cbn [substring String.length]. by rewrite IH.
Qed.

End CodeFacts.

Section CodeProperties.
Context {F : Type} `{!PyFloat F} `{!Services}.

(** X23.  The order code [str(uuid.uuid4())[:8].upper()]: it has the
    length of its argument up to eight characters, upper-casing it again
    changes nothing, and it depends on the first eight characters
    only. *)
Theorem order_code_shape :
  (∀ uuid, String.length (order_code uuid) = Nat.min 8 (String.length uuid)) ∧
  (∀ uuid, upper (order_code uuid) = order_code uuid) ∧
  (∀ uuid rest, String.length uuid = 8%nat →
                order_code (uuid +:+ rest) = upper uuid).
Proof.
  unfold order_code. split_and!.
  - intros uuid. by rewrite CodeFacts.upper_length, CodeFacts.prefix_length.
  - intros uuid. apply CodeFacts.upper_idemp.
  - intros uuid rest Hlen.
    do 9 (destruct uuid as [|? uuid]; try done).
    simpl. by destruct rest.
Qed.

(** X24.  Order codes that collide.  Relational store: [orders.order_id]
    is unique, so [checkout] keeps the codes of the stored orders
    pairwise distinct, and a checkout whose new code is the code of a
    stored order writes nothing and is not answered 200.  Document store:
    the code is never compared with the stored ones, so a checkout
    answered 200 whose code is that of a stored order leaves that order
    in place and stores a second order with the same code. *)
Theorem order_code_collisions :
  (∀ e uid data (s : Postgres.db (F:=F)),
     NoDup (Postgres.order_id <$> Postgres.db_orders s) →
     NoDup (Postgres.order_id
              <$> Postgres.db_orders (Postgres.checkout e uid data s).1)) ∧
  (∀ e uid data (s : Postgres.db (F:=F)),
     order_code (Postgres.uuid4 e) ∈ Postgres.order_id <$> Postgres.db_orders s →
     (Postgres.checkout e uid data s).1 = s ∧
     Postgres.status (Postgres.checkout e uid data s).2 ≠ 200) ∧
  (∀ e uid data (s : Mongo.db (F:=F)) k o,
     Mongo.status (Mongo.checkout e uid data s).2 = 200 →
     Mongo.db_orders s !! k = Some o →
     Mongo.order_id o = order_code (Mongo.uuid4 e) →
     let s' := (Mongo.checkout e uid data s).1 in
     k ≠ Mongo.inserted_id e ∧
     Mongo.db_orders s' !! k = Some o ∧
     ∃ o', Mongo.db_orders s' !! Mongo.inserted_id e = Some o' ∧
           Mongo.order_id o' = Mongo.order_id o).
Proof.
  split_and!.
  - intros e uid data s Hnd.
    destruct (decide (Postgres.status (Postgres.checkout e uid data s).2 = 200))
      as [Hst|Hst].
    + destruct (PostgresFacts.sql_checkout_ok_inv e uid data s _ _
                  (surjective_pairing _) Hst) as (Hne & Hall & Hfits & Huniq & Huser).
      rewrite (PostgresFacts.sql_checkout_run e uid data s) by done.
      cbn [fst Postgres.db_orders]. rewrite fmap_app. cbn [fmap list_fmap].
      apply NoDup_app. split_and!; [done| |apply NoDup_singleton].
      intros c Hc ->%list_elem_of_singleton.
      apply list_elem_of_fmap in Hc as (o & Ho & Hin).
      rewrite Forall_forall in Huniq. by apply (Huniq o Hin).
    + by rewrite FrameFacts.sql_checkout_failed.
  - intros e uid data s Hin.
    assert (Postgres.status (Postgres.checkout e uid data s).2 ≠ 200) as Hst.
    { intros Hst.
      destruct (PostgresFacts.sql_checkout_ok_inv e uid data s _ _
                  (surjective_pairing _) Hst) as (_ & _ & _ & Huniq & _).
      apply list_elem_of_fmap in Hin as (o & Ho & Hin).
      rewrite Forall_forall in Huniq. by apply (Huniq o Hin). }
    split; [|done].
    by apply FrameFacts.sql_checkout_failed.
  - intros e uid data s k o Hst Hk Hcode s'. subst s'.
    destruct (MongoFacts.checkout_ok_inv e uid data s _ _ (surjective_pairing _) Hst)
      as (uoid & u & Huoid & Hu & Hne & Hwf & Hfresh).
    rewrite (MongoFacts.checkout_run e uid data s uoid u) by done.
    cbn [fst Mongo.db_orders].
    assert (k ≠ Mongo.inserted_id e) as Hk' by (intros ->; congruence).
    split_and!; [done|by rewrite lookup_insert_ne|].
    eexists. split; [apply lookup_insert_eq|]. by rewrite Hcode.
Qed.

End CodeProperties.

Section PaymentProperties.
Context {F : Type} `{!PyFloat F}.

(** X25.  Payment methods by country.  Document store: each of the four
    countries that [calculate_prices] prices for has methods, card
    payment among them, and every other country gets the empty list.
    Relational store: only Kenya and Uganda have methods, every other
    country (Burundi and DRC Congo included, which are priced for) gets
    the empty list, and each method offered is one the document store
    offers for that country under the same name and code. *)
Theorem payment_methods_by_country :
  (∀ (p : F) cur pr,
     calculate_prices p !! cur = Some pr →
     MongoApi.PaymentMethod "Visa/Mastercard" "card" "Credit/Debit card"
       ∈ MongoApi.get_payment_methods (country pr)) ∧
  (∀ c, c ∉ ["Kenya"; "Uganda"; "Burundi"; "DRC Congo"] →
        MongoApi.get_payment_methods c = []) ∧
  (∀ c, c ∉ ["Kenya"; "Uganda"] → PostgresApi.get_payment_methods c = []) ∧
  (∀ c nm code,
     (nm, code) ∈ PostgresApi.get_payment_methods c →
     ∃ d, MongoApi.PaymentMethod nm code d ∈ MongoApi.get_payment_methods c).
Proof.
  split_and!.
  - intros p cur pr. unfold calculate_prices. simpl.
    destruct (decide (cur = "CDF")) as [->|?];
      [intros [= <-]; vm_compute; set_solver|].
    destruct (decide (cur = "BIF")) as [->|?];
      [intros [= <-]; vm_compute; set_solver|].
    destruct (decide (cur = "UGX")) as [->|?];
      [intros [= <-]; vm_compute; set_solver|].
    destruct (decide (cur = "KES")) as [->|?];
      [intros [= <-]; vm_compute; set_solver|].
    by rewrite !lookup_insert_ne, lookup_empty.
  - intros c Hc. unfold MongoApi.get_payment_methods, MongoApi.payment_methods.
    simpl. rewrite !lookup_insert_ne, lookup_empty; set_solver.
  - intros c Hc.
    unfold PostgresApi.get_payment_methods, PostgresApi.payment_methods.
    simpl. rewrite !lookup_insert_ne, lookup_empty; set_solver.
  - intros c nm code.
    unfold PostgresApi.get_payment_methods, PostgresApi.payment_methods.
    simpl.
    destruct (decide (c = "Kenya")) as [->|?].
    { rewrite lookup_insert_eq. simpl. intros Hin.
      repeat (apply elem_of_cons in Hin as [Heq|Hin];
              [simplify_eq; eexists; apply list_elem_of_In; vm_compute;
               repeat first [left; reflexivity | right]|]).
      by apply elem_of_nil in Hin. }
    rewrite lookup_insert_ne by done.
    destruct (decide (c = "Uganda")) as [->|?].
    { rewrite lookup_insert_eq. simpl. intros Hin.
      repeat (apply elem_of_cons in Hin as [Heq|Hin];
              [simplify_eq; eexists; apply list_elem_of_In; vm_compute;
               repeat first [left; reflexivity | right]|]).
      by apply elem_of_nil in Hin. }
    rewrite lookup_insert_ne, lookup_empty by done. simpl.
    by intros ?%elem_of_nil.
Qed.

End PaymentProperties.

(** * Runs of the further properties *)

Module StoreFacts.

(** A field that takes pairwise distinct values on the rows of a table
    identifies the row. *)
Lemma distinct_rows `{Countable K} {A B} (f : A → B) (m : gmap K A) :
  NoDup (f <$> (map_to_list m).*2) →
  ∀ k k' u u', m !! k = Some u → m !! k' = Some u' → f u = f u' → k = k'.
Proof.
  intros Hnd k k' u u' Hk Hk' Hf.
  apply elem_of_map_to_list, list_elem_of_lookup in Hk as [i Hi].
  apply elem_of_map_to_list, list_elem_of_lookup in Hk' as [j Hj].
  assert (i = j) as ->.
  { apply (NoDup_lookup _ i j (f u) Hnd).
    - by rewrite !list_lookup_fmap, Hi.
    - by rewrite !list_lookup_fmap, Hj, Hf. }
  congruence.
Qed.

End StoreFacts.

Module MoreRuns.
Import Exact Sample Fixtures.
#[local] Existing Instance services.
#[local] Existing Instance bcrypt.
#[local] Existing Instance pystr.

Lemma register_then_login_witness :
  MongoApi.login (m_env 300)
    (MongoApi.LoginBody (Some "bob@example.com") (Some "secret")) m_registered
  = MongoApi.LoggedIn
      "token:999999999999999999999999:300:3f2a9c1e-0b7d-4c55-9a10-6e2f8d4b7c33"
      new_id "bob" "bob@example.com" "Kenya" "KES" "customer".
Proof.
  assert (Mongo.status (Mongo.register (m_env 100) (m_register None) (m_store [])).2
          = 201) as Hst by (vm_compute; reflexivity).
  assert (checkpw "secret" (hashpw "secret" "salt") = true) as Hpw
    by (vm_compute; reflexivity).
  etrans;
    [exact (register_then_login (m_env 100) (m_env 300) (m_register None)
              (m_store []) Hst Hpw)|].
  vm_compute. reflexivity.
Defined.

Lemma signup_then_login_witness :
  (Postgres.signup (p_env 100) (p_signup None) (p_store [])).2
  = Postgres.SignedUp "token:2:102:3f2a9c1e-0b7d-4c55-9a10-6e2f8d4b7c33"
      "2" "Bob" "bob@example.com" "0711" ∧
  PostgresApi.login (p_env 300)
    (PostgresApi.LoginBody (Some "bob@example.com") (Some "secret")) p_registered
  = PostgresApi.LoggedIn "token:2:300:3f2a9c1e-0b7d-4c55-9a10-6e2f8d4b7c33"
      "2" (Some "Bob") "bob@example.com" "0711".
Proof.
  assert ((Postgres.signup (p_env 100) (p_signup None) (p_store [])).2
          = Postgres.SignedUp "token:2:102:3f2a9c1e-0b7d-4c55-9a10-6e2f8d4b7c33"
              "2" "Bob" "bob@example.com" "0711")
    as Hrun by (vm_compute; reflexivity).
  split; [exact Hrun|].
  assert ("bob@example.com" ≠ "") as Hmail by discriminate.
  assert (Postgres.sb_password (p_signup None) ≠ Some "") as Hpw by discriminate.
  assert (checkpw "secret" (hashpw "secret" "salt") = true) as Hcheck
    by (vm_compute; reflexivity).
  etrans;
    [exact (signup_then_login (p_env 100) (p_env 300) (p_signup None) (p_store [])
              _ "2" "Bob" "bob@example.com" "0711" Hrun Hmail Hpw Hcheck)|].
  vm_compute. reflexivity.
Defined.

Lemma login_outcomes_witness :
  MongoApi.login (m_env 300) (MongoApi.LoginBody None (Some "secret")) m_registered
    = MongoApi.AuthError 400 "Email and password required" ∧
  MongoApi.login (m_env 300)
    (MongoApi.LoginBody (Some "zed@example.com") (Some "secret")) m_registered
    = MongoApi.AuthError 401 "Invalid credentials" ∧
  ∃ uid u, Mongo.db_users m_registered !! uid = Some u ∧
           Mongo.email u = "bob@example.com" ∧
           checkpw "secret" (Mongo.password_hash u) = true.
Proof.
  destruct (login_outcomes (F:=Q)) as (Hmissing & Hunknown & Hok).
  split_and!.
  - assert (truthy_str None && truthy_str (Some "secret") = false) as Hbody
      by reflexivity.
    exact (Hmissing (m_env 300) (MongoApi.LoginBody None (Some "secret"))
             m_registered Hbody).
  - assert (Mongo.email_registered "zed@example.com" m_registered = false) as Hnew
      by (vm_compute; reflexivity).
    assert ("zed@example.com" ≠ "") as Hmail by discriminate.
    assert ("secret" ≠ "") as Hpw by discriminate.
    exact (Hunknown (m_env 300) "zed@example.com" "secret" m_registered
             Hmail Hpw Hnew).
  - assert (MongoApi.auth_status
              (MongoApi.login (m_env 300)
                 (MongoApi.LoginBody (Some "bob@example.com") (Some "secret"))
                 m_registered) = 200) as Hst by (vm_compute; reflexivity).
    destruct (Hok _ _ _ Hst)
      as (mail & pw & uid & u & Hmail & Hpw & Hu & Hm & Hcheck & _).
    injection Hmail as <-. injection Hpw as <-.
    exists uid, u. split_and!; [exact Hu|exact Hm|exact Hcheck].
Defined.

Lemma login_roles_disjoint_witness :
  PostgresApi.auth_status
    (PostgresApi.login (p_env 300)
       (PostgresApi.LoginBody (Some "bob@example.com") (Some "secret")) p_seeded)
  = 200 ∧
  PostgresApi.auth_status
    (PostgresApi.admin_login (p_env 400)
       (PostgresApi.LoginBody (Some "bob@example.com") (Some "secret")) p_seeded)
  ≠ 200.
Proof.
  destruct (login_roles_disjoint (F:=Q) p_seeded) as (_ & _ & Hapart).
  assert (PostgresApi.auth_status
            (PostgresApi.login (p_env 300)
               (PostgresApi.LoginBody (Some "bob@example.com") (Some "secret"))
               p_seeded) = 200) as Hst by (vm_compute; reflexivity).
  split; [exact Hst|].
  assert (NoDup (Postgres.email <$> (map_to_list (Postgres.db_users p_seeded)).*2))
    as Hnd by (apply (bool_decide_unpack _); vm_compute; exact I).
  exact (Hapart (StoreFacts.distinct_rows Postgres.email _ Hnd)
           (p_env 300) (p_env 400) _ _ eq_refl Hst).
Defined.

Lemma admin_login_requires_admin_witness :
  ∃ uid u, Mongo.db_users m_seeded !! uid = Some u ∧ Mongo.role u = "admin" ∧
           Mongo.email u = "info@queenkoba.com".
Proof.
  assert (MongoApi.auth_status
            (MongoApi.admin_login (m_env 300)
               (MongoApi.LoginBody (Some "info@queenkoba.com") (Some "admin123"))
               m_seeded) = 200) as Hst by (vm_compute; reflexivity).
  destruct (admin_login_requires_admin (m_env 300) (m_env 400) _ _ Hst)
    as (uid & u & Hu & Hrole & Hmail & _).
  injection Hmail as Hmail.
  exists uid, u. split_and!; [exact Hu|exact Hrole|symmetry; exact Hmail].
Defined.


Lemma checkout_then_get_order_witness :
  MongoApi.order_status_code (MongoApi.get_order ann_id new_id m_ordered) = 200 ∧
  MongoApi.get_order toner_id new_id m_ordered
    = MongoApi.OrderError 404 "Order not found".
Proof.
  assert (Mongo.status
            (Mongo.checkout (m_env 100) ann_id m_checkout (m_store mixed_cart)).2
          = 200) as Hst by (vm_compute; reflexivity).
  assert (ObjectId (Mongo.inserted_id (m_env 100))
          = Some (Mongo.inserted_id (m_env 100))) as Hid
    by (vm_compute; reflexivity).
  destruct (checkout_then_get_order (m_env 100) ann_id m_checkout
              (m_store mixed_cart) Hst Hid)
    as (o & uoid & u & _ & _ & _ & _ & Hget & Hothers).
  split.
  - exact (f_equal MongoApi.order_status_code Hget).
  - assert (toner_id ≠ ann_id) as Hne by discriminate.
    exact (Hothers toner_id Hne).
Defined.

Lemma get_orders_own_newest_first_witness :
  (∃ o, (new_id, o) ∈ MongoApi.get_orders ann_id m_ordered) ∧
  NoDup (MongoApi.get_orders ann_id m_ordered).
Proof.
  destruct (proj1 (get_orders_own_newest_first (F:=Q)) ann_id m_ordered)
    as (Hmem & Hnd & _).
  split; [|exact Hnd].
  assert (∃ o, Mongo.db_orders m_ordered !! new_id = Some o ∧
               Mongo.o_user_id o = ann_id) as (o & Ho)
    by (vm_compute; eexists; split; reflexivity).
  exists o. exact (proj2 (Hmem new_id o) Ho).
Defined.

Lemma get_product_outcomes_witness :
  MongoApi.get_product "xyz" (m_store [])
    = MongoApi.ProductError 400 "Invalid product ID" ∧
  MongoApi.get_product gone_id (m_store [])
    = MongoApi.ProductError 404 "Product not found" ∧
  MongoApi.get_product cream_id (m_store [])
    = MongoApi.ProductFound cream_id (m_product "Cream" (10 # 1)).
Proof.
  destruct (get_product_outcomes (F:=Q)) as (Hbad & Hgone & Hlisted).
  split_and!.
  - assert (ObjectId "xyz" = None) as Hxyz by (vm_compute; reflexivity).
    exact (Hbad "xyz" (m_store []) Hxyz).
  - assert (ObjectId gone_id = Some gone_id) as Hid by (vm_compute; reflexivity).
    assert (Mongo.db_products (m_store []) !! gone_id = None) as Hnone
      by (vm_compute; reflexivity).
    exact (Hgone gone_id gone_id (m_store []) Hid Hnone).
  - assert (MongoApi.get_products (m_store [])
            = MongoApi.ProductList (length (map_to_list m_products))
                                   (map_to_list m_products)) as Hlist
      by reflexivity.
    assert ((cream_id, m_product "Cream" (10 # 1)) ∈ map_to_list m_products) as Hin
      by (apply elem_of_map_to_list; vm_compute; reflexivity).
    assert (ObjectId cream_id = Some cream_id) as Hid by (vm_compute; reflexivity).
    exact (proj2 (Hlisted (m_store []) _ _ cream_id (m_product "Cream" (10 # 1))
                    Hlist) Hin Hid).
Defined.

Lemma second_checkout_rejected_witness :
  Mongo.checkout (m_env 200) ann_id m_checkout m_ordered
    = (m_ordered, Mongo.Error 400 "Cart is empty") ∧
  Postgres.checkout (p_env 200) 1 p_checkout p_ordered
    = (p_ordered, Postgres.Error 400 "Cart is empty").
Proof.
  split.
  - assert (Mongo.status
              (Mongo.checkout (m_env 100) ann_id m_checkout (m_store mixed_cart)).2
            = 200) as Hst by (vm_compute; reflexivity).
    exact (proj1 second_checkout_rejected (m_env 100) (m_env 200) ann_id
             m_checkout m_checkout (m_store mixed_cart) Hst).
  - assert (Postgres.status
              (Postgres.checkout (p_env 100) 1 p_checkout (p_store p_cart)).2
            = 200) as Hst by (vm_compute; reflexivity).
    exact (proj2 second_checkout_rejected (p_env 100) (p_env 200) 1
             p_checkout p_checkout (p_store p_cart) Hst).
Defined.

Lemma cart_total_is_order_total_witness :
  (∃ views local currency sym,
     Mongo.get_cart ann_id (m_store mixed_cart)
     = (m_store mixed_cart, Mongo.CartTotals views (25 # 1) local currency sym)) ∧
  (∃ views,
     Postgres.get_cart 1 (p_store p_cart)
     = (p_store p_cart, Postgres.CartTotals views (25 # 1))).
Proof.
  split.
  - assert (Mongo.status
              (Mongo.checkout (m_env 100) ann_id m_checkout (m_store mixed_cart)).2
            = 200) as Hst by (vm_compute; reflexivity).
    destruct (proj1 cart_total_is_order_total (m_env 100) ann_id m_checkout
                (m_store mixed_cart) Hst)
      as (code & number & total & n & views & local & currency & sym & Hrun & Hcart).
    vm_compute in Hrun. injection Hrun as _ _ <- _.
    exists views, local, currency, sym. exact Hcart.
  - assert (Postgres.status
              (Postgres.checkout (p_env 100) 1 p_checkout (p_store p_cart)).2
            = 200) as Hst by (vm_compute; reflexivity).
    destruct (proj2 cart_total_is_order_total (p_env 100) 1 p_checkout
                (p_store p_cart) Hst) as (_ & code & views & _ & Hcart).
    exists views. etrans; [exact Hcart|]. vm_compute. reflexivity.
Defined.

Lemma add_then_remove_witness :
  Mongo.cart <$>
    Mongo.db_users
      (Mongo.remove_from_cart (m_env 200) ann_id cream_id
         (Mongo.add_to_cart (m_env 100) ann_id
            (Mongo.CartBody (Some cream_id) (Some 3))
            (m_store [ Mongo.CartItem toner_id 1 3 ])).1).1
    !! ann_id
  = Some [ Mongo.CartItem toner_id 1 3 ].
Proof.
  assert (Mongo.status
            (Mongo.add_to_cart (m_env 100) ann_id
               (Mongo.CartBody (Some cream_id) (Some 3))
               (m_store [ Mongo.CartItem toner_id 1 3 ])).2 = 200) as Hst
    by (vm_compute; reflexivity).
  assert (ObjectId ann_id = Some ann_id) as Hid by (vm_compute; reflexivity).
  assert (Mongo.db_users (m_store [ Mongo.CartItem toner_id 1 3 ]) !! ann_id
          = Some (ann [ Mongo.CartItem toner_id 1 3 ])) as Hu
    by (vm_compute; reflexivity).
  assert (cream_id ∉ Mongo.product_id <$> Mongo.cart (ann [ Mongo.CartItem toner_id 1 3 ]))
    as Hnew by decided.
  exact (proj2 (add_then_remove (m_env 100) (m_env 200) ann_id cream_id 3
                  (m_store [ Mongo.CartItem toner_id 1 3 ]) ann_id
                  (ann [ Mongo.CartItem toner_id 1 3 ]) Hst Hid Hu) Hnew).
Defined.

Lemma cart_requests_touch_caller_only_witness :
  Mongo.db_users
    (Mongo.add_to_cart (m_env 300) ann_id
       (Mongo.CartBody (Some cream_id) (Some 1)) m_registered).1 !! new_id
  = Mongo.db_users m_registered !! new_id ∧
  Postgres.cart_of 2
    (Postgres.checkout (p_env 300) 1 p_checkout (p_store p_cart)).1
  = Postgres.cart_of 2 (p_store p_cart).
Proof.
  destruct (cart_requests_touch_caller_only (F:=Q)) as (Husers & _ & Hcarts & _).
  split.
  - assert (ObjectId ann_id ≠ Some new_id) as Hne
      by (vm_compute; discriminate).
    exact (proj1 (Husers (m_env 300) ann_id cream_id
                    (Mongo.CartBody (Some cream_id) (Some 1)) m_checkout
                    m_registered new_id Hne)).
  - assert (2 ≠ 1) as Hne by lia.
    exact (proj2 (Hcarts (p_env 300) 1 (Postgres.CartBody (Some 1) (Some 1))
                    p_checkout (p_store p_cart) 2 Hne)).
Defined.

Lemma registration_keeps_addresses_unique_witness :
  Mongo.status (Mongo.register (m_env 200) (m_register None) m_registered).2 = 400 ∧
  Postgres.status (Postgres.signup (p_env 200) (p_signup None) p_registered).2 = 400 ∧
  (∀ k k' u u',
     Mongo.db_users m_registered !! k = Some u →
     Mongo.db_users m_registered !! k' = Some u' →
     Mongo.email u = Mongo.email u' → k = k').
Proof.
  destruct (registration_keeps_addresses_unique (F:=Q))
    as (Hkept & Hagain & _ & Hsql).
  split_and!.
  - assert (Mongo.status (Mongo.register (m_env 100) (m_register None) (m_store [])).2
            = 201) as Hst by (vm_compute; reflexivity).
    exact (proj2 (Hagain (m_env 100) (m_env 200) (m_register None)
                    (m_register None) (m_store []) Hst eq_refl)).
  - assert (Postgres.status
              (Postgres.signup (p_env 100) (p_signup None) (p_store [])).2 = 201)
      as Hst by (vm_compute; reflexivity).
    exact (proj2 (Hsql (p_env 100) (p_env 200) (p_signup None) (p_signup None)
                    (p_store []) Hst eq_refl)).
  - assert (NoDup (Mongo.email <$> (map_to_list (Mongo.db_users (m_store []))).*2))
      as Hnd by decided.
    exact (proj1 (Hkept (m_env 100) (m_register None) (m_store []))
             (StoreFacts.distinct_rows Mongo.email _ Hnd)).
Defined.

Lemma change_password_outcomes_witness :
  PostgresApi.admin_change_password (p_env 200) 9
      (PostgresApi.PasswordBody (Some "admin123") (Some "newpass")) p_seeded
    = (p_seeded, PostgresApi.AuthError 404 "Not Found") ∧
  (∃ u, Postgres.db_users p_seeded !! 3 = Some u ∧
        PostgresApi.admin_change_password (p_env 200) 3
          (PostgresApi.PasswordBody (Some "guess") (Some "newpass")) p_seeded
        = (p_seeded, PostgresApi.AuthError 401 "Current password is incorrect")) ∧
  (∃ u', Postgres.db_users
           (PostgresApi.admin_change_password (p_env 200) 3
              (PostgresApi.PasswordBody (Some "admin123") (Some "newpass"))
              p_seeded).1 !! 3 = Some u' ∧
         Postgres.password_hash u' = hashpw "newpass" "salt").
Proof.
  destruct (change_password_outcomes (F:=Q)) as (Hunknown & Hwrong & Hok).
  assert (∃ u, Postgres.db_users p_seeded !! 3 = Some u ∧
               checkpw "guess" (Postgres.password_hash u) = false) as (u & Hu & Hguess)
    by (vm_compute; eexists; split; reflexivity).
  split_and!.
  - assert (Postgres.db_users p_seeded !! 9 = None) as Hnone
      by (vm_compute; reflexivity).
    exact (Hunknown (p_env 200) 9 _ p_seeded Hnone).
  - exists u. split; [exact Hu|].
    exact (Hwrong (p_env 200) 3 "guess" (Some "newpass") p_seeded u Hu Hguess).
  - assert (PostgresApi.auth_status
              (PostgresApi.admin_change_password (p_env 200) 3
                 (PostgresApi.PasswordBody (Some "admin123") (Some "newpass"))
                 p_seeded).2 = 200) as Hst by (vm_compute; reflexivity).
    destruct (Hok (p_env 200) 3 _ p_seeded Hst)
      as (v & v' & new & _ & Hnew & Hv' & Hhash & _).
    injection Hnew as <-.
    exists v'. split; [exact Hv'|exact Hhash].
Defined.

Lemma validate_promo_code_sound_witness :
  (∃ p, p ∈ promotions ∧ PostgresApi.pr_code p = "GLOW10" ∧
        PostgresApi.pr_status p = "active") ∧
  PostgresApi.validate_promo_code 100 (Some "other") promotions
    = PostgresApi.PromoError 404 "Invalid promo code".
Proof.
  destruct (validate_promo_code_sound (F:=Q)) as (Hvalid & Hnone).
  split.
  - assert (PostgresApi.promo_status
              (PostgresApi.validate_promo_code 100 (Some "Glow10") promotions) = 200)
      as Hst by (vm_compute; reflexivity).
    destruct (Hvalid 100 (Some "Glow10") promotions Hst)
      as (p & Hin & Hcode & Hactive & _).
    exists p. split_and!; [exact Hin|exact Hcode|exact Hactive].
  - assert (Forall (λ p, ¬ (PostgresApi.pr_code p = str_upper (default "" (Some "other")) ∧
                            PostgresApi.pr_status p = "active")) promotions)
      as Hother by decided.
    exact (Hnone 100 (Some "other") promotions Hother).
Defined.

Lemma create_then_validate_witness :
  PostgresApi.validate_promo_code 100 (Some "Glow10") promotions
    = PostgresApi.PromoValid "GLOW10" (10 # 1) "percentage" ∧
  PostgresApi.create_promotion 0 glow10 promotions
    = (promotions, PostgresApi.PromoRaised IntegrityError).
Proof.
  assert ((PostgresApi.create_promotion 0 glow10 []).2 = PostgresApi.PromoCreated)
    as Hrun by (vm_compute; reflexivity).
  assert (str_upper "Glow10" = str_upper (default "" (PostgresApi.pm_code glow10)))
    as Hcode by (vm_compute; reflexivity).
  assert (∀ t, PostgresApi.pm_expires glow10 = Some t → 100 ≤ t) as Hlive
    by (intros t Ht; injection Ht as <-; lia).
  destruct (create_then_validate 0%nat 100 glow10 [] "Glow10" Hrun Hcode Hlive)
    as (Hvalid & _ & Hagain).
  split.
  - assert (∀ l, PostgresApi.pm_limit glow10 = Some l → 0 ≤ l) as Hlimit
      by (intros l Hl; injection Hl as <-; lia).
    exact (Hvalid Hlimit).
  - exact (Hagain 0%nat glow10 eq_refl).
Defined.

Lemma content_round_trip_witness :
  ("hero_title", Some "Bye")
    ∈ PostgresApi.get_content
        (PostgresApi.put_content 0 2 (Some "hero_title") (Some "Bye") content_rows) ∧
  NoDup (PostgresApi.sc_key
           <$> PostgresApi.put_content 0 2 (Some "hero_title") (Some "Bye")
                 content_rows).
Proof.
  destruct content_round_trip as (_ & Hkeys & Hput & _).
  assert (NoDup (PostgresApi.sc_key <$> content_rows)) as Hnd by decided.
  split.
  - assert (("hero_title", "Queen Koba Skincare") ∈ PostgresApi.content_defaults)
      as Hknown by decided.
    exact (Hput 0%nat 2 "hero_title" (Some "Bye") content_rows
             "Queen Koba Skincare" Hnd Hknown).
  - exact (Hkeys 0%nat 2 (Some "hero_title") (Some "Bye") content_rows Hnd).
Defined.

Lemma seed_data_idempotent_witness :
  Postgres.db_products (PostgresApi.seed_data (p_env 0) (p_store [])) = p_products ∧
  size (Postgres.db_products (PostgresApi.seed_data (p_env 0) p_empty)) = 6%nat ∧
  Postgres.p_name
    <$> Postgres.db_products (PostgresApi.seed_data p_env_reseeded p_empty) !! 7
  = Some "Complex Clarifier Cream" ∧
  Postgres.db_products (PostgresApi.seed_data p_env_reseeded p_empty) !! 1 = None.
Proof.
  destruct (seed_data_idempotent (F:=Q)) as (_ & Hfresh & Hkept & _).
  assert (Postgres.db_products p_empty = ∅) as Hempty by reflexivity.
  split_and!.
  - assert (Postgres.db_products (p_store []) ≠ ∅) as Hne
      by (intros Hnone; apply (f_equal size) in Hnone; vm_compute in Hnone;
          discriminate Hnone).
    exact (Hkept (p_env 0) (p_store []) Hne).
  - exact (proj1 (proj2 (Hfresh (p_env 0) p_empty Hempty))).
  - rewrite (proj1 (Hfresh p_env_reseeded p_empty Hempty)).
    vm_compute. reflexivity.
  - rewrite (proj1 (Hfresh p_env_reseeded p_empty Hempty)).
    vm_compute. reflexivity.
Defined.

Lemma seed_products_adds_admin_witness :
  size (Mongo.db_users m_seeded) = 2%nat ∧
  size (Mongo.db_users (MongoApi.seed_products m_seed_env_again m_seeded)) = 3%nat.
Proof.
  assert (Mongo.db_products (m_store []) ≠ ∅) as Hne
    by (intros Hempty; apply (f_equal size) in Hempty; vm_compute in Hempty;
        discriminate Hempty).
  assert (Mongo.email_registered "admin@queenkoba.com" (m_store []) = false) as Hreg
    by (vm_compute; reflexivity).
  assert (Mongo.db_users (m_store []) !! MongoApi.seed_admin_id m_seed_env = None)
    as Hnew by (vm_compute; reflexivity).
  destruct (seed_products_adds_admin m_seed_env (m_store []) Hne Hreg Hnew)
    as (_ & _ & _ & Hsize & _ & _ & Hne' & Hreg').
  split; [exact Hsize|].
  assert (Mongo.db_users m_seeded !! MongoApi.seed_admin_id m_seed_env_again = None)
    as Hnew' by (vm_compute; reflexivity).
  destruct (seed_products_adds_admin m_seed_env_again m_seeded Hne' Hreg' Hnew')
    as (_ & _ & _ & Hsize' & _).
  rewrite Hsize'. unfold m_seeded. rewrite Hsize. reflexivity.
Defined.

Lemma seed_products_prices_witness :
  size (Mongo.db_products (MongoApi.seed_products m_seed_env m_empty)) = 6%nat.
Proof.
  assert (Mongo.db_products m_empty = ∅) as Hempty by reflexivity.
  assert (NoDup (MongoApi.seed_product_id m_seed_env <$> seq 0 6)) as Hnd
    by decided.
  exact (proj1 (proj2 (seed_products_prices m_seed_env m_empty Hempty Hnd))).
Defined.

Lemma order_code_shape_witness :
  order_code "3f2a9c1e-0b7d-4c55-9a10-6e2f8d4b7c33" = "3F2A9C1E".
Proof.
  assert (String.length "3f2a9c1e" = 8%nat) as Hlen by reflexivity.
  exact (proj2 (proj2 order_code_shape) "3f2a9c1e" "-0b7d-4c55-9a10-6e2f8d4b7c33"
           Hlen).
Defined.

Lemma order_code_collisions_witness :
  ((Postgres.checkout (p_env 200) 1 p_checkout p_refilled).1 = p_refilled ∧
   Postgres.status (Postgres.checkout (p_env 200) 1 p_checkout p_refilled).2 ≠ 200) ∧
  (∃ o o',
     Mongo.db_orders (Mongo.checkout m_env_again ann_id m_checkout m_refilled).1
       !! new_id = Some o ∧
     Mongo.db_orders (Mongo.checkout m_env_again ann_id m_checkout m_refilled).1
       !! second_id = Some o' ∧
     Mongo.order_id o' = Mongo.order_id o).
Proof.
  destruct (order_code_collisions (F:=Q)) as (_ & Hsql & Hdoc).
  split.
  - assert (order_code (Postgres.uuid4 (p_env 200))
              ∈ Postgres.order_id <$> Postgres.db_orders p_refilled) as Hused
      by decided.
    exact (Hsql (p_env 200) 1 p_checkout p_refilled Hused).
  - assert (Mongo.status (Mongo.checkout m_env_again ann_id m_checkout m_refilled).2
            = 200) as Hst by (vm_compute; reflexivity).
    assert (∃ o, Mongo.db_orders m_refilled !! new_id = Some o ∧
                 Mongo.order_id o = order_code (Mongo.uuid4 m_env_again))
      as (o & Ho & Hcode) by (vm_compute; eexists; split; reflexivity).
    destruct (Hdoc m_env_again ann_id m_checkout m_refilled new_id o Hst Ho Hcode)
      as (_ & Hkept & o' & Ho' & Hsame).
    exists o, o'. split_and!; [exact Hkept|exact Ho'|exact Hsame].
Defined.

Lemma payment_methods_by_country_witness :
  MongoApi.PaymentMethod "Visa/Mastercard" "card" "Credit/Debit card"
    ∈ MongoApi.get_payment_methods "Burundi" ∧
  PostgresApi.get_payment_methods "Burundi" = [].
Proof.
  destruct (payment_methods_by_country (F:=Q)) as (Hcard & _ & Hnone & _).
  split.
  - assert (calculate_prices (10 # 1) !! "BIF"
            = Some (Price (28500 # 1) "FBu" "Burundi")) as Hprice
      by (vm_compute; reflexivity).
    exact (Hcard (10 # 1) "BIF" _ Hprice).
  - assert ("Burundi" ∉ ["Kenya"; "Uganda"]) as Hout by decided.
    exact (Hnone "Burundi" Hout).
Defined.

End MoreRuns.
